(** * filesops: a shallow embedding of the search engine, the type classifier
      and the permission-string converters, with the properties the
      specification states about them.

    Conventions of the embedding.
    - JavaScript strings are [string] (one [ascii] per character): the
      embedding is exact on ASCII text, which is what file names, extensions,
      glob patterns and permission strings are in every statement below.
    - JavaScript numbers that hold sizes, depths, timestamps and counts are
      integers in [Z]. A number is a double: where the sources add sizes or
      count entries, the sum is rounded as a double is ([Js.add]). The one
      place where a non-integer number matters ([isTextFile]) has its own
      small number type with [NaN].
    - A [RegExp] is taken without the [g] and [y] flags: its [test] keeps no
      position from one call to the next, and is a function of the text.
    - A function that can throw returns [result]; the walk, which mutates two
      arrays while it may throw, is written in a small state-and-exception
      monad.
    - The platform's [fs] calls are not part of the repository: a directory
      tree ([Node]) stands for what [readdir], [stat] and [readFile] answer. *)

From Stdlib Require Import String Ascii List ZArith QArith Lia Bool DecimalString.
From Stdlib Require Import Sorting.Permutation Sorting.Sorted.
Import ListNotations.
Open Scope string_scope.
Open Scope Z_scope.

Set Implicit Arguments.
Set Warnings "-abstract-large-number".

(** ** Outcomes of calls that may throw *)

Inductive result (A : Type) : Type :=
| Ok (a : A)
| Throw (e : string).

Arguments Ok {A} a.
Arguments Throw {A} e.

Definition isOk {A} (r : result A) : bool :=
  match r with Ok _ => true | Throw _ => false end.

(** ** The string methods the sources call *)

Module Js.

Definition between (lo hi : nat) (c : ascii) : bool :=
  (Nat.leb lo (nat_of_ascii c) && Nat.leb (nat_of_ascii c) hi)%bool.

Definition lowerChar (c : ascii) : ascii :=
  if between 65 90 c then ascii_of_nat (nat_of_ascii c + 32) else c.

Definition upperChar (c : ascii) : ascii :=
  if between 97 122 c then ascii_of_nat (nat_of_ascii c - 32) else c.

Fixpoint mapChars (f : ascii -> ascii) (s : string) : string :=
  match s with
  | EmptyString => EmptyString
  | String c s' => String (f c) (mapChars f s')
  end.

(** [s.toLowerCase()], [s.toUpperCase()] *)
Definition toLowerCase : string -> string := mapChars lowerChar.
Definition toUpperCase : string -> string := mapChars upperChar.

(** [s.startsWith(p)] *)
Fixpoint startsWith (s p : string) {struct p} : bool :=
  match p with
  | EmptyString => true
  | String c p' =>
      match s with
      | EmptyString => false
      | String d s' => (Ascii.eqb d c && startsWith s' p')%bool
      end
  end.

(** [s.includes(p)]: [p] occurs somewhere in [s]. *)
Fixpoint includes (s p : string) : bool :=
  if startsWith s p then true
  else match s with
       | EmptyString => false
       | String _ s' => includes s' p
       end.

(** [s.slice(from, to)] for [0 <= from <= to]. *)
Definition slice (from to : nat) (s : string) : string :=
  String.substring from (to - from) s.

(** [s.replace(/c/g, by)]: every occurrence of the character [c]. *)
Fixpoint replaceAll (c : ascii) (by_ : string) (s : string) : string :=
  match s with
  | EmptyString => EmptyString
  | String d s' =>
      if Ascii.eqb d c then by_ ++ replaceAll c by_ s'
      else String d (replaceAll c by_ s')
  end.

(** [xs.includes(x)] on an array of strings. *)
Definition arrayIncludes (xs : list string) (x : string) : bool :=
  existsb (String.eqb x) xs.

(** [n.toString()] for an integer. *)
Definition numberToString (n : Z) : string :=
  NilZero.string_of_int (Z.to_int n).

(** [Number(c)] for a one-character string holding a decimal digit. *)
Definition digitValue (c : ascii) : Z := Z.of_nat (nat_of_ascii c) - 48.

(** The double nearest to the integer [z]. An integer of magnitude below
    [2^53] is a double. A larger one keeps its 53 leading bits: it is rounded
    to a multiple of [ulp], to the nearest one, and half way between two to
    the one with the even quotient. (The exponent range is left out: a double
    turns into [Infinity] from [2^1024] on, which byte counts and their sums
    do not reach.) *)
Definition roundDouble (z : Z) : Z :=
  let a := Z.abs z in
  if a <? 2 ^ 53 then z
  else
    let ulp := 2 ^ (Z.log2 a - 52) in
    let q := a / ulp in
    let r := a mod ulp in
    let down := q * ulp in
    let up := (q + 1) * ulp in
    let nearest :=
      if 2 * r <? ulp then down
      else if ulp <? 2 * r then up
      else if Z.even q then down else up in
    Z.sgn z * nearest.

(** [a + b] on two doubles that hold integers: the exact sum, rounded
    once. *)
Definition add (a b : Z) : Z := roundDouble (a + b).

End Js.

(** ** PermissionChecker (permissions.ts) *)

Module PermissionChecker.

(** [/^[0-7]{3}$/.test(s)] *)
Definition isOctalString (s : string) : bool :=
  match s with
  | String a (String b (String c EmptyString)) =>
      (Js.between 48 55 a && Js.between 48 55 b && Js.between 48 55 c)%bool
  | _ => false
  end.

Definition oneOf (x y c : ascii) : bool := (Ascii.eqb c x || Ascii.eqb c y)%bool.

(** [/^[r-][w-][x-][r-][w-][x-][r-][w-][x-]$/.test(s)] *)
Definition isSymbolicString (s : string) : bool :=
  match s with
  | String r1 (String w1 (String x1 (String r2 (String w2 (String x2
      (String r3 (String w3 (String x3 EmptyString)))))))) =>
      (oneOf "r" "-" r1 && oneOf "w" "-" w1 && oneOf "x" "-" x1 &&
       oneOf "r" "-" r2 && oneOf "w" "-" w2 && oneOf "x" "-" x2 &&
       oneOf "r" "-" r3 && oneOf "w" "-" w3 && oneOf "x" "-" x3)%bool
  | _ => false
  end.

Definition validatePermissionString (permString : string) : bool :=
  if isOctalString permString then true
  else if isSymbolicString permString then true
  else false.

(** [digit & m ? yes : "-"] *)
Definition flag (digit m : Z) (yes : string) : string :=
  if Z.eqb (Z.land digit m) 0 then "-" else yes.

Definition octalToSymbolic (octal : string) : result string :=
  if negb (isOctalString octal) then Throw "Invalid octal permission format"
  else
    let digits := map Js.digitValue (list_ascii_of_string octal) in
    let groups :=
      map (fun digit =>
             let read := flag digit 4 "r" in
             let write := flag digit 2 "w" in
             let execute := flag digit 1 "x" in
             read ++ write ++ execute) digits in
    Ok (String.concat "" groups).

(** [group[i] === c] *)
Definition charIs (group : string) (i : nat) (c : ascii) : bool :=
  match String.get i group with
  | Some d => Ascii.eqb d c
  | None => false
  end.

Definition symbolicToOctal (symbolic : string) : result string :=
  if negb (isSymbolicString symbolic) then Throw "Invalid symbolic permission format"
  else
    let groups := [ Js.slice 0 3 symbolic; Js.slice 3 6 symbolic; Js.slice 6 9 symbolic ] in
    let digits :=
      map (fun group =>
             let value := 0 in
             let value := if charIs group 0 "r" then value + 4 else value in
             let value := if charIs group 1 "w" then value + 2 else value in
             let value := if charIs group 2 "x" then value + 1 else value in
             Js.numberToString value) groups in
    Ok (String.concat "" digits).

(** What the claim composes: the second conversion applied to the outcome
    of the first. *)
Definition andThen {A B} (r : result A) (f : A -> result B) : result B :=
  match r with Ok a => f a | Throw e => Throw e end.

End PermissionChecker.

(** ** The [path] module of the platform (POSIX flavour)

    Written as functions on the reversed character list; they agree with
    [path.extname], [path.parse(p).base] and [path.join] on the paths the
    walk builds (a directory path without a trailing separator joined with
    an entry name). *)

Module Path.

Definition sep : ascii := "/"%char.
Definition dot : ascii := "."%char.

Fixpoint dropSeps (cs : list ascii) : list ascii :=
  match cs with
  | c :: cs' => if Ascii.eqb c sep then dropSeps cs' else cs
  | [] => []
  end.

Fixpoint untilSep (cs : list ascii) : list ascii :=
  match cs with
  | c :: cs' => if Ascii.eqb c sep then [] else c :: untilSep cs'
  | [] => []
  end.

(** The last component of [p], reversed, trailing separators ignored. *)
Definition revBase (p : string) : list ascii :=
  untilSep (dropSeps (rev (list_ascii_of_string p))).

(** [path.parse(p).base], also [path.basename(p)]. *)
Definition basename (p : string) : string :=
  string_of_list_ascii (rev (revBase p)).

(** Splits a reversed component at its last dot: the reversed extension
    without the dot, and the reversed text before the dot. *)
Fixpoint splitAtDot (rb : list ascii) : option (list ascii * list ascii) :=
  match rb with
  | [] => None
  | c :: rb' =>
      if Ascii.eqb c dot then Some ([], rb')
      else match splitAtDot rb' with
           | Some (e, stem) => Some (c :: e, stem)
           | None => None
           end
  end.

(** [path.extname(p)]: from the last dot of the last component to its end;
    empty when there is no dot, when the dot is the component's first
    character, and for the component [".."]. *)
Definition extname (p : string) : string :=
  match splitAtDot (revBase p) with
  | None => ""
  | Some (_, []) => ""
  | Some (e, _ :: _) =>
      if String.eqb (basename p) ".." then ""
      else String dot (string_of_list_ascii (rev e))
  end.

(** [path.join(dir, item)], on a directory path that is already in normal
    form (no ["."] or [".."] segment, no doubled or trailing separator, not
    ["."] itself) and an entry name: there the joined path is the two texts
    with a separator between them. On another directory path [path.join]
    also normalises, which changes the text before the last segment
    only. *)
Definition join (dir item : string) : string := dir ++ String sep item.

End Path.

(** ** FileTypeDetector (fileType.ts) *)

Record FileTypeInfo : Type := mkFileTypeInfo {
  ft_extension : string;
  ft_mimeType : string;
  ft_category : string;
  ft_description : string;
  ft_isBinary : bool;
  ft_isText : bool;
  ft_isImage : bool;
  ft_isVideo : bool;
  ft_isAudio : bool;
  ft_isArchive : bool;
  ft_isExecutable : bool
}.

(** What a signature of [detectMagicNumbers] stands for. *)
Record MagicInfo : Type := mkMagicInfo {
  mg_mimeType : string;
  mg_category : string;
  mg_description : string;
  mg_isBinary : bool
}.

(** The two results of [number / number] that [isTextFile] can meet, and the
    finite quotients.  For the counts at hand (at most 8192) comparing the
    exact quotient with 3/10 agrees with comparing the doubles: a quotient
    other than 3/10 is farther than 1/81920 from it, and 3/10 itself rounds
    to the double that the literal [0.3] denotes. *)
Inductive JsQuotient : Type :=
| NaN
| Infinity
| Finite (q : Q).

Module FileTypeDetector.

Definition mimeTypes : list (string * string) :=
[
  (".txt", "text/plain"); (".md", "text/markdown"); (".json", "application/json");
  (".xml", "application/xml"); (".html", "text/html"); (".htm", "text/html");
  (".css", "text/css"); (".js", "application/javascript");
  (".ts", "application/typescript"); (".jsx", "application/javascript");
  (".tsx", "application/typescript"); (".py", "text/x-python");
  (".java", "text/x-java-source"); (".cpp", "text/x-c++src"); (".c", "text/x-csrc");
  (".h", "text/x-chdr"); (".php", "application/x-httpd-php");
  (".rb", "application/x-ruby"); (".go", "text/x-go"); (".rs", "text/x-rust");
  (".sh", "application/x-sh"); (".bat", "application/x-bat");
  (".ps1", "application/x-powershell"); (".jpg", "image/jpeg"); (".jpeg", "image/jpeg");
  (".png", "image/png"); (".gif", "image/gif"); (".bmp", "image/bmp");
  (".svg", "image/svg+xml"); (".webp", "image/webp"); (".ico", "image/x-icon");
  (".tiff", "image/tiff"); (".tif", "image/tiff"); (".mp3", "audio/mpeg");
  (".wav", "audio/wav"); (".flac", "audio/flac"); (".aac", "audio/aac");
  (".ogg", "audio/ogg"); (".m4a", "audio/mp4"); (".mp4", "video/mp4");
  (".avi", "video/x-msvideo"); (".mov", "video/quicktime"); (".wmv", "video/x-ms-wmv");
  (".flv", "video/x-flv"); (".webm", "video/webm"); (".mkv", "video/x-matroska");
  (".zip", "application/zip"); (".rar", "application/vnd.rar");
  (".tar", "application/x-tar"); (".gz", "application/gzip");
  (".7z", "application/x-7z-compressed"); (".bz2", "application/x-bzip2");
  (".pdf", "application/pdf"); (".doc", "application/msword");
  (".docx", "application/vnd.openxmlformats-officedocument.wordprocessingml.document");
  (".xls", "application/vnd.ms-excel");
  (".xlsx", "application/vnd.openxmlformats-officedocument.spreadsheetml.sheet");
  (".ppt", "application/vnd.ms-powerpoint");
  (".pptx", "application/vnd.openxmlformats-officedocument.presentationml.presentation");
  (".exe", "application/x-msdownload"); (".msi", "application/x-msi");
  (".deb", "application/vnd.debian.binary-package"); (".rpm", "application/x-rpm");
  (".dmg", "application/x-apple-diskimage"); (".app", "application/x-apple-app")
].

Definition categories : list (string * string) :=
[
  (".txt", "Text"); (".md", "Documentation"); (".json", "Data"); (".xml", "Data");
  (".html", "Web"); (".htm", "Web"); (".css", "Web"); (".js", "Code"); (".ts", "Code");
  (".jsx", "Code"); (".tsx", "Code"); (".py", "Code"); (".java", "Code");
  (".cpp", "Code"); (".c", "Code"); (".h", "Code"); (".php", "Code"); (".rb", "Code");
  (".go", "Code"); (".rs", "Code"); (".sh", "Script"); (".bat", "Script");
  (".ps1", "Script"); (".jpg", "Image"); (".jpeg", "Image"); (".png", "Image");
  (".gif", "Image"); (".bmp", "Image"); (".svg", "Image"); (".webp", "Image");
  (".ico", "Image"); (".tiff", "Image"); (".tif", "Image"); (".mp3", "Audio");
  (".wav", "Audio"); (".flac", "Audio"); (".aac", "Audio"); (".ogg", "Audio");
  (".m4a", "Audio"); (".mp4", "Video"); (".avi", "Video"); (".mov", "Video");
  (".wmv", "Video"); (".flv", "Video"); (".webm", "Video"); (".mkv", "Video");
  (".zip", "Archive"); (".rar", "Archive"); (".tar", "Archive"); (".gz", "Archive");
  (".7z", "Archive"); (".bz2", "Archive"); (".pdf", "Document"); (".doc", "Document");
  (".docx", "Document"); (".xls", "Document"); (".xlsx", "Document");
  (".ppt", "Document"); (".pptx", "Document"); (".exe", "Executable");
  (".msi", "Executable"); (".deb", "Executable"); (".rpm", "Executable");
  (".dmg", "Executable"); (".app", "Executable")
].

Definition descriptions : list (string * string) :=
[
  (".txt", "Plain text file"); (".md", "Markdown document"); (".json", "JSON data file");
  (".xml", "XML document"); (".html", "HTML web page"); (".htm", "HTML web page");
  (".css", "CSS stylesheet"); (".js", "JavaScript file"); (".ts", "TypeScript file");
  (".jsx", "React JavaScript file"); (".tsx", "React TypeScript file");
  (".py", "Python script"); (".java", "Java source file"); (".cpp", "C++ source file");
  (".c", "C source file"); (".h", "C/C++ header file"); (".php", "PHP script");
  (".rb", "Ruby script"); (".go", "Go source file"); (".rs", "Rust source file");
  (".sh", "Shell script"); (".bat", "Batch file"); (".ps1", "PowerShell script");
  (".jpg", "JPEG image"); (".jpeg", "JPEG image"); (".png", "PNG image");
  (".gif", "GIF image"); (".bmp", "Bitmap image"); (".svg", "SVG vector image");
  (".webp", "WebP image"); (".ico", "Icon file"); (".tiff", "TIFF image");
  (".tif", "TIFF image"); (".mp3", "MP3 audio file"); (".wav", "WAV audio file");
  (".flac", "FLAC audio file"); (".aac", "AAC audio file"); (".ogg", "OGG audio file");
  (".m4a", "M4A audio file"); (".mp4", "MP4 video file"); (".avi", "AVI video file");
  (".mov", "QuickTime video"); (".wmv", "Windows Media video"); (".flv", "Flash video");
  (".webm", "WebM video"); (".mkv", "Matroska video"); (".zip", "ZIP archive");
  (".rar", "RAR archive"); (".tar", "TAR archive"); (".gz", "Gzip compressed file");
  (".7z", "7-Zip archive"); (".bz2", "Bzip2 compressed file"); (".pdf", "PDF document");
  (".doc", "Word document"); (".docx", "Word document"); (".xls", "Excel spreadsheet");
  (".xlsx", "Excel spreadsheet"); (".ppt", "PowerPoint presentation");
  (".pptx", "PowerPoint presentation"); (".exe", "Windows executable");
  (".msi", "Windows installer"); (".deb", "Debian package"); (".rpm", "RPM package");
  (".dmg", "macOS disk image"); (".app", "macOS application")
].

Definition binaryExtensions : list string :=
[
  ".exe"; ".dll"; ".so"; ".dylib"; ".bin"; ".dat"; ".jpg"; ".jpeg"; ".png"; ".gif";
  ".bmp"; ".ico"; ".tiff"; ".tif"; ".webp"; ".mp3"; ".wav"; ".flac"; ".aac"; ".ogg";
  ".m4a"; ".mp4"; ".avi"; ".mov"; ".wmv"; ".flv"; ".webm"; ".mkv"; ".zip"; ".rar";
  ".tar"; ".gz"; ".7z"; ".bz2"; ".pdf"; ".doc"; ".docx"; ".xls"; ".xlsx"; ".ppt";
  ".pptx"; ".msi"; ".deb"; ".rpm"; ".dmg"; ".app"
].

Definition executableExtensions : list string :=
[
  ".exe"; ".msi"; ".deb"; ".rpm"; ".dmg"; ".app"; ".sh"; ".bat"; ".ps1"; ".com"; ".cmd"
].

(** [table[key]]: the value, or [undefined]. *)
Fixpoint lookup (table : list (string * string)) (key : string) : option string :=
  match table with
  | [] => None
  | (k, v) :: rest => if String.eqb key k then Some v else lookup rest key
  end.

(** [table[key] || fallback]; no value of the three tables is empty. *)
Definition lookupOr (table : list (string * string)) (key fallback : string) : string :=
  match lookup table key with
  | Some v => v
  | None => fallback
  end.

(** [table[key] === category] *)
Definition categoryIs (key category : string) : bool :=
  match lookup categories key with
  | Some v => String.eqb v category
  | None => false
  end.

(** [set.has(key)] *)
Definition has (set : list string) (key : string) : bool :=
  existsb (String.eqb key) set.

Definition detectFromPath (filePath : string) : FileTypeInfo :=
  let ext := Js.toLowerCase (Path.extname filePath) in
  {| ft_extension := ext;
     ft_mimeType := lookupOr mimeTypes ext "application/octet-stream";
     ft_category := lookupOr categories ext "Unknown";
     ft_description := lookupOr descriptions ext "Unknown file type";
     ft_isBinary := has binaryExtensions ext;
     ft_isText := negb (has binaryExtensions ext);
     ft_isImage := categoryIs ext "Image";
     ft_isVideo := categoryIs ext "Video";
     ft_isAudio := categoryIs ext "Audio";
     ft_isArchive := categoryIs ext "Archive";
     ft_isExecutable := has executableExtensions ext |}.

(** One hexadecimal digit, lower case as [toString('hex')] prints it. *)
Definition hexDigit (n : N) : ascii :=
  if (n <? 10)%N then ascii_of_N (48 + n) else ascii_of_N (87 + n).

(** [buffer.toString('hex')] *)
Fixpoint toHex (buffer : list Byte.byte) : string :=
  match buffer with
  | [] => EmptyString
  | b :: rest =>
      let n := Byte.to_N b in
      String (hexDigit (n / 16)) (String (hexDigit (n mod 16)) (toHex rest))
  end.

(** [buffer.subarray(0, n)] *)
Definition subarray (n : nat) (buffer : list Byte.byte) : list Byte.byte :=
  firstn n buffer.

Definition detectMagicNumbers (buffer : list Byte.byte) : option MagicInfo :=
  if (length buffer <? 4)%nat then None
  else
    let hex := Js.toUpperCase (toHex (subarray 16 buffer)) in
    (* Image formats *)
    if Js.startsWith hex "FFD8FF" then
      Some (mkMagicInfo "image/jpeg" "Image" "JPEG image" true)
    else if Js.startsWith hex "89504E47" then
      Some (mkMagicInfo "image/png" "Image" "PNG image" true)
    else if Js.startsWith hex "47494638" then
      Some (mkMagicInfo "image/gif" "Image" "GIF image" true)
    else if Js.startsWith hex "424D" then
      Some (mkMagicInfo "image/bmp" "Image" "BMP image" true)
    else if (Js.startsWith hex "52494646" && Js.includes hex "57454250")%bool then
      Some (mkMagicInfo "image/webp" "Image" "WebP image" true)
    (* Archive formats *)
    else if (Js.startsWith hex "504B0304" || Js.startsWith hex "504B0506"
             || Js.startsWith hex "504B0708")%bool then
      Some (mkMagicInfo "application/zip" "Archive" "ZIP archive" true)
    else if Js.startsWith hex "526172211A07" then
      Some (mkMagicInfo "application/vnd.rar" "Archive" "RAR archive" true)
    else if Js.startsWith hex "377ABCAF271C" then
      Some (mkMagicInfo "application/x-7z-compressed" "Archive" "7-Zip archive" true)
    else if Js.startsWith hex "1F8B" then
      Some (mkMagicInfo "application/gzip" "Archive" "Gzip compressed file" true)
    (* Document formats *)
    else if Js.startsWith hex "25504446" then
      Some (mkMagicInfo "application/pdf" "Document" "PDF document" true)
    (* Executable formats *)
    else if Js.startsWith hex "4D5A" then
      Some (mkMagicInfo "application/x-msdownload" "Executable" "Windows executable" true)
    (* Audio formats *)
    else if (Js.startsWith hex "494433" || Js.startsWith hex "FFFB"
             || Js.startsWith hex "FFF3" || Js.startsWith hex "FFF2")%bool then
      Some (mkMagicInfo "audio/mpeg" "Audio" "MP3 audio file" true)
    else if (Js.startsWith hex "52494646" && Js.includes hex "57415645")%bool then
      Some (mkMagicInfo "audio/wav" "Audio" "WAV audio file" true)
    (* Video formats *)
    else if (Js.includes hex "667479706D703432" || Js.includes hex "667479706D703431")%bool then
      Some (mkMagicInfo "video/mp4" "Video" "MP4 video file" true)
    else if (Js.startsWith hex "52494646" && Js.includes hex "415649")%bool then
      Some (mkMagicInfo "video/x-msvideo" "Video" "AVI video file" true)
    else None.

(** [detectFromContent(filePath)], given what [readFile(filePath)] answers:
    the bytes of the file, or an exception. *)
Definition detectFromContent (filePath : string)
    (readFile : result (list Byte.byte)) : FileTypeInfo :=
  let baseInfo := detectFromPath filePath in
  match readFile with
  | Ok buffer =>
      match detectMagicNumbers buffer with
      | Some magicInfo =>
          {| ft_extension := ft_extension baseInfo;
             ft_mimeType := mg_mimeType magicInfo;
             ft_category := mg_category magicInfo;
             ft_description := mg_description magicInfo;
             ft_isBinary := mg_isBinary magicInfo;
             ft_isText := negb (mg_isBinary magicInfo);
             ft_isImage := String.eqb (mg_category magicInfo) "Image";
             ft_isVideo := String.eqb (mg_category magicInfo) "Video";
             ft_isAudio := String.eqb (mg_category magicInfo) "Audio";
             ft_isArchive := String.eqb (mg_category magicInfo) "Archive";
             ft_isExecutable := ft_isExecutable baseInfo |}
      | None => baseInfo
      end
  | Throw _ => baseInfo   (* fall back to extension-based detection *)
  end.

(** [a / b] for two counts. *)
Definition divide (a b : Z) : JsQuotient :=
  if b =? 0 then (if a =? 0 then NaN else Infinity)
  else Finite (a # Z.to_pos b).

(** [x < 0.3] *)
Definition lessThan03 (x : JsQuotient) : bool :=
  match x with
  | NaN => false
  | Infinity => false
  | Finite q => match Qcompare q (3 # 10) with Lt => true | _ => false end
  end.

(** The loop of [isTextFile] over the sample, from index [0]. *)
Fixpoint countNonPrintable (sample : string) (nonPrintable : Z) : Z :=
  match sample with
  | EmptyString => nonPrintable
  | String ch rest =>
      let char := Z.of_nat (nat_of_ascii ch) in
      if ((char <? 32) && negb (char =? 9) && negb (char =? 10) && negb (char =? 13))%bool
      then countNonPrintable rest (nonPrintable + 1)
      else countNonPrintable rest nonPrintable
  end.

(** [isTextFile(filePath)], given what
    [readFile(filePath, { encoding: 'binary' })] answers: the content, one
    character per byte, or an exception. *)
Definition isTextFile (readFile : result string) : bool :=
  match readFile with
  | Ok buffer =>
      let sample := Js.slice 0 8192 buffer in
      let nonPrintable := countNonPrintable sample 0 in
      lessThan03 (divide nonPrintable (Z.of_nat (String.length sample)))
  | Throw _ => false
  end.

End FileTypeDetector.

(** ** A fragment of the platform's [RegExp]

    [new RegExp(source).test(subject)] without flags, for sources built from
    literal characters, [.], escaped punctuation, the quantifiers [*], [+],
    [?] (greedy or lazy), groups, alternatives and the assertions [^] and
    [$].  Matching is by derivatives that know whether the current position
    is the start or the end of the subject.  Character classes, braces,
    group modifiers and letter or digit escapes are outside the fragment. *)

Module RegExpFragment.

Inductive re : Type :=
| Fail
| Eps
| Chr (c : ascii)
| Dot
| Seq (a b : re)
| Alt (a b : re)
| Star (a : re)
| Bol
| Eol.

Inductive compiled : Type :=
| Compiled (r : re)
| SyntaxError (message : string)
| Unsupported.

(** [.] matches any character but a line terminator. *)
Definition lineTerminator (c : ascii) : bool :=
  (Ascii.eqb c "010" || Ascii.eqb c "013")%bool.

(** Does [r] match the empty word at a position that is the start
    ([bos]) or the end ([eos]) of the subject? *)
Fixpoint nullable (bos eos : bool) (r : re) : bool :=
  match r with
  | Fail => false
  | Eps => true
  | Chr _ => false
  | Dot => false
  | Seq a b => (nullable bos eos a && nullable bos eos b)%bool
  | Alt a b => (nullable bos eos a || nullable bos eos b)%bool
  | Star _ => true
  | Bol => bos
  | Eol => eos
  end.

(** What remains to be matched after [r] has consumed [c] at a position
    that is the start of the subject iff [bos]. *)
Fixpoint deriv (bos : bool) (c : ascii) (r : re) : re :=
  match r with
  | Fail => Fail
  | Eps => Fail
  | Chr d => if Ascii.eqb c d then Eps else Fail
  | Dot => if lineTerminator c then Fail else Eps
  | Seq a b =>
      if nullable bos false a
      then Alt (Seq (deriv bos c a) b) (deriv bos c b)
      else Seq (deriv bos c a) b
  | Alt a b => Alt (deriv bos c a) (deriv bos c b)
  | Star a => Seq (deriv bos c a) (Star a)
  | Bol => Fail
  | Eol => Fail
  end.

(** Does [r] match a prefix of [s]? *)
Fixpoint matchHere (bos : bool) (r : re) (s : string) : bool :=
  match s with
  | EmptyString => nullable bos true r
  | String c s' => (nullable bos false r || matchHere false (deriv bos c r) s')%bool
  end.

(** Does [r] match at some position of [s] other than the start of the
    subject? *)
Fixpoint matchLater (r : re) (s : string) : bool :=
  (matchHere false r s ||
   match s with
   | EmptyString => false
   | String _ s' => matchLater r s'
   end)%bool.

(** [regexp.test(s)]: a match starting anywhere. *)
Definition exec (r : re) (s : string) : bool :=
  (matchHere true r s ||
   match s with
   | EmptyString => false
   | String _ s' => matchLater r s'
   end)%bool.

(** *** Reading the source *)

(** An alternation under construction: the alternatives already closed and
    the terms of the current one, both latest first. *)
Record frame : Type := mkFrame {
  closed : list re;
  terms : list re
}.

(** What the latest term allows to follow it. *)
Inductive latest : Type :=
| NoAtom          (* nothing, or an assertion: a quantifier is an error *)
| Atom            (* an atom: any quantifier may follow *)
| Quantified.     (* a quantified atom: only the lazy mark [?] may follow *)

Definition sequence (ts : list re) : re :=
  fold_left (fun acc t => Seq t acc) ts Eps.

Definition closeFrame (f : frame) : re :=
  fold_left (fun acc a => Alt a acc) (closed f) (sequence (terms f)).

Definition addTerm (t : re) (f : frame) : frame :=
  mkFrame (closed f) (t :: terms f).

Definition quantify (q : re -> re) (f : frame) : frame :=
  match terms f with
  | t :: ts => mkFrame (closed f) (q t :: ts)
  | [] => f
  end.

Definition isAlphaNum (c : ascii) : bool :=
  (Js.between 48 57 c || Js.between 65 90 c || Js.between 97 122 c)%bool.

Definition nothingToRepeat : compiled := SyntaxError "Nothing to repeat".

Fixpoint parse (src : string) (cur : frame) (st : latest) (stack : list frame) : compiled :=
  match src with
  | EmptyString =>
      match stack with
      | [] => Compiled (closeFrame cur)
      | _ :: _ => SyntaxError "Unterminated group"
      end
  | String "(" (String "?" _) => Unsupported
  | String "(" rest => parse rest (mkFrame [] []) NoAtom (cur :: stack)
  | String ")" rest =>
      match stack with
      | [] => SyntaxError "Unmatched ')'"
      | parent :: stack' => parse rest (addTerm (closeFrame cur) parent) Atom stack'
      end
  | String "|" rest =>
      parse rest (mkFrame (sequence (terms cur) :: closed cur) []) NoAtom stack
  | String "*" rest =>
      match st with
      | Atom => parse rest (quantify Star cur) Quantified stack
      | _ => nothingToRepeat
      end
  | String "+" rest =>
      match st with
      | Atom => parse rest (quantify (fun t => Seq t (Star t)) cur) Quantified stack
      | _ => nothingToRepeat
      end
  | String "?" rest =>
      match st with
      | Atom => parse rest (quantify (fun t => Alt t Eps) cur) Quantified stack
      | Quantified => parse rest cur NoAtom stack
      | NoAtom => nothingToRepeat
      end
  | String "." rest => parse rest (addTerm Dot cur) Atom stack
  | String "^" rest => parse rest (addTerm Bol cur) NoAtom stack
  | String "$" rest => parse rest (addTerm Eol cur) NoAtom stack
  | String "\" EmptyString => SyntaxError "\ at end of pattern"
  | String "\" (String c rest) =>
      if isAlphaNum c then Unsupported
      else parse rest (addTerm (Chr c) cur) Atom stack
  | String "[" _ => Unsupported
  | String "{" _ => Unsupported
  | String c rest => parse rest (addTerm (Chr c) cur) Atom stack
  end.

(** [new RegExp(source)] *)
Definition compile (source : string) : compiled :=
  parse source (mkFrame [] []) NoAtom [].

(** [new RegExp(source).test(subject)].  A source outside the fragment is
    reported as a failure of its own kind; the statements of this file use
    the fragment only on sources inside it. *)
Definition test (source subject : string) : result bool :=
  match compile source with
  | Compiled r => Ok (exec r subject)
  | SyntaxError message => Throw ("SyntaxError: " ++ message)
  | Unsupported => Throw "outside the modelled fragment"
  end.

End RegExpFragment.

(** ** The data of the search (types.ts) *)

Record FileInfo : Type := mkFileInfo {
  fi_path : string;
  fi_name : string;
  fi_extension : string;
  fi_size : Z;
  fi_isDirectory : bool;
  fi_isFile : bool;
  fi_createdAt : Z;
  fi_modifiedAt : Z;
  fi_accessedAt : Z
}.

(** [pattern?: string | RegExp]: a glob-like string, or a compiled regular
    expression, which the walk only ever asks to [test] a name. The regular
    expression is one without the [g] and [y] flags, whose [test] does not
    depend on the calls made before. *)
Inductive Pattern : Type :=
| PatString (s : string)
| PatRegExp (test : string -> bool).

(** Every option may be absent ([None] is [undefined]). *)
Record SearchOptions : Type := mkSearchOptions {
  pattern : option Pattern;
  extensions : option (list string);
  maxDepth : option Z;
  includeHidden : option bool;
  caseSensitive : option bool;
  followSymlinks : option bool;
  maxSize : option Z;
  minSize : option Z;
  modifiedSince : option Z;
  modifiedBefore : option Z
}.

(** [{}], the default of [search]. *)
Definition noOptions : SearchOptions :=
  mkSearchOptions None None None None None None None None None None.

Record SearchResult : Type := mkSearchResult {
  files : list FileInfo;
  directories : list FileInfo;
  totalFiles : Z;
  totalDirectories : Z;
  totalSize : Z
}.

(** ** What the file system answers

    [fs.stat] follows symbolic links: it describes what a path resolves to,
    and fails when that does not exist or cannot be reached.  [fs.lstat]
    describes the link itself.  A directory entry is therefore a name, a
    flag telling whether the entry itself is a symbolic link, and the node
    the path resolves to. *)

Inductive FileType : Type := S_IFREG | S_IFDIR | S_IFLNK | S_IFOTHER.

Record Meta : Type := mkMeta {
  m_size : Z;
  m_birthtime : Z;
  m_mtime : Z;
  m_atime : Z
}.

Record Stats : Type := mkStats {
  st_meta : Meta;
  st_type : FileType
}.

#[local] Unset Elimination Schemes.
Inductive Node : Type :=
| File (meta : Meta)
| Dir (meta : Meta) (listing : option (list (string * bool * Node)))
    (* [None]: the directory cannot be listed *)
| Other (meta : Meta)                   (* socket, pipe, device *)
| Gone.                                 (* missing, dangling or unreachable *)
#[local] Set Elimination Schemes.

Definition Entry : Type := (string * bool * Node)%type.

Module Fs.

Definition isFile (s : Stats) : bool :=
  match st_type s with S_IFREG => true | _ => false end.
Definition isDirectory (s : Stats) : bool :=
  match st_type s with S_IFDIR => true | _ => false end.
Definition isSymbolicLink (s : Stats) : bool :=
  match st_type s with S_IFLNK => true | _ => false end.

(** [stat(path)] where [path] resolves to [node]. *)
Definition stat (node : Node) : result Stats :=
  match node with
  | File meta => Ok (mkStats meta S_IFREG)
  | Dir meta _ => Ok (mkStats meta S_IFDIR)
  | Other meta => Ok (mkStats meta S_IFOTHER)
  | Gone => Throw "ENOENT"
  end.

(** [lstat(path)] for a directory entry: a link is described as a link,
    whatever it points to.  The search never calls it. *)
Definition lstat (viaLink : bool) (linkMeta : Meta) (node : Node) : result Stats :=
  if viaLink then Ok (mkStats linkMeta S_IFLNK) else stat node.

(** [readdir(path)] where [path] resolves to [node]. *)
Definition readdir (node : Node) : result (list Entry) :=
  match node with
  | Dir _ (Some items) => Ok items
  | Dir _ None => Throw "EACCES"
  | File _ => Throw "ENOTDIR"
  | Other _ => Throw "ENOTDIR"
  | Gone => Throw "ENOENT"
  end.

End Fs.

(** ** Mutable accumulators and exceptions

    The walk pushes onto two arrays shared by all its recursive calls and
    may be interrupted by an exception at any [await]; what was pushed
    before the exception stays pushed. *)

Record Arrays : Type := mkArrays {
  a_files : list FileInfo;
  a_directories : list FileInfo
}.

Definition M (A : Type) : Type := Arrays -> result A * Arrays.

Definition ret {A} (a : A) : M A := fun s => (Ok a, s).

Definition bind {A B} (m : M A) (k : A -> M B) : M B :=
  fun s => match m s with
           | (Ok a, s') => k a s'
           | (Throw e, s') => (Throw e, s')
           end.

(** A call that may throw and touches no array. *)
Definition lift {A} (r : result A) : M A := fun s => (r, s).

(** [try { m } catch (error) { h }] *)
Definition tryCatch {A} (m : M A) (h : string -> M A) : M A :=
  fun s => match m s with
           | (Ok a, s') => (Ok a, s')
           | (Throw e, s') => h e s'
           end.

(** [files.push(fileInfo)], [directories.push(fileInfo)] *)
Definition pushFile (fileInfo : FileInfo) : M unit :=
  fun s => (Ok tt, mkArrays (a_files s ++ [fileInfo]) (a_directories s)).
Definition pushDirectory (fileInfo : FileInfo) : M unit :=
  fun s => (Ok tt, mkArrays (a_files s) (a_directories s ++ [fileInfo])).

Declare Scope walk_scope.
Delimit Scope walk_scope with walk.
Notation "x <- m ;; k" := (bind m (fun x => k))
  (at level 61, m at next level, right associativity) : walk_scope.
Notation "m ;; k" := (bind m (fun _ => k))
  (at level 61, right associativity) : walk_scope.

(** ** FileSearch (search.ts) *)

Module FileSearch.

(** [x || false], [!x] on an optional boolean. *)
Definition truthy (b : option bool) : bool :=
  match b with Some true => true | _ => false end.

(** [n && ...] on an optional number: absent and [0] are falsy. *)
Definition given (n : option Z) : option Z :=
  match n with
  | Some v => if v =? 0 then None else Some v
  | None => None
  end.

(** [options.pattern || '*'] *)
Definition patternOrStar (p : option Pattern) : Pattern :=
  match p with
  | Some (PatString "") => PatString "*"
  | Some q => q
  | None => PatString "*"
  end.

Definition getFileInfo (filePath : string) (node : Node) : result FileInfo :=
  match Fs.stat node with
  | Throw e => Throw e
  | Ok stats =>
      Ok {| fi_path := filePath;
            fi_name := Path.basename filePath;
            fi_extension := Path.extname filePath;
            fi_size := m_size (st_meta stats);
            fi_isDirectory := Fs.isDirectory stats;
            fi_isFile := Fs.isFile stats;
            fi_createdAt := m_birthtime (st_meta stats);
            fi_modifiedAt := m_mtime (st_meta stats);
            fi_accessedAt := m_atime (st_meta stats) |}
  end.

(** The glob-like translation of [matchesPattern]: the three [replace]
    calls, in their order. *)
Definition regexPattern (targetPattern : string) : string :=
  Js.replaceAll "?" "."
    (Js.replaceAll "*" ".*"
       (Js.replaceAll "." "\." targetPattern)).

(** [`.${e}`] unless [e] starts with a dot. *)
Definition withDot (e : string) : string :=
  if Js.startsWith (Js.toLowerCase e) "." then e else String "." e.

Definition matchesOptions (fileInfo : FileInfo) (options : SearchOptions) : bool :=
  (* Extension filter *)
  if match extensions options with
     | Some (e :: es) =>
         let ext := Js.toLowerCase (fi_extension fileInfo) in
         let extensions := map withDot (e :: es) in
         negb (Js.arrayIncludes extensions ext)
     | _ => false
     end
  then false
  (* Size filters *)
  else if match given (maxSize options) with
          | Some m => fi_size fileInfo >? m
          | None => false
          end
  then false
  else if match given (minSize options) with
          | Some m => fi_size fileInfo <? m
          | None => false
          end
  then false
  (* Date filters *)
  else if match modifiedSince options with
          | Some d => fi_modifiedAt fileInfo <? d
          | None => false
          end
  then false
  else if match modifiedBefore options with
          | Some d => fi_modifiedAt fileInfo >? d
          | None => false
          end
  then false
  else true.

(** [options.maxDepth !== undefined && currentDepth > options.maxDepth] *)
Definition beyondDepth (options : SearchOptions) (currentDepth : Z) : bool :=
  match maxDepth options with
  | Some m => currentDepth >? m
  | None => false
  end.

Section Walk.

(** [new RegExp(source).test(subject)] of the platform. *)
Variable regExpTest : string -> string -> result bool.

Definition matchesPattern (filename : string) (pattern : Pattern)
    (caseSensitive : bool) : result bool :=
  match pattern with
  | PatRegExp test => Ok (test filename)
  | PatString pattern =>
      let targetName := if caseSensitive then filename else Js.toLowerCase filename in
      let targetPattern := if caseSensitive then pattern else Js.toLowerCase pattern in
      regExpTest ("^" ++ regexPattern targetPattern ++ "$") targetName
  end.

Variable options : SearchOptions.

Local Open Scope walk_scope.

Section Items.

(** The recursive call on a subdirectory, one level deeper. *)
Variable recurse : string -> Node -> M unit.
Variable currentPath : string.

(** The body of the [try] inside the loop, for one item. *)
Definition visit (itemPath : string) (node : Node) : M unit :=
  fileInfo <- lift (getFileInfo itemPath node) ;;
  (* Handle symlinks *)
  stats <- lift (Fs.stat node) ;;
  if (negb (truthy (followSymlinks options)) && Fs.isSymbolicLink stats)%bool
  then ret tt
  else if fi_isDirectory fileInfo then
    matched <- lift (matchesPattern (fi_name fileInfo)
                       (patternOrStar (pattern options))
                       (truthy (caseSensitive options))) ;;
    (if matched then pushDirectory fileInfo else ret tt) ;;
    (* Recursively search subdirectories *)
    recurse itemPath node
  else if fi_isFile fileInfo then
    matched <- lift (matchesPattern (fi_name fileInfo)
                       (patternOrStar (pattern options))
                       (truthy (caseSensitive options))) ;;
    if (matched && matchesOptions fileInfo options)%bool
    then pushFile fileInfo
    else ret tt
  else ret tt.

(** [for (const item of items) { ... }] *)
Fixpoint forItems (items : list Entry) : M unit :=
  match items with
  | [] => ret tt
  | (item, _, node) :: rest =>
      (* Skip hidden files if not included *)
      if (negb (truthy (includeHidden options)) && Js.startsWith item ".")%bool
      then forItems rest
      else
        tryCatch (visit (Path.join currentPath item) node)
                 (fun _ => ret tt) ;;   (* skip files that can't be accessed *)
        forItems rest
  end.

End Items.

(** [searchRecursive(currentPath, options, files, directories,
    currentDepth)], where [currentPath] resolves to [node].  The listing
    is taken from the node in place ([Fs.readdir], see
    [searchRecursive_readdir] below). *)
Fixpoint searchRecursive (currentPath : string) (node : Node)
    (currentDepth : Z) {struct node} : M unit :=
  (* Check depth limit *)
  if beyondDepth options currentDepth then ret tt
  else
    tryCatch
      match node with
      | Dir _ (Some items) =>
          forItems (fun itemPath child => searchRecursive itemPath child (currentDepth + 1))
                   currentPath items
      | Dir _ None => lift (Throw "EACCES")
      | File _ => lift (Throw "ENOTDIR")
      | Other _ => lift (Throw "ENOTDIR")
      | Gone => lift (Throw "ENOENT")
      end
      (fun _ => ret tt).   (* skip directories that can't be read *)

(** [files.reduce((sum, file) => sum + file.size, 0)] *)
Definition reduceSize (files : list FileInfo) : Z :=
  fold_left (fun sum file => Js.add sum (fi_size file)) files 0.

(** [search(searchPath, options)], where [searchPath] resolves to
    [root]. *)
Definition search (searchPath : string) (root : Node) : result SearchResult :=
  let files := [] in
  let directories := [] in
  match searchRecursive searchPath root 0 (mkArrays files directories) with
  | (Throw e, _) => Throw e
  | (Ok _, arrays) =>
      let files := a_files arrays in
      let directories := a_directories arrays in
      let totalSize := reduceSize files in
      Ok {| files := files;
            directories := directories;
            totalFiles := Z.of_nat (length files);
            totalDirectories := Z.of_nat (length directories);
            totalSize := totalSize |}
  end.

End Walk.

End FileSearch.

(** ** Definitions the statements use *)

(** Induction on directory trees, with the property available for every
    entry of a listing. *)
Section NodeInduction.

Variable P : Node -> Prop.
Hypothesis HFile : forall meta, P (File meta).
Hypothesis HUnlisted : forall meta, P (Dir meta None).
Hypothesis HDir : forall meta items,
  Forall (fun e : Entry => P (snd e)) items -> P (Dir meta (Some items)).
Hypothesis HOther : forall meta, P (Other meta).
Hypothesis HGone : P Gone.

Fixpoint Node_induction (n : Node) : P n :=
  match n with
  | File meta => HFile meta
  | Dir meta None => HUnlisted meta
  | Dir meta (Some items) =>
      HDir meta
        ((fix entries (l : list Entry) : Forall (fun e : Entry => P (snd e)) l :=
            match l with
            | [] => Forall_nil _
            | e :: l' =>
                Forall_cons e
                  (match e return P (snd e) with (_, child) => Node_induction child end)
                  (entries l')
            end) items)
  | Other meta => HOther meta
  | Gone => HGone
  end.

End NodeInduction.

(** [{ ...o, followSymlinks: b }], [{ ...o, maxDepth: m }] and
    [{ extensions: es }]. *)
Definition withFollowSymlinks (b : option bool) (o : SearchOptions) : SearchOptions :=
  mkSearchOptions (pattern o) (extensions o) (maxDepth o) (includeHidden o)
    (caseSensitive o) b (maxSize o) (minSize o) (modifiedSince o) (modifiedBefore o).

Definition withMaxDepth (m : option Z) (o : SearchOptions) : SearchOptions :=
  mkSearchOptions (pattern o) (extensions o) m (includeHidden o)
    (caseSensitive o) (followSymlinks o) (maxSize o) (minSize o)
    (modifiedSince o) (modifiedBefore o).

Definition onlyExtensions (es : list string) : SearchOptions :=
  mkSearchOptions None (Some es) None None None None None None None None.

(** The result with nothing in it. *)
Definition emptyResult : SearchResult := mkSearchResult [] [] 0 0 0.

(** An entry of a listing with the listing of its own, if it is a
    directory, replaced by the empty one. *)
Definition emptied (e : Entry) : Entry :=
  match e with
  | (item, viaLink, Dir meta _) => (item, viaLink, Dir meta (Some []))
  | _ => e
  end.

(** The sum of the sizes of a list of entries. *)
Definition sumSizes (files : list FileInfo) : Z :=
  fold_right (fun file rest => fi_size file + rest) 0 files.

(** A glob pattern without [.], [*] and [?]. *)
Fixpoint plain (s : string) : bool :=
  match s with
  | EmptyString => true
  | String c s' =>
      (negb (Ascii.eqb c ".") && negb (Ascii.eqb c "*") && negb (Ascii.eqb c "?")
       && plain s')%bool
  end.

(** The bytes [89 50 4E 47] and what their signature stands for. *)
Definition pngSignature : list Byte.byte := [Byte.x89; Byte.x50; Byte.x4e; Byte.x47].
Definition pngInfo : MagicInfo := mkMagicInfo "image/png" "Image" "PNG image" true.

(** The tree of the depth scenario: a file at the root and a subdirectory
    holding a file. *)
Definition depthTree (root sub : Meta) (a b : Meta) : Node :=
  Dir root (Some [ ("a.txt", false, File a);
                   ("sub", false, Dir sub (Some [ ("b.txt", false, File b) ])) ]).

(** A directory whose two entries are symbolic links, one to a regular file
    and one to a directory holding a file. *)
Definition linkTree (m : Meta) : Node :=
  Dir m (Some [ ("link.txt", true, File m);
                ("linkdir", true, Dir m (Some [ ("inner.txt", false, File m) ])) ]).

(** The paths of a list of entries. *)
Definition paths (l : list FileInfo) : list string := map fi_path l.

(** The recursive call that [searchRecursive] hands to its loop at
    [currentDepth]. *)
Definition deeper (regExpTest : string -> string -> result bool)
    (options : SearchOptions) (currentDepth : Z) : string -> Node -> M unit :=
  fun itemPath child =>
    FileSearch.searchRecursive regExpTest options itemPath child (currentDepth + 1).


(** * The rest of the library *)

(** ** [Array.prototype.sort] with a comparator

    The platform's sort is stable; with a comparator that orders by a
    number, the stable result is unique, and insertion from the right
    computes it. *)

Section Sort.

Variable A : Type.
Variable compareFn : A -> A -> Z.

Fixpoint insertSorted (x : A) (l : list A) : list A :=
  match l with
  | [] => [x]
  | y :: l' => if compareFn x y <=? 0 then x :: y :: l' else y :: insertSorted x l'
  end.

Fixpoint sortBy (l : list A) : list A :=
  match l with
  | [] => []
  | x :: l' => insertSorted x (sortBy l')
  end.

End Sort.

(** ** FileSearch, the finders (search.ts) *)

Module Finders.

(** [result.files] of an awaited search. *)
Definition filesOf (r : result SearchResult) : result (list FileInfo) :=
  match r with
  | Ok result => Ok (files result)
  | Throw e => Throw e
  end.

(** [(a, b) => b.size - a.size] *)
Definition bySizeDescending (a b : FileInfo) : Z := fi_size b - fi_size a.

(** [(a, b) => b.modifiedAt.getTime() - a.modifiedAt.getTime()] *)
Definition byTimeDescending (a b : FileInfo) : Z := fi_modifiedAt b - fi_modifiedAt a.

Section WithRegExp.

Variable regExpTest : string -> string -> result bool.

Definition findByName (searchPath : string) (root : Node) (pattern : Pattern)
    (caseSensitive : bool) : result (list FileInfo) :=
  filesOf (FileSearch.search regExpTest
             (mkSearchOptions (Some pattern) None None None (Some caseSensitive)
                None None None None None)
             searchPath root).

Definition findByExtension (searchPath : string) (root : Node)
    (extensions : list string) : result (list FileInfo) :=
  filesOf (FileSearch.search regExpTest
             (mkSearchOptions None (Some extensions) None None None None None None None None)
             searchPath root).

Definition findLargeFiles (searchPath : string) (root : Node) (minSize : Z)
    : result (list FileInfo) :=
  match FileSearch.search regExpTest
          (mkSearchOptions None None None None None None None (Some minSize) None None)
          searchPath root with
  | Ok result => Ok (sortBy bySizeDescending (files result))
  | Throw e => Throw e
  end.

Definition findRecentFiles (searchPath : string) (root : Node) (since : Z)
    : result (list FileInfo) :=
  match FileSearch.search regExpTest
          (mkSearchOptions None None None None None None None None (Some since) None)
          searchPath root with
  | Ok result => Ok (sortBy byTimeDescending (files result))
  | Throw e => Throw e
  end.

End WithRegExp.

End Finders.

(** ** FileTypeDetector, the table queries (fileType.ts) *)

Module FileTypeQueries.

(** [Object.keys(this.mimeTypes)] *)
Definition getSupportedExtensions : list string :=
  map fst FileTypeDetector.mimeTypes.

(** [Object.entries(this.categories).filter(([, cat]) => cat === category)
    .map(([ext]) => ext)] *)
Definition getExtensionsByCategory (category : string) : list string :=
  map fst (filter (fun entry : string * string => String.eqb (snd entry) category)
             FileTypeDetector.categories).

End FileTypeQueries.

(** ** PermissionChecker, the permission bits (permissions.ts) *)

Record Triple : Type := mkTriple {
  t_read : bool;
  t_write : bool;
  t_execute : bool
}.

Record PermissionInfo : Type := mkPermissionInfo {
  p_readable : bool;
  p_writable : bool;
  p_executable : bool;
  p_owner : Triple;
  p_group : Triple;
  p_others : Triple;
  p_mode : Z;
  p_octal : string
}.

Module Permissions.

(** [!!(mode & mask)] *)
Definition bitSet (mode mask : Z) : bool := negb (Z.land mode mask =? 0).

(** The digits of [n.toString(8)] for [n >= 0], most significant first;
    [fuel] bounds their number. *)
Fixpoint octalDigits (fuel : nat) (n : Z) (acc : string) : string :=
  match fuel with
  | O => acc
  | S fuel' =>
      let acc' := String (ascii_of_nat (48 + Z.to_nat (n mod 8))) acc in
      if n / 8 =? 0 then acc' else octalDigits fuel' (n / 8) acc'
  end.

(** [n.toString(8)] for [n >= 0]. *)
Definition toStringOctal (n : Z) : string :=
  octalDigits (S (Z.to_nat (Z.log2 n))) n "".

Fixpoint repeatChar (n : nat) (c : ascii) : string :=
  match n with
  | O => EmptyString
  | S n' => String c (repeatChar n' c)
  end.

(** [s.padStart(targetLength, c)] for a one-character [c]. *)
Definition padStart (targetLength : nat) (c : ascii) (s : string) : string :=
  repeatChar (targetLength - String.length s) c ++ s.

(** [getPermissions(filePath)], given what [stat(filePath)] answers (the
    mode, or an exception) and what the three [access] probes answer. *)
Definition getPermissions (filePath : string) (statMode : result Z)
    (canRead canWrite canExecute : bool) : result PermissionInfo :=
  match statMode with
  | Ok mode =>
      Ok {| p_readable := canRead;
            p_writable := canWrite;
            p_executable := canExecute;
            p_owner := mkTriple (bitSet mode 256) (bitSet mode 128) (bitSet mode 64);
            p_group := mkTriple (bitSet mode 32) (bitSet mode 16) (bitSet mode 8);
            p_others := mkTriple (bitSet mode 4) (bitSet mode 2) (bitSet mode 1);
            p_mode := mode;
            p_octal := padStart 3 "0" (toStringOctal (Z.land mode 511)) |}
  | Throw _ => Throw ("Unable to get permissions for: " ++ filePath)
  end.

Definition formatGroup (perms : Triple) : string :=
  (if t_read perms then "r" else "-") ++
  (if t_write perms then "w" else "-") ++
  (if t_execute perms then "x" else "-").

Definition formatPermissions (permissions : PermissionInfo) : string :=
  formatGroup (p_owner permissions) ++ formatGroup (p_group permissions)
  ++ formatGroup (p_others permissions).





End Permissions.

(** ** SizeCalculator, the walks (size.ts) *)

(** The accumulator of [gatherDirectoryStats]. *)
Record DirStats : Type := mkDirStats {
  ds_totalSize : Z;
  ds_fileCount : Z;
  ds_directoryCount : Z;
  ds_largestFiles : list (string * Z)
}.

Module SizeCalculator.

(** [!includeHidden && item.startsWith('.')] *)
Definition skipped (includeHidden : bool) (item : string) : bool :=
  (negb includeHidden && Js.startsWith item ".")%bool.

Section Loops.

Variable dirPath : string.
Variable includeHidden : bool.

(** The loop of [calculateDirectorySizeRecursive]; [recurse] is the call on
    a subdirectory. *)
Fixpoint sizeLoop (recurse : string -> Node -> Z) (items : list Entry)
    (totalSize : Z) : Z :=
  match items with
  | [] => totalSize
  | (item, _, node) :: rest =>
      if skipped includeHidden item then sizeLoop recurse rest totalSize
      else
        let itemPath := Path.join dirPath item in
        match Fs.stat node with
        | Ok stats =>
            if Fs.isFile stats
            then sizeLoop recurse rest (Js.add totalSize (m_size (st_meta stats)))
            else if Fs.isDirectory stats
            then sizeLoop recurse rest (Js.add totalSize (recurse itemPath node))
            else sizeLoop recurse rest totalSize
        | Throw _ => sizeLoop recurse rest totalSize   (* skip *)
        end
  end.

(** The loop of [gatherDirectoryStats]. *)
Fixpoint statsLoop (recurse : string -> Node -> DirStats -> DirStats)
    (items : list Entry) (stats : DirStats) : DirStats :=
  match items with
  | [] => stats
  | (item, _, node) :: rest =>
      if skipped includeHidden item then statsLoop recurse rest stats
      else
        let itemPath := Path.join dirPath item in
        match Fs.stat node with
        | Ok itemStats =>
            if Fs.isFile itemStats
            then statsLoop recurse rest
                   (mkDirStats (Js.add (ds_totalSize stats) (m_size (st_meta itemStats)))
                      (Js.add (ds_fileCount stats) 1)
                      (ds_directoryCount stats)
                      (ds_largestFiles stats ++ [(itemPath, m_size (st_meta itemStats))]))
            else if Fs.isDirectory itemStats
            then statsLoop recurse rest
                   (recurse itemPath node
                      (mkDirStats (ds_totalSize stats) (ds_fileCount stats)
                         (Js.add (ds_directoryCount stats) 1) (ds_largestFiles stats)))
            else statsLoop recurse rest stats
        | Throw _ => statsLoop recurse rest stats   (* skip *)
        end
  end.

(** The loop of [collectFiles]. *)
Fixpoint filesLoop (recurse : string -> Node -> list (string * Z) -> list (string * Z))
    (items : list Entry) (files : list (string * Z)) : list (string * Z) :=
  match items with
  | [] => files
  | (item, _, node) :: rest =>
      if skipped includeHidden item then filesLoop recurse rest files
      else
        let itemPath := Path.join dirPath item in
        match Fs.stat node with
        | Ok stats =>
            if Fs.isFile stats
            then filesLoop recurse rest (files ++ [(itemPath, m_size (st_meta stats))])
            else if Fs.isDirectory stats
            then filesLoop recurse rest (recurse itemPath node files)
            else filesLoop recurse rest files
        | Throw _ => filesLoop recurse rest files   (* skip *)
        end
  end.

(** The loop of [collectSizeByPattern]; the callback updates a state of
    the caller. The pattern is a [RegExp] without the [g] and [y] flags:
    [pattern.test(item)] is a function of [item]. *)
Fixpoint patternLoop (S : Type) (pattern : string -> bool) (callback : Z -> S -> S)
    (recurse : string -> Node -> S -> S) (items : list Entry) (state : S) : S :=
  match items with
  | [] => state
  | (item, _, node) :: rest =>
      if skipped includeHidden item then patternLoop pattern callback recurse rest state
      else
        let itemPath := Path.join dirPath item in
        match Fs.stat node with
        | Ok stats =>
            if (Fs.isFile stats && pattern item)%bool
            then patternLoop pattern callback recurse rest
                   (callback (m_size (st_meta stats)) state)
            else if Fs.isDirectory stats
            then patternLoop pattern callback recurse rest (recurse itemPath node state)
            else patternLoop pattern callback recurse rest state
        | Throw _ => patternLoop pattern callback recurse rest state   (* skip *)
        end
  end.

End Loops.

(** [calculateDirectorySizeRecursive(dirPath, includeHidden)], where
    [dirPath] resolves to [node]. *)
Fixpoint calculateDirectorySizeRecursive (dirPath : string) (node : Node)
    (includeHidden : bool) {struct node} : Z :=
  match node with
  | Dir _ (Some items) =>
      sizeLoop dirPath includeHidden
        (fun itemPath child => calculateDirectorySizeRecursive itemPath child includeHidden)
        items 0
  | _ => 0   (* skip directories that can't be read *)
  end.

(** [gatherDirectoryStats(dirPath, includeHidden, stats)] *)
Fixpoint gatherDirectoryStats (dirPath : string) (node : Node) (includeHidden : bool)
    (stats : DirStats) {struct node} : DirStats :=
  match node with
  | Dir _ (Some items) =>
      statsLoop dirPath includeHidden
        (fun itemPath child => gatherDirectoryStats itemPath child includeHidden)
        items stats
  | _ => stats   (* skip directories that can't be read *)
  end.

(** The default of the third parameter of [gatherDirectoryStats]. *)
Definition freshStats : DirStats := mkDirStats 0 0 0 [].

(** [collectFiles(dirPath, files, includeHidden)] *)
Fixpoint collectFiles (dirPath : string) (node : Node) (files : list (string * Z))
    (includeHidden : bool) {struct node} : list (string * Z) :=
  match node with
  | Dir _ (Some items) =>
      filesLoop dirPath includeHidden
        (fun itemPath child files' => collectFiles itemPath child files' includeHidden)
        items files
  | _ => files   (* skip directories that can't be read *)
  end.

(** [collectSizeByPattern(dirPath, pattern, includeHidden, callback)] *)
Fixpoint collectSizeByPattern (S : Type) (dirPath : string) (node : Node)
    (pattern : string -> bool) (includeHidden : bool) (callback : Z -> S -> S)
    (state : S) {struct node} : S :=
  match node with
  | Dir _ (Some items) =>
      patternLoop dirPath includeHidden pattern callback
        (fun itemPath child => collectSizeByPattern itemPath child pattern includeHidden callback)
        items state
  | _ => state   (* skip directories that can't be read *)
  end.

(** The total that [getSizeByPattern] hands to [getSizeInfo]: its callback
    adds each size to [totalSize], which starts at [0]. *)
Definition sizeByPattern (dirPath : string) (node : Node) (pattern : string -> bool)
    (includeHidden : bool) : Z :=
  collectSizeByPattern dirPath node pattern includeHidden
    (fun size totalSize => Js.add totalSize size) 0.

End SizeCalculator.

(** ** The convenience functions (utils.ts) *)

Module Utils.

Section WithRegExp.

Variable regExpTest : string -> string -> result bool.

Definition findByTypeAndSize (searchPath : string) (root : Node) (fileType : string)
    (minSize maxSize : option Z) : result (list FileInfo) :=
  let extensions := FileTypeQueries.getExtensionsByCategory fileType in
  let options :=
    mkSearchOptions None (Some extensions) None None None None maxSize minSize None None in
  Finders.filesOf (FileSearch.search regExpTest options searchPath root).

(** The options object of [findFilesToCleanup]. *)
Record CleanupOptions : Type := mkCleanupOptions {
  olderThan : option Z;
  largerThan : option Z;
  cleanupExtensions : option (list string);
  cleanupIncludeHidden : option bool
}.

Definition findFilesToCleanup (searchPath : string) (root : Node)
    (options : CleanupOptions) : result (list FileInfo) :=
  let searchOptions :=
    mkSearchOptions None (cleanupExtensions options) None (cleanupIncludeHidden options)
      None None None (largerThan options) None (olderThan options) in
  match FileSearch.search regExpTest searchOptions searchPath root with
  | Ok result => Ok (sortBy Finders.bySizeDescending (files result))
  | Throw e => Throw e
  end.

(** [sizeGroups]: a [Map] from sizes to arrays, in insertion order.  One
    round of the loop: a new key gets an empty array at the end of the
    map, then the file is pushed onto the array of its key. *)
Fixpoint addToGroup (file : FileInfo) (sizeGroups : list (Z * list FileInfo))
    : list (Z * list FileInfo) :=
  match sizeGroups with
  | [] => [(fi_size file, [file])]
  | (size, group) :: rest =>
      if size =? fi_size file then (size, (group ++ [file])%list) :: rest
      else (size, group) :: addToGroup file rest
  end.

Definition groupBySize (files : list FileInfo) : list (Z * list FileInfo) :=
  fold_left (fun sizeGroups file => addToGroup file sizeGroups) files [].

(** [(a, b) => b.size - a.size] on the groups. *)
Definition byGroupSizeDescending (a b : Z * list FileInfo) : Z := fst b - fst a.

Definition findDuplicatesBySize (searchPath : string) (root : Node)
    : result (list (Z * list FileInfo)) :=
  match FileSearch.search regExpTest noOptions searchPath root with
  | Ok result =>
      let sizeGroups := groupBySize (files result) in
      Ok (sortBy byGroupSizeDescending
            (filter (fun entry : Z * list FileInfo => (1 <? Z.of_nat (length (snd entry))))
               sizeGroups))
  | Throw e => Throw e
  end.

End WithRegExp.

End Utils.

(** ** Definitions the further statements use *)

(** A name that a listing can hold: not empty, without the separator. *)
Definition validName (item : string) : bool :=
  (negb (String.eqb item "") &&
   forallb (fun c => negb (Ascii.eqb c Path.sep)) (list_ascii_of_string item))%bool.

(** Every listing of the tree holds valid names. *)
Fixpoint wellNamed (node : Node) : bool :=
  match node with
  | Dir _ (Some items) =>
      (fix entries (l : list Entry) : bool :=
         match l with
         | [] => true
         | (item, _, child) :: l' => (validName item && wellNamed child && entries l')%bool
         end) items
  | _ => true
  end.

(** A compiled pattern that accepts every name and keeps no state, as
    [/^/] does. *)
Definition anyName : Pattern := PatRegExp (fun _ => true).

(** The options of a search that records every entry it reaches. *)
Definition everything (includeHidden : bool) : SearchOptions :=
  mkSearchOptions (Some anyName) None None (Some includeHidden) None None None None None None.

(** The sum of the sizes of a list of paths with sizes. *)
Definition sumPairs (l : list (string * Z)) : Z :=
  fold_right (fun entry rest => snd entry + rest) 0 l.

(** The characters [isTextFile] does not count. *)
Definition printable (c : ascii) : bool :=
  let char := Z.of_nat (nat_of_ascii c) in
  negb ((char <? 32) && negb (char =? 9) && negb (char =? 10) && negb (char =? 13))%bool.

Fixpoint allChars (p : ascii -> bool) (s : string) : bool :=
  match s with
  | EmptyString => true
  | String c s' => (p c && allChars p s')%bool
  end.

(** The bytes of [RIFF] and of [WEBP]. *)
Definition riffBytes : list Byte.byte := [Byte.x52; Byte.x49; Byte.x46; Byte.x46].
Definition webpBytes : list Byte.byte := [Byte.x57; Byte.x45; Byte.x42; Byte.x50].
Definition webpInfo : MagicInfo := mkMagicInfo "image/webp" "Image" "WebP image" true.

(** The categories a signature can stand for. *)
Definition signatureCategories : list string :=
  ["Image"; "Archive"; "Document"; "Executable"; "Audio"; "Video"].

(** [{ ...o, extensions: es }] and [{ ...o, maxSize: mx, minSize: mn }]. *)
Definition withExtensions (es : option (list string)) (o : SearchOptions) : SearchOptions :=
  mkSearchOptions (pattern o) es (maxDepth o) (includeHidden o)
    (caseSensitive o) (followSymlinks o) (maxSize o) (minSize o)
    (modifiedSince o) (modifiedBefore o).

Definition withSizes (mx mn : option Z) (o : SearchOptions) : SearchOptions :=
  mkSearchOptions (pattern o) (extensions o) (maxDepth o) (includeHidden o)
    (caseSensitive o) (followSymlinks o) mx mn
    (modifiedSince o) (modifiedBefore o).

(** What holds of the two arrays when [PF] holds of every file pushed and
    [PD] of every directory pushed. *)
Definition recordedBy (PF PD : FileInfo -> Prop) (s : Arrays) : Prop :=
  Forall PF (a_files s) /\ Forall PD (a_directories s).

(** The comparator that orders by a number, largest first, and the order it
    produces. *)
Definition descendingBy (A : Type) (key : A -> Z) (a b : A) : Z := key b - key a.
Definition notBelowBy (A : Type) (key : A -> Z) (a b : A) : Prop := key b <= key a.

(** [file.size === size] *)
Definition sizeIs (size : Z) (f : FileInfo) : bool := fi_size f =? size.

(** The groups built from the files read so far are the size classes of
    these files, each under a key of its own. *)
Definition grouped (files : list FileInfo) (groups : list (Z * list FileInfo)) : Prop :=
  NoDup (map fst groups) /\
  (forall size group, In (size, group) groups ->
                      group = filter (sizeIs size) files /\ group <> []) /\
  (forall f, In f files -> In (fi_size f) (map fst groups)).


(** What ties the octal string of a mode to its nine bits: the string is
    three octal digits, and the two converters take it to the symbolic
    string of the bits and back. *)
Definition octalAgrees (v : Z) : bool :=
  let octal := Permissions.padStart 3 "0" (Permissions.toStringOctal v) in
  let symbolic :=
    Permissions.formatGroup
      (mkTriple (Permissions.bitSet v 256) (Permissions.bitSet v 128) (Permissions.bitSet v 64))
    ++ Permissions.formatGroup
         (mkTriple (Permissions.bitSet v 32) (Permissions.bitSet v 16) (Permissions.bitSet v 8))
    ++ Permissions.formatGroup
         (mkTriple (Permissions.bitSet v 4) (Permissions.bitSet v 2) (Permissions.bitSet v 1)) in
  (PermissionChecker.isOctalString octal
   && match PermissionChecker.octalToSymbolic octal with
      | Ok s => String.eqb s symbolic
      | Throw _ => false
      end
   && match PermissionChecker.symbolicToOctal symbolic with
      | Ok o => String.eqb o octal
      | Throw _ => false
      end)%bool.

(** The path and the size of a recorded file, as the size walks keep them. *)
Definition pathAndSize (f : FileInfo) : string * Z := (fi_path f, fi_size f).

(** Up to [2^53] every integer is a double, and sums are exact. *)
Definition exactUpTo : Z := 2 ^ 53.

(** What a loop reaches that adds the sizes one by one, from the left, to
    [start]. *)
Definition addAll (sizes : list Z) (start : Z) : Z := fold_left Js.add sizes start.

(** A counter after [n] increments ([count++]). *)
Definition countFrom (start : Z) (n : nat) : Z :=
  Nat.iter n (fun count => Js.add count 1) start.

(** The sizes of a list of paths with sizes. *)
Definition sizesOf (l : list (string * Z)) : list Z := map snd l.

(** No size in the list is negative. *)
Definition noneNegative (l : list (string * Z)) : Prop :=
  Forall (fun entry => 0 <= snd entry) l.

(** The arrays of a search and the accumulator of [gatherDirectoryStats]
    hold the same files, their sizes added up in the same order, and as
    many directories. *)
Definition sameEntries (s : Arrays) (st : DirStats) : Prop :=
  map pathAndSize (a_files s) = ds_largestFiles st /\
  countFrom 0 (length (a_directories s)) = ds_directoryCount st /\
  countFrom 0 (length (a_files s)) = ds_fileCount st /\
  FileSearch.reduceSize (a_files s) = ds_totalSize st.

(** A listing without the entries whose name starts with a dot; [prune]
    is applied to what the kept names resolve to. *)
Fixpoint visibleEntries (prune : Node -> Node) (items : list Entry) : list Entry :=
  match items with
  | [] => []
  | (item, viaLink, child) :: rest =>
      if Js.startsWith item "." then visibleEntries prune rest
      else (item, viaLink, prune child) :: visibleEntries prune rest
  end.

(** The tree without its hidden entries and all that lies below them. *)
Fixpoint withoutHidden (node : Node) : Node :=
  match node with
  | Dir meta (Some items) => Dir meta (Some (visibleEntries withoutHidden items))
  | _ => node
  end.

(** A directory with a file of [Number.MAX_SAFE_INTEGER] bytes and two
    files of one byte. *)
Definition hugeTree (m : Meta) : Node :=
  Dir m (Some [ ("a", false, File (mkMeta 9007199254740991 0 0 0));
                ("b", false, File (mkMeta 1 0 0 0));
                ("c", false, File (mkMeta 1 0 0 0)) ]).

(** A directory with a file of [2^53] bytes and a subdirectory with two
    files of one byte. *)
Definition hugeNested (m : Meta) : Node :=
  Dir m (Some [ ("a", false, File (mkMeta 9007199254740992 0 0 0));
                ("sub", false, Dir m (Some [ ("b", false, File (mkMeta 1 0 0 0));
                                             ("c", false, File (mkMeta 1 0 0 0)) ])) ]).

(** * Properties *)

Import FileSearch.

(** ** The walk never throws *)

Section WalkFacts.

Variable regExpTest : string -> string -> result bool.
Variable options : SearchOptions.

Lemma tryCatch_ret_tt (m : M unit) s :
  fst (tryCatch m (fun _ => ret tt) s) = Ok tt.
Proof.
  unfold tryCatch, ret. destruct (m s) as [[[]|e] s']; reflexivity.
Qed.

Lemma forItems_ok recurse currentPath items s :
  fst (forItems regExpTest options recurse currentPath items s) = Ok tt.
Proof.
  revert s. induction items as [|[[item viaLink] node] rest IH]; intros s; cbn.
  - reflexivity.
  - destruct (negb _ && _)%bool; [apply IH|].
    unfold bind.
    pose proof (tryCatch_ret_tt
                  (visit regExpTest options recurse (Path.join currentPath item) node) s) as H.
    destruct (tryCatch _ _ s) as [[[]|e] s']; cbn in H; [apply IH|discriminate].
Qed.

(** The function as the source writes it: the listing comes from
    [readdir], inside the [try]. *)
Lemma searchRecursive_readdir currentPath node currentDepth s :
  searchRecursive regExpTest options currentPath node currentDepth s =
  (if beyondDepth options currentDepth then ret tt
   else tryCatch
          (bind (lift (Fs.readdir node))
             (fun items =>
                forItems regExpTest options
                  (fun itemPath child =>
                     searchRecursive regExpTest options itemPath child (currentDepth + 1))
                  currentPath items))
          (fun _ => ret tt)) s.
Proof. destruct node as [meta|meta [items|]|meta|]; reflexivity. Qed.

Lemma searchRecursive_ok currentPath node currentDepth s :
  fst (searchRecursive regExpTest options currentPath node currentDepth s) = Ok tt.
Proof.
  rewrite searchRecursive_readdir.
  destruct (beyondDepth options currentDepth); [reflexivity|apply tryCatch_ret_tt].
Qed.

Lemma searchRecursive_unreadable currentPath node currentDepth s :
  isOk (Fs.readdir node) = false ->
  searchRecursive regExpTest options currentPath node currentDepth s = (Ok tt, s).
Proof.
  intros H. rewrite searchRecursive_readdir.
  destruct (beyondDepth options currentDepth); [reflexivity|].
  unfold tryCatch, bind, lift, ret.
  destruct (Fs.readdir node); [discriminate|reflexivity].
Qed.

Lemma searchRecursive_beyond currentPath node currentDepth s :
  beyondDepth options currentDepth = true ->
  searchRecursive regExpTest options currentPath node currentDepth s = (Ok tt, s).
Proof.
  intros H. rewrite searchRecursive_readdir, H. reflexivity.
Qed.

(** ** The loop, entry by entry *)

Lemma forItems_cons recurse currentPath e rest s :
  forItems regExpTest options recurse currentPath (e :: rest) s =
  forItems regExpTest options recurse currentPath rest
    (snd (forItems regExpTest options recurse currentPath [e] s)).
Proof.
  destruct e as [[item viaLink] node]. cbn.
  destruct (negb _ && _)%bool; [reflexivity|].
  unfold bind.
  pose proof (tryCatch_ret_tt
                (visit regExpTest options recurse (Path.join currentPath item) node) s) as H.
  destruct (tryCatch _ _ s) as [[[]|e] s']; cbn in H; [reflexivity|discriminate].
Qed.

Lemma forItems_app recurse currentPath l1 l2 s :
  forItems regExpTest options recurse currentPath (l1 ++ l2) s =
  forItems regExpTest options recurse currentPath l2
    (snd (forItems regExpTest options recurse currentPath l1 s)).
Proof.
  revert s. induction l1 as [|e l1 IH]; intros s.
  - reflexivity.
  - rewrite <- app_comm_cons, forItems_cons, IH, (forItems_cons _ _ e l1). reflexivity.
Qed.

(** An entry that [stat] fails on leaves no trace. *)
Lemma forItems_gone recurse currentPath item viaLink s :
  forItems regExpTest options recurse currentPath [(item, viaLink, Gone)] s = (Ok tt, s).
Proof.
  cbn. destruct (negb _ && _)%bool; reflexivity.
Qed.

(** Two entries that [stat] describes alike, and on which the recursive call
    does the same, are visited alike. *)
Lemma forItems_one_ext recurse recurse' currentPath item viaLink viaLink' node node' s :
  Fs.stat node = Fs.stat node' ->
  (forall p t, recurse p node t = recurse' p node' t) ->
  forItems regExpTest options recurse currentPath [(item, viaLink, node)] s =
  forItems regExpTest options recurse' currentPath [(item, viaLink', node')] s.
Proof.
  intros Hstat Hrec. cbn.
  destruct (negb _ && _)%bool; [reflexivity|].
  unfold bind, tryCatch, visit, getFileInfo, lift, bind. rewrite <- Hstat.
  destruct (Fs.stat node) as [stats|e]; [|reflexivity].
  cbn.
  destruct (negb _ && _)%bool; [reflexivity|].
  destruct (Fs.isDirectory stats).
  - destruct (matchesPattern _ _ _ _) as [[|]|e]; cbn; try reflexivity;
      rewrite Hrec; reflexivity.
  - reflexivity.
Qed.

Lemma forItems_swap_one recurse currentPath pre post e e' s :
  (forall t, forItems regExpTest options recurse currentPath [e] t =
             forItems regExpTest options recurse currentPath [e'] t) ->
  forItems regExpTest options recurse currentPath (pre ++ e :: post) s =
  forItems regExpTest options recurse currentPath (pre ++ e' :: post) s.
Proof.
  intros H. rewrite !forItems_app, (forItems_cons _ _ e), (forItems_cons _ _ e'), H.
  reflexivity.
Qed.

Lemma forItems_drop_one recurse currentPath pre post e s :
  (forall t, forItems regExpTest options recurse currentPath [e] t = (Ok tt, t)) ->
  forItems regExpTest options recurse currentPath (pre ++ e :: post) s =
  forItems regExpTest options recurse currentPath (pre ++ post) s.
Proof.
  intros H. rewrite !forItems_app, (forItems_cons _ _ e), H. reflexivity.
Qed.

Lemma searchRecursive_listing currentPath meta items items' currentDepth s :
  (forall t, forItems regExpTest options (deeper regExpTest options currentDepth) currentPath items t =
             forItems regExpTest options (deeper regExpTest options currentDepth) currentPath items' t) ->
  searchRecursive regExpTest options currentPath (Dir meta (Some items)) currentDepth s =
  searchRecursive regExpTest options currentPath (Dir meta (Some items')) currentDepth s.
Proof.
  intros H. rewrite !searchRecursive_readdir.
  destruct (beyondDepth options currentDepth); [reflexivity|].
  unfold tryCatch, bind, lift. cbn. fold (deeper regExpTest options currentDepth). rewrite H. reflexivity.
Qed.

Lemma searchRecursive_empty currentPath meta currentDepth s :
  searchRecursive regExpTest options currentPath (Dir meta (Some [])) currentDepth s =
  (Ok tt, s).
Proof.
  rewrite searchRecursive_readdir.
  destruct (beyondDepth options currentDepth); reflexivity.
Qed.

(** With every recursive call cut off, what lies below the entries of a
    listing does not matter. *)
Lemma forItems_emptied recurse currentPath items :
  (forall p n t, recurse p n t = (Ok tt, t)) ->
  forall s,
  forItems regExpTest options recurse currentPath (map emptied items) s =
  forItems regExpTest options recurse currentPath items s.
Proof.
  intros Hrec. induction items as [|e rest IH]; intros s.
  - reflexivity.
  - cbn [map]. rewrite forItems_cons, (forItems_cons _ _ e), IH. f_equal. f_equal.
    destruct e as [[item viaLink] node].
    destruct node as [meta|meta listing|meta|]; try reflexivity.
    apply forItems_one_ext; [reflexivity|].
    intros p t. rewrite !Hrec. reflexivity.
Qed.

(** ** The result of [search] *)

Lemma search_as_walk searchPath root :
  search regExpTest options searchPath root =
  let arrays := snd (searchRecursive regExpTest options searchPath root 0 (mkArrays [] [])) in
  Ok {| files := a_files arrays;
        directories := a_directories arrays;
        totalFiles := Z.of_nat (length (a_files arrays));
        totalDirectories := Z.of_nat (length (a_directories arrays));
        totalSize := reduceSize (a_files arrays) |}.
Proof.
  unfold search.
  pose proof (searchRecursive_ok searchPath root 0 (mkArrays [] [])) as H.
  destruct (searchRecursive _ _ _ _ _ _) as [[[]|e] arrays]; cbn in H;
    [reflexivity|discriminate].
Qed.

(** ** Sums of sizes

    Up to [2^53] the additions of the sources are exact. *)

Lemma roundDouble_exact z : Z.abs z <= exactUpTo -> Js.roundDouble z = z.
Proof.
  unfold exactUpTo, Js.roundDouble. intros H.
  destruct (Z.ltb_spec (Z.abs z) (2 ^ 53)) as [_|Hge]; [reflexivity|].
  assert (Hz : z = 2 ^ 53 \/ z = - 2 ^ 53) by lia.
  destruct Hz as [-> | ->]; reflexivity.
Qed.

Lemma add_exact a b : 0 <= a -> 0 <= b -> a + b <= exactUpTo -> Js.add a b = a + b.
Proof. intros Ha Hb H. unfold Js.add. apply roundDouble_exact. lia. Qed.

Lemma sumSizes_nonneg files :
  Forall (fun f => 0 <= fi_size f) files -> 0 <= sumSizes files.
Proof.
  induction 1 as [|f files Hf _ IH]; [cbn; lia|].
  change (sumSizes (f :: files)) with (fi_size f + sumSizes files). lia.
Qed.

Lemma reduce_exact files :
  Forall (fun f => 0 <= fi_size f) files ->
  forall acc,
  0 <= acc -> acc + sumSizes files <= exactUpTo ->
  fold_left (fun sum file => Js.add sum (fi_size file)) files acc = acc + sumSizes files.
Proof.
  induction 1 as [|f files Hf Hfiles IH]; intros acc Hacc Hsum.
  - cbn [fold_left sumSizes fold_right]. lia.
  - change (sumSizes (f :: files)) with (fi_size f + sumSizes files) in *.
    pose proof (sumSizes_nonneg Hfiles) as Hrest.
    cbn [fold_left]. rewrite add_exact by lia. rewrite IH by lia. lia.
Qed.

End WalkFacts.

(** ** [stat] and symbolic links *)

Section Symlinks.

Variable regExpTest : string -> string -> result bool.
Variable options : SearchOptions.

Lemma stat_never_symbolic_link node stats :
  Fs.stat node = Ok stats -> Fs.isSymbolicLink stats = false.
Proof. destruct node; cbn; intros H; inversion H; reflexivity. Qed.

(** [lstat], which the walk does not call, is what tells a link apart. *)
Lemma lstat_sees_the_link linkMeta node :
  exists stats,
    Fs.lstat true linkMeta node = Ok stats /\ Fs.isSymbolicLink stats = true.
Proof. eexists. split; reflexivity. Qed.

Lemma forItems_followSymlinks b recurse recurse' currentPath items :
  Forall (fun e : Entry => forall p t, recurse p (snd e) t = recurse' p (snd e) t) items ->
  forall s,
  forItems regExpTest (withFollowSymlinks b options) recurse currentPath items s =
  forItems regExpTest options recurse' currentPath items s.
Proof.
  induction 1 as [|[[item viaLink] node] rest Hrec _ IH]; intros s; cbn.
  - reflexivity.
  - destruct (negb _ && _)%bool; [apply IH|].
    unfold bind, tryCatch, visit, getFileInfo, lift, bind.
    destruct (Fs.stat node) as [stats|e] eqn:Hstat; [|apply IH].
    cbn. rewrite (stat_never_symbolic_link _ Hstat), !andb_false_r.
    destruct (Fs.isDirectory stats).
    + destruct (matchesPattern _ _ _ _) as [[|]|e]; cbn; try apply IH;
        cbn in Hrec; rewrite Hrec;
        match goal with
        | |- context [recurse' ?p ?n ?t] => destruct (recurse' p n t) as [[[]|?] ?]
        end;
        apply IH.
    + destruct (Fs.isFile stats); [|apply IH].
      destruct (matchesPattern _ _ _ _) as [[|]|e]; cbn; try apply IH.
      destruct (matchesOptions _ _); apply IH.
Qed.

Lemma searchRecursive_followSymlinks b node :
  forall currentPath currentDepth s,
  searchRecursive regExpTest (withFollowSymlinks b options) currentPath node currentDepth s =
  searchRecursive regExpTest options currentPath node currentDepth s.
Proof.
  induction node as [meta|meta|meta items IH|meta|] using Node_induction;
    intros currentPath currentDepth s; try reflexivity.
  rewrite !searchRecursive_readdir.
  change (beyondDepth (withFollowSymlinks b options) currentDepth)
    with (beyondDepth options currentDepth).
  destruct (beyondDepth options currentDepth); [reflexivity|].
  unfold tryCatch, bind, lift. cbn [Fs.readdir].
  rewrite forItems_followSymlinks
    with (recurse' := fun itemPath child =>
                        searchRecursive regExpTest options itemPath child (currentDepth + 1)).
  - reflexivity.
  - eapply Forall_impl; [|exact IH]. intros e He p t. apply He.
Qed.

End Symlinks.

(** ** Signatures *)

Import FileTypeDetector.

Lemma detectMagicNumbers_png rest :
  detectMagicNumbers (pngSignature ++ rest)%list = Some pngInfo.
Proof. reflexivity. Qed.

Lemma detectMagicNumbers_short buffer :
  (length buffer < 4)%nat -> detectMagicNumbers buffer = None.
Proof.
  intros H. unfold detectMagicNumbers.
  apply Nat.ltb_lt in H. rewrite H. reflexivity.
Qed.

Lemma detectMagicNumbers_sample buffer :
  detectMagicNumbers buffer = detectMagicNumbers (subarray 16 buffer).
Proof.
  unfold detectMagicNumbers, subarray.
  rewrite firstn_firstn, Nat.min_id.
  replace (length (firstn 16 buffer) <? 4)%nat with (length buffer <? 4)%nat; [reflexivity|].
  rewrite length_firstn.
  destruct (Nat.ltb_spec (length buffer) 4), (Nat.ltb_spec (Nat.min 16 (length buffer)) 4);
    try reflexivity; lia.
Qed.

(** ** Lower case and the glob translation *)

Lemma lowerChar_idem c : Js.lowerChar (Js.lowerChar c) = Js.lowerChar c.
Proof.
  unfold Js.lowerChar at 2 3. destruct (Js.between 65 90 c) eqn:H.
  - unfold Js.lowerChar, Js.between in *. apply andb_true_iff in H as [H1 H2].
    apply Nat.leb_le in H1, H2.
    rewrite nat_ascii_embedding by lia.
    destruct (Nat.leb_spec 65 (nat_of_ascii c + 32)),
             (Nat.leb_spec (nat_of_ascii c + 32) 90); cbn; try reflexivity; lia.
  - unfold Js.lowerChar. rewrite H. reflexivity.
Qed.

Lemma toLowerCase_idem s : Js.toLowerCase (Js.toLowerCase s) = Js.toLowerCase s.
Proof.
  unfold Js.toLowerCase.
  induction s as [|c s IH]; cbn [Js.mapChars]; [reflexivity|].
  rewrite lowerChar_idem, IH. reflexivity.
Qed.

(** A single configured extension lets a file through only if it is its own
    lower-case form (after the dot is put in front). *)
Lemma matchesOptions_extension_lowercase fileInfo e opts :
  extensions opts = Some [e] ->
  matchesOptions fileInfo opts = true ->
  Js.toLowerCase (withDot e) = withDot e.
Proof.
  intros He H. unfold matchesOptions in H. rewrite He in H.
  cbn [map Js.arrayIncludes existsb] in H.
  destruct (String.eqb_spec (Js.toLowerCase (fi_extension fileInfo)) (withDot e)) as [E|E].
  - rewrite <- E. apply toLowerCase_idem.
  - cbn in H. discriminate H.
Qed.

(** A pattern without [.], [*] and [?] is its own regular expression: no
    other character is escaped. *)
Lemma regexPattern_plain s : plain s = true -> regexPattern s = s.
Proof.
  intros H. unfold regexPattern.
  induction s as [|c s IH]; [reflexivity|].
  cbn in H. repeat (apply andb_true_iff in H as [H ?]).
  cbn [Js.replaceAll].
  destruct (Ascii.eqb c ".") eqn:E1; [discriminate|].
  cbn [Js.replaceAll].
  destruct (Ascii.eqb c "*") eqn:E2; [discriminate|].
  cbn [Js.replaceAll].
  destruct (Ascii.eqb c "?") eqn:E3; [discriminate|].
  rewrite IH by assumption. reflexivity.
Qed.

(** ** Permission strings *)

Import PermissionChecker.

Lemma oneOf_inv x y c : oneOf x y c = true -> c = x \/ c = y.
Proof.
  unfold oneOf. intros H. apply orb_true_iff in H.
  destruct H as [H|H]; apply Ascii.eqb_eq in H; auto.
Qed.

Lemma octal_digit_inv c :
  Js.between 48 55 c = true -> In c ["0"; "1"; "2"; "3"; "4"; "5"; "6"; "7"]%char.
Proof.
  unfold Js.between. intros H. apply andb_true_iff in H. destruct H as [H1 H2].
  apply Nat.leb_le in H1, H2.
  rewrite <- (ascii_nat_embedding c).
  assert (E : In (nat_of_ascii c) [48; 49; 50; 51; 52; 53; 54; 55]%nat) by (cbn; lia).
  cbn in E. cbn.
  repeat (destruct E as [E|E]; [rewrite <- E; cbn; tauto|]). contradiction.
Qed.

Lemma symbolic_roundtrip s :
  isSymbolicString s = true ->
  andThen (symbolicToOctal s) octalToSymbolic = Ok s.
Proof.
  intros H.
  destruct s as [|r1 [|w1 [|x1 [|r2 [|w2 [|x2 [|r3 [|w3 [|x3 [|? ?]]]]]]]]]];
    try discriminate H.
  cbn [isSymbolicString] in H.
  repeat (apply andb_true_iff in H; destruct H as [H ?]).
  repeat match goal with
         | H : oneOf _ _ _ = true |- _ => apply oneOf_inv in H; destruct H; subst
         end; reflexivity.
Qed.

Lemma octal_roundtrip o :
  isOctalString o = true ->
  andThen (octalToSymbolic o) symbolicToOctal = Ok o.
Proof.
  intros H.
  destruct o as [|a [|b [|c [|? ?]]]]; try discriminate H.
  cbn [isOctalString] in H.
  apply andb_true_iff in H as [H Hc]. apply andb_true_iff in H as [Ha Hb].
  apply octal_digit_inv in Ha, Hb, Hc. cbn [In] in Ha, Hb, Hc.
  intuition (subst; reflexivity).
Qed.

(** * The claims *)

(** C1, as stated, fails: a root that cannot be listed (it does not exist, or
    it is a directory without read permission) makes [search] return a
    normal result, the empty one; no error reaches the caller. *)
Lemma search_unreadable_root_returns_normally :
  isOk (Fs.readdir Gone) = false /\
  search RegExpFragment.test noOptions "/missing" Gone = Ok emptyResult /\
  isOk (Fs.readdir (Dir (mkMeta 4096 0 0 0) None)) = false /\
  search RegExpFragment.test noOptions "/locked" (Dir (mkMeta 4096 0 0 0) None)
  = Ok emptyResult.
Proof. repeat split. Qed.

(** C1, amended: [search] never fails.  It always returns a result; when
    the root cannot be listed the result is the empty one; below the root
    (in any directory, at any depth) an entry that [stat] fails on is left
    out as if it were not listed, and a subdirectory that cannot be listed
    counts as an empty one. *)
Theorem search_swallows_every_read_failure
    (regExpTest : string -> string -> result bool) (options : SearchOptions) :
  (forall searchPath root,
      exists r, search regExpTest options searchPath root = Ok r) /\
  (forall searchPath root,
      isOk (Fs.readdir root) = false ->
      search regExpTest options searchPath root = Ok emptyResult) /\
  (forall currentPath meta pre post item viaLink currentDepth s,
      searchRecursive regExpTest options currentPath
        (Dir meta (Some (pre ++ (item, viaLink, Gone) :: post)%list)) currentDepth s =
      searchRecursive regExpTest options currentPath
        (Dir meta (Some (pre ++ post)%list)) currentDepth s) /\
  (forall currentPath meta pre post item viaLink m currentDepth s,
      searchRecursive regExpTest options currentPath
        (Dir meta (Some (pre ++ (item, viaLink, Dir m None) :: post)%list)) currentDepth s =
      searchRecursive regExpTest options currentPath
        (Dir meta (Some (pre ++ (item, viaLink, Dir m (Some [])) :: post)%list))
        currentDepth s).
Proof.
  repeat split.
  - intros searchPath root. rewrite search_as_walk. eexists. reflexivity.
  - intros searchPath root H. rewrite search_as_walk.
    rewrite searchRecursive_unreadable by exact H. reflexivity.
  - intros. apply searchRecursive_listing. intros t.
    apply forItems_drop_one. intros t'. apply forItems_gone.
  - intros. apply searchRecursive_listing. intros t.
    apply forItems_swap_one. intros t'.
    apply forItems_one_ext; [reflexivity|]. intros p t''. unfold deeper.
    rewrite searchRecursive_empty. apply searchRecursive_unreadable. reflexivity.
Qed.

(** C1, the amended statement at work on a root that does not exist. *)
Lemma search_swallows_witness :
  search RegExpFragment.test noOptions "/missing" Gone = Ok emptyResult.
Proof.
  apply (proj1 (proj2 (search_swallows_every_read_failure RegExpFragment.test noOptions))).
  reflexivity.
Defined.

(** C2 fails on the code: every [Stats] that the walk looks at comes from
    [stat], which follows links, so [isSymbolicLink()] is never true and no
    entry is skipped for being a link.  With [followSymlinks: false] a link
    to a file is recorded among the files, a link to a directory is recorded
    among the directories and walked; and in general the option changes
    nothing in any search. *)
Theorem followSymlinks_false_skips_no_link :
  (forall m,
      exists r,
        search RegExpFragment.test (withFollowSymlinks (Some false) noOptions)
          "root" (linkTree m) = Ok r /\
        paths (files r) = ["root/link.txt"; "root/linkdir/inner.txt"] /\
        paths (directories r) = ["root/linkdir"]) /\
  (forall regExpTest options b searchPath root,
      search regExpTest (withFollowSymlinks b options) searchPath root =
      search regExpTest options searchPath root).
Proof.
  split.
  - intros m. eexists. repeat split.
  - intros. rewrite !search_as_walk, searchRecursive_followSymlinks. reflexivity.
Qed.

(** C3 fails on the code in one direction: the configured extensions are
    compared as they were written (only the test for a leading dot looks at
    their lower-case form), while the extension of the file is put in lower
    case.  So [.js] lets [a.js] and [a.JS] through, and [.JS] lets neither
    through. *)
Theorem extension_filter_keeps_configured_case (meta : Meta) :
  (exists fileInfo,
      getFileInfo "a.js" (File meta) = Ok fileInfo /\
      matchesOptions fileInfo (onlyExtensions [".js"]) = true /\
      matchesOptions fileInfo (onlyExtensions [".JS"]) = false) /\
  (exists fileInfo,
      getFileInfo "a.JS" (File meta) = Ok fileInfo /\
      matchesOptions fileInfo (onlyExtensions [".js"]) = true /\
      matchesOptions fileInfo (onlyExtensions [".JS"]) = false).
Proof.
  split; eexists; repeat split.
Qed.

(** C4 fails on the code: only [.] is escaped.  The pattern [a+] becomes
    the regular expression [^a+$], which accepts the name [aa] and rejects
    the name [a+]; the pattern [(] becomes [^($], which cannot be compiled;
    [*], [?] and [.] are translated as the claim says. *)
Theorem glob_translation_escapes_only_the_dot :
  regexPattern "a+" = "a+" /\
  matchesPattern RegExpFragment.test "aa" (PatString "a+") false = Ok true /\
  matchesPattern RegExpFragment.test "a+" (PatString "a+") false = Ok false /\
  isOk (matchesPattern RegExpFragment.test "(" (PatString "(") false) = false /\
  regexPattern "*.t?t" = ".*\.t.t" /\
  matchesPattern RegExpFragment.test "notes.txt" (PatString "*.t?t") false = Ok true /\
  matchesPattern RegExpFragment.test "notes_txt" (PatString "*.t?t") false = Ok false.
Proof. repeat split. Qed.

(** C5: with [maxDepth: 0] the tree of a root-level file and a
    subdirectory holding a file yields exactly the root-level file.  In
    general, under [maxDepth: m], a call at a depth above [m] processes
    nothing and leaves the arrays as they are, and a call at depth [m] or
    above does not depend on what the child directories contain. *)
Theorem maxDepth_bounds_the_walk :
  (forall root sub a b,
      exists r,
        search RegExpFragment.test (withMaxDepth (Some 0) noOptions)
          "root" (depthTree root sub a b) = Ok r /\
        paths (files r) = ["root/a.txt"] /\
        paths (directories r) = ["root/sub"]) /\
  (forall regExpTest options m currentPath node currentDepth s,
      maxDepth options = Some m ->
      currentDepth > m ->
      searchRecursive regExpTest options currentPath node currentDepth s = (Ok tt, s)) /\
  (forall regExpTest options m currentPath meta items currentDepth s,
      maxDepth options = Some m ->
      currentDepth >= m ->
      searchRecursive regExpTest options currentPath (Dir meta (Some items)) currentDepth s =
      searchRecursive regExpTest options currentPath
        (Dir meta (Some (map emptied items))) currentDepth s).
Proof.
  assert (beyond : forall options m d,
             maxDepth options = Some m -> d > m -> beyondDepth options d = true).
  { intros options m d Hm Hd. unfold beyondDepth. rewrite Hm.
    apply Z.gtb_gt. lia. }
  repeat split.
  - intros root sub a b. eexists. repeat split.
  - intros regExpTest options m currentPath node currentDepth s Hm Hd.
    apply searchRecursive_beyond. eapply beyond; eassumption.
  - intros regExpTest options m currentPath meta items currentDepth s Hm Hd.
    apply searchRecursive_listing. intros t. symmetry.
    apply forItems_emptied. intros p n t'. unfold deeper.
    apply searchRecursive_beyond. apply (beyond options m); [exact Hm|lia].
Qed.

(** C5, the general statements at work with [maxDepth: 0]: a call at depth
    1, and the root of the scenario at depth 0. *)
Lemma maxDepth_bounds_witness :
  searchRecursive RegExpFragment.test (withMaxDepth (Some 0) noOptions) "root/sub"
    (Dir (mkMeta 4096 0 0 0) (Some [("b.txt", false, File (mkMeta 10 0 0 0))]))
    1 (mkArrays [] []) = (Ok tt, mkArrays [] []) /\
  searchRecursive RegExpFragment.test (withMaxDepth (Some 0) noOptions) "root"
    (Dir (mkMeta 4096 0 0 0)
       (Some [("sub", false,
               Dir (mkMeta 4096 0 0 0) (Some [("b.txt", false, File (mkMeta 10 0 0 0))]))]))
    0 (mkArrays [] []) =
  searchRecursive RegExpFragment.test (withMaxDepth (Some 0) noOptions) "root"
    (Dir (mkMeta 4096 0 0 0)
       (Some (map emptied
                [("sub", false,
                  Dir (mkMeta 4096 0 0 0)
                    (Some [("b.txt", false, File (mkMeta 10 0 0 0))]))])))
    0 (mkArrays [] []).
Proof.
  split.
  - apply (proj1 (proj2 maxDepth_bounds_the_walk)) with (m := 0); [reflexivity|lia].
  - apply (proj2 (proj2 maxDepth_bounds_the_walk)) with (m := 0); [reflexivity|lia].
Defined.

(** C6 as stated does not hold of [totalSize]: the sizes are added as
    doubles, and past [2^53] an addition rounds. A directory with a file of
    [9007199254740991] bytes and two files of one byte has the three files in
    the result, [totalSize] is [9007199254740992], and the sizes add up to
    [9007199254740993]. *)
Lemma search_total_size_rounds :
  exists r,
    search RegExpFragment.test noOptions "root" (hugeTree (mkMeta 4096 0 0 0)) = Ok r /\
    map fi_size (files r) = [9007199254740991; 1; 1] /\
    totalFiles r = 3 /\
    totalSize r = 9007199254740992 /\
    sumSizes (files r) = 9007199254740993 /\
    totalSize r <> sumSizes (files r).
Proof.
  eexists. split; [reflexivity|].
  repeat (split; [reflexivity|]). vm_compute. discriminate.
Qed.

(** C6, amended: every search returns a result, and in it [totalFiles] is
    the length of [files] and [totalDirectories] the length of
    [directories]; [totalSize] is the sum of the sizes of the entries of
    [files] whenever no size is negative and the sum is at most [2^53]. *)
Theorem search_totals (regExpTest : string -> string -> result bool)
    (options : SearchOptions) (searchPath : string) (root : Node) :
  exists r,
    search regExpTest options searchPath root = Ok r /\
    totalFiles r = Z.of_nat (length (files r)) /\
    totalDirectories r = Z.of_nat (length (directories r)) /\
    (Forall (fun f => 0 <= fi_size f) (files r) ->
     sumSizes (files r) <= exactUpTo ->
     totalSize r = sumSizes (files r)).
Proof.
  rewrite search_as_walk. eexists. split; [reflexivity|].
  cbn [files directories totalFiles totalDirectories totalSize].
  split; [reflexivity|]. split; [reflexivity|].
  intros Hsizes Hsum. unfold reduceSize. rewrite reduce_exact by (assumption || lia). lia.
Qed.

(** C6, the amended statement at work on a directory with a file of 10
    bytes and a subdirectory with a file of 20 bytes. *)
Lemma search_totals_witness :
  exists r,
    search RegExpFragment.test noOptions "root"
      (depthTree (mkMeta 4096 0 0 0) (mkMeta 4096 0 0 0) (mkMeta 10 0 0 0) (mkMeta 20 0 0 0))
    = Ok r /\
    totalFiles r = 2 /\ totalDirectories r = 1 /\ totalSize r = 30.
Proof.
  destruct (search_totals RegExpFragment.test noOptions "root"
              (depthTree (mkMeta 4096 0 0 0) (mkMeta 4096 0 0 0)
                 (mkMeta 10 0 0 0) (mkMeta 20 0 0 0)))
    as [r [Hr [Hfiles [Hdirs Hsize]]]].
  exists r. split; [exact Hr|].
  cbv in Hr. injection Hr as Hr. subst r.
  split; [exact Hfiles|]. split; [exact Hdirs|].
  rewrite Hsize; [reflexivity| |].
  - repeat constructor; cbn; discriminate.
  - cbv. discriminate.
Defined.

(** C7: whatever the path, content that begins with [89 50 4E 47] is
    classified as [image/png], category [Image], binary, not text, an image;
    the extension of the classification is that of the path. *)
Theorem png_content_overrides_extension (filePath : string) (rest : list Byte.byte) :
  let info := detectFromContent filePath (Ok (pngSignature ++ rest)%list) in
  ft_mimeType info = "image/png" /\
  ft_category info = "Image" /\
  ft_isBinary info = true /\
  ft_isText info = false /\
  ft_isImage info = true /\
  ft_extension info = ft_extension (detectFromPath filePath).
Proof.
  cbv zeta. unfold detectFromContent. rewrite detectMagicNumbers_png.
  repeat split.
Qed.

(** C8, as stated, fails: a buffer of four bytes is shorter than 16 bytes
    and still matches the PNG signature, and the classification of
    [notes.txt] is then not the extension-based one. *)
Lemma four_bytes_match_a_signature :
  (length pngSignature < 16)%nat /\
  detectMagicNumbers pngSignature = Some pngInfo /\
  detectFromContent "notes.txt" (Ok pngSignature) <> detectFromPath "notes.txt".
Proof.
  repeat split; [cbn; lia|]. intros H.
  apply (f_equal ft_mimeType) in H. vm_compute in H. discriminate H.
Qed.

(** C8, amended: at most the first 16 bytes are looked at, and a buffer
    shorter than 4 bytes matches no signature, so that its classification is
    the extension-based one. *)
Theorem magic_numbers_need_four_bytes :
  (forall buffer, detectMagicNumbers buffer = detectMagicNumbers (subarray 16 buffer)) /\
  (forall buffer filePath,
      (length buffer < 4)%nat ->
      detectMagicNumbers buffer = None /\
      detectFromContent filePath (Ok buffer) = detectFromPath filePath).
Proof.
  split.
  - apply detectMagicNumbers_sample.
  - intros buffer filePath H. pose proof (@detectMagicNumbers_short buffer H) as E.
    split; [exact E|]. unfold detectFromContent. rewrite E. reflexivity.
Qed.

(** C8, the amended statement at work on the first three bytes of the PNG
    signature. *)
Lemma magic_numbers_witness :
  detectMagicNumbers [Byte.x89; Byte.x50; Byte.x4e] = None /\
  detectFromContent "image.png" (Ok [Byte.x89; Byte.x50; Byte.x4e]) =
  detectFromPath "image.png".
Proof.
  apply (proj2 magic_numbers_need_four_bytes). cbn. lia.
Defined.

(** C9: on the strings that [symbolicToOctal] accepts, converting to octal
    and back gives the string again, and on the strings that
    [octalToSymbolic] accepts, converting to symbolic and back gives the
    string again; both compositions succeed. *)
Theorem permission_conversions_are_inverse :
  (forall s, isSymbolicString s = true ->
             andThen (symbolicToOctal s) octalToSymbolic = Ok s) /\
  (forall o, isOctalString o = true ->
             andThen (octalToSymbolic o) symbolicToOctal = Ok o).
Proof.
  split; [exact symbolic_roundtrip|exact octal_roundtrip].
Qed.

(** C9 at work on [rwxr-xr--] and [754]. *)
Lemma permission_conversions_witness :
  andThen (symbolicToOctal "rwxr-xr--") octalToSymbolic = Ok "rwxr-xr--" /\
  andThen (octalToSymbolic "754") symbolicToOctal = Ok "754".
Proof.
  split.
  - apply (proj1 permission_conversions_are_inverse). reflexivity.
  - apply (proj2 permission_conversions_are_inverse). reflexivity.
Defined.

(** C10: for a readable file of zero bytes the sample is empty, the
    fraction is 0 / 0, which is [NaN] and not below 0.3, and [isTextFile]
    answers false, as it does for a file that cannot be read. *)
Theorem isTextFile_empty_file :
  countNonPrintable (Js.slice 0 8192 "") 0 = 0 /\
  Z.of_nat (String.length (Js.slice 0 8192 "")) = 0 /\
  divide 0 0 = NaN /\
  lessThan03 NaN = false /\
  isTextFile (Ok "") = false /\
  (forall e, isTextFile (Throw e) = isTextFile (Ok "")).
Proof. repeat split. Qed.

(** * Further properties *)

(** ** What the walk records *)

Lemma tryCatch_snd (m : M unit) s :
  snd (tryCatch m (fun _ => ret tt) s) = snd (m s).
Proof.
  unfold tryCatch, ret. destruct (m s) as [[[]|e] s']; reflexivity.
Qed.

Lemma isDirectory_not_isFile stats :
  Fs.isDirectory stats = true -> Fs.isFile stats = false.
Proof.
  unfold Fs.isDirectory, Fs.isFile. destruct (st_type stats); congruence.
Qed.

Section WalkInvariant.

Variable regExpTest : string -> string -> result bool.
Variable options : SearchOptions.

(** What is known of a file, and of a directory, when the walk pushes it. *)
Variable PF PD : FileInfo -> Prop.
(** What is known of the tree. *)
Variable Q : Node -> Prop.

Hypothesis Qchild : forall meta items e,
  Q (Dir meta (Some items)) -> In e items -> Q (snd e).

Hypothesis HF : forall currentPath meta items item viaLink node fileInfo,
  Q (Dir meta (Some items)) ->
  In (item, viaLink, node) items ->
  (negb (truthy (includeHidden options)) && Js.startsWith item ".")%bool = false ->
  getFileInfo (Path.join currentPath item) node = Ok fileInfo ->
  fi_isFile fileInfo = true ->
  fi_isDirectory fileInfo = false ->
  matchesPattern regExpTest (fi_name fileInfo) (patternOrStar (pattern options))
    (truthy (caseSensitive options)) = Ok true ->
  matchesOptions fileInfo options = true ->
  PF fileInfo.

Hypothesis HD : forall currentPath meta items item viaLink node fileInfo,
  Q (Dir meta (Some items)) ->
  In (item, viaLink, node) items ->
  (negb (truthy (includeHidden options)) && Js.startsWith item ".")%bool = false ->
  getFileInfo (Path.join currentPath item) node = Ok fileInfo ->
  fi_isDirectory fileInfo = true ->
  matchesPattern regExpTest (fi_name fileInfo) (patternOrStar (pattern options))
    (truthy (caseSensitive options)) = Ok true ->
  PD fileInfo.

Lemma recorded_pushFile s fileInfo :
  (recordedBy PF PD) s -> PF fileInfo -> (recordedBy PF PD) (snd (pushFile fileInfo s)).
Proof.
  intros [H1 H2] H. split; cbn; [|exact H2].
  apply Forall_app. split; [exact H1|constructor; [exact H|constructor]].
Qed.

Lemma recorded_pushDirectory s fileInfo :
  (recordedBy PF PD) s -> PD fileInfo -> (recordedBy PF PD) (snd (pushDirectory fileInfo s)).
Proof.
  intros [H1 H2] H. split; cbn; [exact H1|].
  apply Forall_app. split; [exact H2|constructor; [exact H|constructor]].
Qed.

Lemma forItems_recorded recurse currentPath meta items :
  Q (Dir meta (Some items)) ->
  forall l,
  incl l items ->
  Forall (fun e : Entry =>
            forall p s, (recordedBy PF PD) s -> (recordedBy PF PD) (snd (recurse p (snd e) s))) l ->
  forall s, (recordedBy PF PD) s ->
  (recordedBy PF PD) (snd (forItems regExpTest options recurse currentPath l s)).
Proof.
  intros HQ l. induction l as [|[[item viaLink] node] rest IH]; intros Hincl Hrec s Hs.
  - exact Hs.
  - assert (Hin : In (item, viaLink, node) items) by (apply Hincl; left; reflexivity).
    assert (Hrest : incl rest items) by (intros x Hx; apply Hincl; right; exact Hx).
    inversion Hrec as [|? ? Hnode Hrec']; subst.
    specialize (IH Hrest Hrec').
    rewrite forItems_cons. apply IH. clear IH.
    cbn [forItems].
    destruct (negb _ && _)%bool eqn:Hskip; [exact Hs|].
    unfold bind at 1.
    pose proof (tryCatch_ret_tt
                  (visit regExpTest options recurse (Path.join currentPath item) node) s) as Hok.
    pose proof (tryCatch_snd
                  (visit regExpTest options recurse (Path.join currentPath item) node) s) as Hsnd.
    destruct (tryCatch _ _ s) as [[[]|e] s']; cbn in Hok; [|discriminate].
    cbn [ret snd]. cbn [snd] in Hsnd. subst s'.
    pose proof (fun fi => @HF currentPath meta items item viaLink node fi HQ Hin Hskip) as HF'.
    pose proof (fun fi => @HD currentPath meta items item viaLink node fi HQ Hin Hskip) as HD'.
    unfold visit, bind, lift. unfold getFileInfo in HF', HD' |- *.
    destruct (Fs.stat node) as [stats|e] eqn:Hstat; [|exact Hs].
    specialize (HF' _ eq_refl). specialize (HD' _ eq_refl).
    cbn [fi_isDirectory fi_isFile fi_name] in HF', HD' |- *.
    destruct (negb (truthy (followSymlinks options)) && Fs.isSymbolicLink stats)%bool;
      [exact Hs|].
    destruct (Fs.isDirectory stats) eqn:Hdir.
    + destruct (matchesPattern _ _ _ _) as [[|]|e]; cbn [snd]; try exact Hs.
      * apply Hnode. apply recorded_pushDirectory; [exact Hs|]. apply HD'; reflexivity.
      * apply Hnode. exact Hs.
    + destruct (Fs.isFile stats) eqn:Hfile; [|exact Hs].
      destruct (matchesPattern _ _ _ _) as [[|]|e]; cbn [snd andb]; try exact Hs.
      destruct (matchesOptions _ _) eqn:Hopt; [|exact Hs].
      apply recorded_pushFile; [exact Hs|]. apply HF'; reflexivity.
Qed.

Lemma searchRecursive_recorded node :
  Q node ->
  forall currentPath currentDepth s,
  (recordedBy PF PD) s ->
  (recordedBy PF PD) (snd (searchRecursive regExpTest options currentPath node currentDepth s)).
Proof.
  induction node as [meta|meta|meta items IH|meta|] using Node_induction;
    intros HQ currentPath currentDepth s Hs;
    rewrite searchRecursive_readdir;
    (destruct (beyondDepth options currentDepth); [exact Hs|]);
    rewrite tryCatch_snd; try exact Hs.
  unfold bind, lift. cbn [Fs.readdir].
  apply forItems_recorded with (meta := meta) (items := items); try assumption.
  - apply incl_refl.
  - apply Forall_forall. intros e He p t Ht.
    rewrite Forall_forall in IH. apply IH; [exact He| |exact Ht].
    eapply Qchild; eassumption.
Qed.

Lemma search_recorded searchPath root :
  Q root ->
  exists r,
    search regExpTest options searchPath root = Ok r /\
    Forall PF (files r) /\ Forall PD (directories r).
Proof.
  intros HQ. rewrite search_as_walk. eexists. split; [reflexivity|].
  cbn [files directories].
  apply (searchRecursive_recorded HQ). split; constructor.
Qed.

End WalkInvariant.

(** ** Options that filter alike give the same search *)

Section OptionsExt.

Variable regExpTest : string -> string -> result bool.
Variable options options' : SearchOptions.

Hypothesis Hpattern : pattern options = pattern options'.
Hypothesis HmaxDepth : maxDepth options = maxDepth options'.
Hypothesis HincludeHidden : includeHidden options = includeHidden options'.
Hypothesis HcaseSensitive : caseSensitive options = caseSensitive options'.
Hypothesis HfollowSymlinks : followSymlinks options = followSymlinks options'.
Hypothesis HmatchesOptions :
  forall fileInfo, matchesOptions fileInfo options = matchesOptions fileInfo options'.

Lemma forItems_options_ext recurse recurse' currentPath items :
  Forall (fun e : Entry => forall p t, recurse p (snd e) t = recurse' p (snd e) t) items ->
  forall s,
  forItems regExpTest options recurse currentPath items s =
  forItems regExpTest options' recurse' currentPath items s.
Proof.
  induction 1 as [|[[item viaLink] node] rest Hrec _ IH]; intros s; cbn.
  - reflexivity.
  - rewrite HincludeHidden.
    destruct (negb _ && _)%bool; [apply IH|].
    unfold bind, tryCatch, visit, getFileInfo, lift, bind.
    rewrite Hpattern, HcaseSensitive, HfollowSymlinks.
    destruct (Fs.stat node) as [stats|e] eqn:Hstat; [|apply IH].
    cbn. rewrite (stat_never_symbolic_link _ Hstat), !andb_false_r.
    destruct (Fs.isDirectory stats).
    + destruct (matchesPattern _ _ _ _) as [[|]|e]; cbn; try apply IH;
        cbn in Hrec; rewrite Hrec;
        match goal with
        | |- context [recurse' ?p ?n ?t] => destruct (recurse' p n t) as [[[]|?] ?]
        end;
        apply IH.
    + destruct (Fs.isFile stats); [|apply IH].
      destruct (matchesPattern _ _ _ _) as [[|]|e]; cbn; try apply IH.
      rewrite HmatchesOptions.
      destruct (matchesOptions _ _); apply IH.
Qed.

Lemma searchRecursive_options_ext node :
  forall currentPath currentDepth s,
  searchRecursive regExpTest options currentPath node currentDepth s =
  searchRecursive regExpTest options' currentPath node currentDepth s.
Proof.
  assert (Hdepth : forall d, beyondDepth options d = beyondDepth options' d).
  { intros d. unfold beyondDepth. rewrite HmaxDepth. reflexivity. }
  induction node as [meta|meta|meta items IH|meta|] using Node_induction;
    intros currentPath currentDepth s;
    rewrite !searchRecursive_readdir, Hdepth; try reflexivity.
  destruct (beyondDepth options' currentDepth); [reflexivity|].
  unfold tryCatch, bind, lift. cbn [Fs.readdir].
  rewrite forItems_options_ext
    with (recurse' := fun itemPath child =>
                        searchRecursive regExpTest options' itemPath child (currentDepth + 1)).
  - reflexivity.
  - eapply Forall_impl; [|exact IH]. intros e He p t. apply He.
Qed.

Lemma search_options_ext searchPath root :
  search regExpTest options searchPath root = search regExpTest options' searchPath root.
Proof.
  rewrite !search_as_walk, searchRecursive_options_ext. reflexivity.
Qed.

End OptionsExt.

(** ** Names and paths *)

Lemma list_ascii_of_string_app s t :
  list_ascii_of_string (s ++ t) = (list_ascii_of_string s ++ list_ascii_of_string t)%list.
Proof.
  induction s as [|c s IH]; cbn; [reflexivity|]. rewrite IH. reflexivity.
Qed.

Lemma untilSep_app a b :
  forallb (fun c => negb (Ascii.eqb c Path.sep)) a = true ->
  Path.untilSep (a ++ Path.sep :: b) = a.
Proof.
  induction a as [|c a IH]; cbn [app Path.untilSep forallb]; intros H.
  - rewrite Ascii.eqb_refl. reflexivity.
  - apply andb_true_iff in H as [Hc Ha].
    destruct (Ascii.eqb c Path.sep); [discriminate|]. rewrite IH by exact Ha. reflexivity.
Qed.

Lemma dropSeps_head a :
  a <> [] ->
  forallb (fun c => negb (Ascii.eqb c Path.sep)) a = true ->
  forall b, Path.dropSeps (a ++ b) = (a ++ b)%list.
Proof.
  destruct a as [|c a]; [congruence|]. intros _ H b.
  cbn [forallb] in H. apply andb_true_iff in H as [Hc _].
  cbn [app Path.dropSeps]. destruct (Ascii.eqb c Path.sep); [discriminate|reflexivity].
Qed.

Lemma validName_chars item :
  validName item = true ->
  list_ascii_of_string item <> [] /\
  forallb (fun c => negb (Ascii.eqb c Path.sep)) (list_ascii_of_string item) = true.
Proof.
  unfold validName. intros H. apply andb_true_iff in H as [H1 H2]. split; [|exact H2].
  destruct item; [discriminate|]. cbn. congruence.
Qed.

Lemma revBase_join dir item :
  validName item = true ->
  Path.revBase (Path.join dir item) = rev (list_ascii_of_string item).
Proof.
  intros H. apply validName_chars in H as [Hne Hall].
  unfold Path.revBase, Path.join.
  rewrite list_ascii_of_string_app. cbn [list_ascii_of_string].
  rewrite rev_app_distr. cbn [rev]. rewrite <- app_assoc. cbn [app].
  assert (Hall' : forallb (fun c => negb (Ascii.eqb c Path.sep))
                    (rev (list_ascii_of_string item)) = true).
  { rewrite forallb_forall in *. intros c Hc. apply Hall. apply in_rev. exact Hc. }
  rewrite dropSeps_head; [apply untilSep_app; exact Hall'| |exact Hall'].
  intros E. apply Hne. rewrite <- (rev_involutive (list_ascii_of_string item)), E.
  reflexivity.
Qed.

Lemma basename_join dir item :
  validName item = true -> Path.basename (Path.join dir item) = item.
Proof.
  intros H. unfold Path.basename. rewrite revBase_join by exact H.
  rewrite rev_involutive. apply string_of_list_ascii_of_string.
Qed.

Lemma wellNamed_In meta items item viaLink child :
  wellNamed (Dir meta (Some items)) = true ->
  In (item, viaLink, child) items ->
  validName item = true /\ wellNamed child = true.
Proof.
  cbn [wellNamed]. induction items as [|[[item' viaLink'] child'] rest IH]; intros H Hin.
  - contradiction.
  - apply andb_true_iff in H as [H Hrest]. apply andb_true_iff in H as [Hname Hchild].
    destruct Hin as [E|Hin].
    + inversion E; subst. split; assumption.
    + apply IH; assumption.
Qed.

(** ** What [matchesOptions] lets through *)

Lemma matchesOptions_inv fileInfo options :
  matchesOptions fileInfo options = true ->
  (forall m, maxSize options = Some m -> m <> 0 -> fi_size fileInfo <= m) /\
  (forall m, minSize options = Some m -> m <> 0 -> m <= fi_size fileInfo) /\
  (forall d, modifiedSince options = Some d -> d <= fi_modifiedAt fileInfo) /\
  (forall d, modifiedBefore options = Some d -> fi_modifiedAt fileInfo <= d) /\
  (forall e es, extensions options = Some (e :: es) ->
                In (Js.toLowerCase (fi_extension fileInfo)) (map withDot (e :: es))).
Proof.
  unfold matchesOptions, given. intros H.
  repeat split.
  - intros m Hm Hnz. rewrite Hm in H.
    destruct (extensions options) as [[|? ?]|]; [|destruct (negb _); [discriminate|]|];
      (destruct (Z.eqb_spec m 0); [contradiction|]);
      (destruct (fi_size fileInfo >? m) eqn:E; [discriminate|]);
      rewrite Z.gtb_ltb in E; apply Z.ltb_ge in E; exact E.
  - intros m Hm Hnz. rewrite Hm in H.
    destruct (extensions options) as [[|? ?]|]; [|destruct (negb _); [discriminate|]|];
      (destruct (match maxSize options with Some _ => _ | None => _ end);
         [destruct (_ >? _); [discriminate|]|]);
      (destruct (Z.eqb_spec m 0); [contradiction|]);
      (destruct (fi_size fileInfo <? m) eqn:E; [discriminate|]);
      apply Z.ltb_ge in E; exact E.
  - intros d Hd. rewrite Hd in H.
    destruct (extensions options) as [[|? ?]|]; [|destruct (negb _); [discriminate|]|];
      (destruct (match maxSize options with Some _ => _ | None => _ end);
         [destruct (_ >? _); [discriminate|]|]);
      (destruct (match minSize options with Some _ => _ | None => _ end);
         [destruct (_ <? _); [discriminate|]|]);
      (destruct (fi_modifiedAt fileInfo <? d) eqn:E; [discriminate|]);
      apply Z.ltb_ge in E; exact E.
  - intros d Hd. rewrite Hd in H.
    destruct (extensions options) as [[|? ?]|]; [|destruct (negb _); [discriminate|]|];
      (destruct (match maxSize options with Some _ => _ | None => _ end);
         [destruct (_ >? _); [discriminate|]|]);
      (destruct (match minSize options with Some _ => _ | None => _ end);
         [destruct (_ <? _); [discriminate|]|]);
      (destruct (modifiedSince options); [destruct (_ <? _); [discriminate|]|]);
      (destruct (fi_modifiedAt fileInfo >? d) eqn:E; [discriminate|]);
      rewrite Z.gtb_ltb in E; apply Z.ltb_ge in E; exact E.
  - intros e es He. rewrite He in H.
    destruct (Js.arrayIncludes _ _) eqn:E; [|discriminate].
    unfold Js.arrayIncludes in E. apply existsb_exists in E as [x [Hx Hxe]].
    apply String.eqb_eq in Hxe. subst x. exact Hx.
Qed.

(** ** Sorting by a number, largest first *)

Section SortByKey.

Variable A : Type.
Variable key : A -> Z.


Lemma insertSorted_perm x l : Permutation (insertSorted (descendingBy key) x l) (x :: l).
Proof.
  induction l as [|y l IH]; cbn; [apply Permutation_refl|].
  destruct ((descendingBy key) x y <=? 0); [apply Permutation_refl|].
  eapply Permutation_trans; [apply perm_skip; exact IH|apply perm_swap].
Qed.

Lemma sortBy_perm l : Permutation (sortBy (descendingBy key) l) l.
Proof.
  induction l as [|x l IH]; cbn; [constructor|].
  eapply Permutation_trans; [apply insertSorted_perm|apply perm_skip; exact IH].
Qed.

Lemma insertSorted_hd x y l :
  (notBelowBy key) y x -> HdRel (notBelowBy key) y l -> HdRel (notBelowBy key) y (insertSorted (descendingBy key) x l).
Proof.
  intros Hyx H. destruct l as [|z l]; cbn; [constructor; exact Hyx|].
  destruct ((descendingBy key) x z <=? 0); constructor; [exact Hyx|].
  inversion H; assumption.
Qed.

Lemma insertSorted_sorted x l :
  Sorted (notBelowBy key) l -> Sorted (notBelowBy key) (insertSorted (descendingBy key) x l).
Proof.
  induction 1 as [|y l Hl IH Hhd]; cbn; [repeat constructor|].
  destruct (Z.leb_spec ((descendingBy key) x y) 0) as [Hle|Hgt].
  - constructor; [constructor; assumption|]. constructor.
    unfold notBelowBy, descendingBy in *. lia.
  - constructor; [exact IH|]. apply insertSorted_hd; [|exact Hhd].
    unfold notBelowBy, descendingBy in *. lia.
Qed.

Lemma sortBy_sorted l : StronglySorted (notBelowBy key) (sortBy (descendingBy key) l).
Proof.
  apply Sorted_StronglySorted.
  - intros a b c Hab Hbc. unfold notBelowBy in *. lia.
  - induction l as [|x l IH]; cbn; [constructor|]. apply insertSorted_sorted. exact IH.
Qed.

Lemma sortBy_Forall (P : A -> Prop) l : Forall P l -> Forall P (sortBy (descendingBy key) l).
Proof.
  intros H. rewrite Forall_forall in *. intros x Hx. apply H.
  eapply Permutation_in; [apply sortBy_perm|exact Hx].
Qed.

End SortByKey.

(** ** Kinds and bounds of what is recorded *)

(** Whatever the options and the tree, [files] holds regular files only
    and [directories] holds directories only, and the name and the
    extension of every recorded file are those of its path. *)
Lemma search_kinds
    (regExpTest : string -> string -> result bool) (options : SearchOptions)
    (searchPath : string) (root : Node) :
  exists r,
    search regExpTest options searchPath root = Ok r /\
    Forall (fun f => fi_isFile f = true /\ fi_isDirectory f = false /\
                     fi_name f = Path.basename (fi_path f) /\
                     fi_extension f = Path.extname (fi_path f)) (files r) /\
    Forall (fun d => fi_isDirectory d = true /\ fi_isFile d = false) (directories r).
Proof.
  apply search_recorded with (Q := fun _ => True); try exact I.
  - intros; exact I.
  - intros currentPath meta items item viaLink node fileInfo _ _ _ Hinfo Hfile Hdir _ _.
    unfold getFileInfo in Hinfo. destruct (Fs.stat node); [|discriminate].
    inversion Hinfo; subst; clear Hinfo. cbn in *. repeat split; assumption.
  - intros currentPath meta items item viaLink node fileInfo _ _ _ Hinfo Hdir _.
    unfold getFileInfo in Hinfo. destruct (Fs.stat node) as [stats|]; [|discriminate].
    inversion Hinfo; subst; clear Hinfo. cbn in *.
    split; [exact Hdir|apply isDirectory_not_isFile; exact Hdir].
Qed.

(** Every file of the result is within the bounds the options set: a
    non-zero [maxSize] and [minSize], [modifiedSince] and [modifiedBefore]
    (both inclusive), and a non-empty extension list, which holds the
    lower-case extension of the file. *)
Lemma search_filtered
    (regExpTest : string -> string -> result bool) (options : SearchOptions)
    (searchPath : string) (root : Node) :
  exists r,
    search regExpTest options searchPath root = Ok r /\
    Forall (fun f =>
              (forall m, maxSize options = Some m -> m <> 0 -> fi_size f <= m) /\
              (forall m, minSize options = Some m -> m <> 0 -> m <= fi_size f) /\
              (forall d, modifiedSince options = Some d -> d <= fi_modifiedAt f) /\
              (forall d, modifiedBefore options = Some d -> fi_modifiedAt f <= d) /\
              (forall e es, extensions options = Some (e :: es) ->
                            In (Js.toLowerCase (fi_extension f)) (map withDot (e :: es))))
           (files r).
Proof.
  destruct (@search_recorded regExpTest options
              (fun f => matchesOptions f options = true) (fun _ => True) (fun _ => True))
    with (searchPath := searchPath) (root := root) as [r [Hr [Hfiles _]]];
    try (intros; exact I).
  - intros; assumption.
  - exists r. split; [exact Hr|].
    eapply Forall_impl; [|exact Hfiles]. intros f Hf. apply matchesOptions_inv. exact Hf.
Qed.


(** ** The tables of the type detector *)

Import FileTypeDetector.

Lemma lookup_In table key value :
  lookup table key = Some value -> In (key, value) table.
Proof.
  induction table as [|[k v] rest IH]; cbn; [discriminate|].
  destruct (String.eqb_spec key k) as [E|E].
  - intros H. inversion H; subst. left. reflexivity.
  - intros H. right. apply IH. exact H.
Qed.

(** No key occurs twice in [categories], and every key is a lower-case
    extension with its dot. *)
Lemma categories_rows key value :
  In (key, value) categories ->
  lookup categories key = Some value /\ withDot key = key /\ value <> "Unknown".
Proof.
  intros H.
  assert (E : forallb (fun row : string * string =>
                         match lookup categories (fst row) with
                         | Some v => String.eqb v (snd row)
                         | None => false
                         end && String.eqb (withDot (fst row)) (fst row)
                         && negb (String.eqb (snd row) "Unknown"))%bool
                categories = true) by (vm_compute; reflexivity).
  rewrite forallb_forall in E. specialize (E _ H). cbn [fst snd] in E.
  apply andb_true_iff in E as [E E3]. apply andb_true_iff in E as [E1 E2].
  destruct (lookup categories key) as [v|]; [|discriminate].
  apply String.eqb_eq in E1, E2. apply negb_true_iff in E3.
  apply String.eqb_neq in E3. subst v. auto.
Qed.

Lemma getExtensionsByCategory_In ext category :
  In ext (FileTypeQueries.getExtensionsByCategory category) <->
  In (ext, category) categories.
Proof.
  unfold FileTypeQueries.getExtensionsByCategory. rewrite in_map_iff. split.
  - intros [[k v] [Hk Hin]]. cbn in Hk. subst k.
    apply filter_In in Hin as [Hin Hv]. cbn in Hv. apply String.eqb_eq in Hv. subst v.
    exact Hin.
  - intros H. exists (ext, category). split; [reflexivity|].
    apply filter_In. split; [exact H|]. cbn. apply String.eqb_refl.
Qed.

Lemma getExtensionsByCategory_dotted category :
  map withDot (FileTypeQueries.getExtensionsByCategory category) =
  FileTypeQueries.getExtensionsByCategory category.
Proof.
  rewrite <- (map_id (FileTypeQueries.getExtensionsByCategory category)) at 2.
  apply map_ext_in. intros ext H. apply getExtensionsByCategory_In in H.
  destruct (categories_rows H) as [_ [Hdot _]]. exact Hdot.
Qed.

Lemma category_of_extension path category :
  In (ft_extension (detectFromPath path)) (FileTypeQueries.getExtensionsByCategory category) ->
  ft_category (detectFromPath path) = category.
Proof.
  intros H. apply getExtensionsByCategory_In in H. apply categories_rows in H as [H _].
  cbn [detectFromPath ft_extension ft_category] in *. unfold lookupOr. rewrite H. reflexivity.
Qed.


(** ** Grouping by size *)

Import Utils.

Lemma addToGroup_keys f groups :
  map fst (addToGroup f groups) =
  if existsb (Z.eqb (fi_size f)) (map fst groups) then map fst groups
  else (map fst groups ++ [fi_size f])%list.
Proof.
  induction groups as [|[size group] rest IH]; cbn; [reflexivity|].
  rewrite (Z.eqb_sym (fi_size f) size).
  destruct (size =? fi_size f); cbn; [reflexivity|].
  rewrite IH. destruct (existsb _ _); reflexivity.
Qed.

Lemma existsb_key k keys : existsb (Z.eqb k) keys = true <-> In k keys.
Proof.
  rewrite existsb_exists. split.
  - intros [x [Hx E]]. apply Z.eqb_eq in E. subst x. exact Hx.
  - intros H. exists k. split; [exact H|apply Z.eqb_refl].
Qed.

Lemma addToGroup_In f groups size group :
  NoDup (map fst groups) ->
  In (size, group) (addToGroup f groups) ->
  (size <> fi_size f /\ In (size, group) groups) \/
  (size = fi_size f /\
   exists before, group = (before ++ [f])%list /\
                  (In (size, before) groups \/
                   (before = [] /\ ~ In size (map fst groups)))).
Proof.
  induction groups as [|[s g] rest IH]; cbn [addToGroup map fst]; intros Hnd Hin.
  - destruct Hin as [E|[]]. inversion E; subst. right. split; [reflexivity|].
    exists []. split; [reflexivity|]. right. split; [reflexivity|]. intros [].
  - inversion Hnd as [|? ? Hs Hrest]; subst.
    destruct (Z.eqb_spec s (fi_size f)) as [E|E].
    + destruct Hin as [Hhd|Htl].
      * inversion Hhd; subst. right. split; [reflexivity|].
        exists g. split; [reflexivity|]. left. left. reflexivity.
      * left. split; [|right; exact Htl].
        intros E'. apply Hs. rewrite E, <- E'.
        change size with (fst (size, group)). apply in_map. exact Htl.
    + destruct Hin as [Hhd|Htl].
      * inversion Hhd; subst. left. split; [exact E|left; reflexivity].
      * destruct (IH Hrest Htl) as [[Hne Hin]|[Heq [before [Hg Hb]]]].
        -- left. split; [exact Hne|right; exact Hin].
        -- right. split; [exact Heq|]. exists before. split; [exact Hg|].
           destruct Hb as [Hb|[Hb Hnot]]; [left; right; exact Hb|].
           right. split; [exact Hb|]. cbn. intros [E'|Hin]; [congruence|contradiction].
Qed.

Lemma filter_sizeIs_snoc size files f :
  filter (sizeIs size) (files ++ [f]) =
  if fi_size f =? size then (filter (sizeIs size) files ++ [f])%list
  else filter (sizeIs size) files.
Proof.
  rewrite filter_app. cbn. unfold sizeIs at 2.
  destruct (fi_size f =? size); [reflexivity|apply app_nil_r].
Qed.

Lemma grouped_step files groups f :
  grouped files groups -> grouped (files ++ [f]) (addToGroup f groups).
Proof.
  intros [Hnd [Hclass Hkeys]]. split; [|split].
  - rewrite addToGroup_keys.
    destruct (existsb _ _) eqn:E; [exact Hnd|].
    apply NoDup_app; [exact Hnd|repeat constructor; intros []|].
    intros k Hk [Hk'|[]]. subst k.
    apply existsb_key in Hk. congruence.
  - intros size group Hin.
    destruct (addToGroup_In _ _ _ _ Hnd Hin) as [[Hne Hin']|[Heq [before [Hg Hb]]]].
    + destruct (Hclass _ _ Hin') as [Hf Hn]. split; [|exact Hn].
      rewrite filter_sizeIs_snoc.
      destruct (Z.eqb_spec (fi_size f) size); [congruence|exact Hf].
    + subst size group. split; [|destruct before; discriminate].
      rewrite filter_sizeIs_snoc, Z.eqb_refl. f_equal.
      destruct Hb as [Hb|[Hb Hnot]].
      * apply (Hclass _ _ Hb).
      * subst before. symmetry.
        destruct (filter (sizeIs (fi_size f)) files) as [|x l] eqn:E; [reflexivity|].
        exfalso. apply Hnot.
        assert (Hx : In x (filter (sizeIs (fi_size f)) files)) by (rewrite E; left; reflexivity).
        apply filter_In in Hx as [Hx Hsize]. unfold sizeIs in Hsize.
        apply Z.eqb_eq in Hsize. rewrite <- Hsize. apply Hkeys. exact Hx.
  - intros f' Hin. rewrite addToGroup_keys.
    apply in_app_or in Hin as [Hin|[E|[]]].
    + destruct (existsb _ _); [|apply in_or_app; left]; apply Hkeys; exact Hin.
    + subst f'. destruct (existsb _ _) eqn:E.
      * apply existsb_key. exact E.
      * apply in_or_app. right. left. reflexivity.
Qed.

Lemma fold_grouped l :
  forall files groups,
  grouped files groups ->
  grouped (files ++ l)
    (fold_left (fun sizeGroups file => addToGroup file sizeGroups) l groups).
Proof.
  induction l as [|f l IH]; intros files groups H; cbn [fold_left].
  - rewrite app_nil_r. exact H.
  - replace (files ++ f :: l)%list with ((files ++ [f]) ++ l)%list
      by (rewrite <- app_assoc; reflexivity).
    apply IH. apply grouped_step. exact H.
Qed.

Lemma groupBySize_grouped files : grouped files (groupBySize files).
Proof.
  apply (@fold_grouped files [] []). split; [constructor|split; intros; contradiction].
Qed.

Lemma NoDup_keys_filter (p : Z * list FileInfo -> bool) groups :
  NoDup (map fst groups) -> NoDup (map fst (filter p groups)).
Proof.
  induction groups as [|g rest IH]; cbn; intros H; [constructor|].
  inversion H as [|? ? Hnot Hrest]; subst.
  destruct (p g); cbn; [|apply IH; exact Hrest].
  constructor; [|apply IH; exact Hrest].
  intros Hin. apply Hnot. apply in_map_iff in Hin as [x [Hx Hin]].
  apply filter_In in Hin as [Hin _]. rewrite <- Hx. apply in_map. exact Hin.
Qed.

Lemma strictly_descending (groups : list (Z * list FileInfo)) :
  StronglySorted (notBelowBy fst) groups ->
  NoDup (map fst groups) ->
  StronglySorted (fun a b => fst b < fst a) groups.
Proof.
  induction 1 as [|a l Hl IH Ha]; intros Hnd; [constructor|].
  cbn in Hnd. inversion Hnd as [|? ? Hnot Hrest]; subst.
  constructor; [apply IH; exact Hrest|].
  rewrite Forall_forall in *. intros b Hb. specialize (Ha b Hb). unfold notBelowBy in Ha.
  assert (fst b <> fst a) by (intros E; apply Hnot; rewrite <- E; apply in_map; exact Hb).
  lia.
Qed.

(** ** The three tables have the same keys *)

Lemma lookup_None table key :
  lookup table key = None <-> ~ In key (map fst table).
Proof.
  induction table as [|[k v] rest IH]; cbn.
  - split; [intros _ []|reflexivity].
  - destruct (String.eqb_spec key k) as [E|E].
    + split; [discriminate|]. intros H. exfalso. apply H. left. symmetry. exact E.
    + rewrite IH. split.
      * intros H [E'|Hin]; [apply E; symmetry; exact E'|apply H; exact Hin].
      * intros H Hin. apply H. right. exact Hin.
Qed.

Lemma same_keys :
  map fst categories = map fst mimeTypes /\ map fst descriptions = map fst mimeTypes.
Proof. split; reflexivity. Qed.

Lemma known_extension ext :
  In ext (map fst mimeTypes) ->
  lookupOr mimeTypes ext "application/octet-stream" <> "application/octet-stream" /\
  lookupOr categories ext "Unknown" <> "Unknown" /\
  lookupOr descriptions ext "Unknown file type" <> "Unknown file type".
Proof.
  intros H.
  assert (E : forallb (fun k =>
                         negb (String.eqb (lookupOr mimeTypes k "application/octet-stream")
                                 "application/octet-stream")
                         && negb (String.eqb (lookupOr categories k "Unknown") "Unknown")
                         && negb (String.eqb (lookupOr descriptions k "Unknown file type")
                                    "Unknown file type"))%bool
                (map fst mimeTypes) = true) by (vm_compute; reflexivity).
  rewrite forallb_forall in E. specialize (E _ H).
  apply andb_true_iff in E as [E E3]. apply andb_true_iff in E as [E1 E2].
  apply negb_true_iff in E1, E2, E3. apply String.eqb_neq in E1, E2, E3. auto.
Qed.

Lemma unknown_extension ext :
  ~ In ext (map fst mimeTypes) ->
  lookupOr mimeTypes ext "application/octet-stream" = "application/octet-stream" /\
  lookupOr categories ext "Unknown" = "Unknown" /\
  lookupOr descriptions ext "Unknown file type" = "Unknown file type".
Proof.
  intros H. destruct same_keys as [Hc Hd]. unfold lookupOr.
  assert (H1 : lookup mimeTypes ext = None) by (apply lookup_None; exact H).
  assert (H2 : lookup categories ext = None) by (apply lookup_None; rewrite Hc; exact H).
  assert (H3 : lookup descriptions ext = None) by (apply lookup_None; rewrite Hd; exact H).
  rewrite H1, H2, H3. auto.
Qed.

Lemma categoryIs_category ext category :
  category <> "Unknown" ->
  categoryIs ext category = String.eqb (lookupOr categories ext "Unknown") category.
Proof.
  intros H. unfold categoryIs, lookupOr.
  destruct (lookup categories ext); [reflexivity|].
  symmetry. apply String.eqb_neq. congruence.
Qed.

(** ** What a signature stands for *)

Lemma detectMagicNumbers_binary buffer info :
  detectMagicNumbers buffer = Some info ->
  mg_isBinary info = true /\ In (mg_category info) signatureCategories /\
  (4 <= length buffer)%nat.
Proof.
  unfold detectMagicNumbers. intros H.
  destruct (Nat.ltb_spec (length buffer) 4) as [Hlt|Hge]; [discriminate|].
  repeat match type of H with
         | (if ?c then _ else _) = Some _ => destruct c
         end;
    try discriminate;
    inversion H; subst; cbn; repeat split; auto 10.
Qed.

(** ** Signatures inside a RIFF container *)

Lemma includes_cons c s p : Js.includes s p = true -> Js.includes (String c s) p = true.
Proof.
  intros H. cbn [Js.includes].
  destruct (Js.startsWith (String c s) p); [reflexivity|exact H].
Qed.

Lemma riff_webp_hex a b c d rest :
  exists x1 x2 x3 x4 x5 x6 x7 x8 tail,
    Js.toUpperCase
      (toHex (subarray 16 (riffBytes ++ [a; b; c; d] ++ webpBytes ++ rest)%list)) =
    "52494646" ++
      String x1 (String x2 (String x3 (String x4 (String x5 (String x6 (String x7 (String x8
        ("57454250" ++ tail)))))))).
Proof.
  do 8 eexists. exists (Js.toUpperCase (toHex (subarray 4 rest))). reflexivity.
Qed.

(** ** Paths that differ by letter case *)

Section MapChars.

Variable f : ascii -> ascii.
Hypothesis Hsep : forall c, Ascii.eqb (f c) Path.sep = Ascii.eqb c Path.sep.
Hypothesis Hdot : forall c, Ascii.eqb (f c) Path.dot = Ascii.eqb c Path.dot.










End MapChars.



(** ** Printable samples *)

Lemma allChars_substring p n s :
  allChars p s = true -> allChars p (String.substring 0 n s) = true.
Proof.
  revert s. induction n as [|n IH]; intros s H.
  - destruct s; reflexivity.
  - destruct s as [|c s]; [reflexivity|]. cbn in *.
    apply andb_true_iff in H as [Hc Hs]. rewrite Hc, IH by exact Hs. reflexivity.
Qed.

Lemma countNonPrintable_printable s acc :
  allChars printable s = true -> countNonPrintable s acc = acc.
Proof.
  revert acc. induction s as [|c s IH]; intros acc H; [reflexivity|].
  cbn [allChars] in H. apply andb_true_iff in H as [Hc Hs].
  cbn [countNonPrintable]. unfold printable in Hc. apply negb_true_iff in Hc.
  rewrite Hc. apply IH. exact Hs.
Qed.

Lemma substring_nonempty n c s :
  (1 <= String.length (String.substring 0 (S n) (String c s)))%nat.
Proof. cbn. lia. Qed.

(** ** The nine permission bits *)

Import Permissions.

Lemma land_511 mode : 0 <= Z.land mode 511 < 512.
Proof.
  change 511 with (Z.ones 9). rewrite Z.land_ones by lia.
  change (2 ^ 9) with 512. apply Z.mod_pos_bound. lia.
Qed.

Lemma bitSet_low mode mask :
  Z.land 511 mask = mask -> bitSet mode mask = bitSet (Z.land mode 511) mask.
Proof.
  intros H. unfold bitSet. rewrite <- Z.land_assoc, H. reflexivity.
Qed.

Lemma octalAgrees_all v : 0 <= v < 512 -> octalAgrees v = true.
Proof.
  intros H.
  assert (E : forallb octalAgrees (map Z.of_nat (seq 0 512)) = true)
    by (vm_compute; reflexivity).
  rewrite forallb_forall in E. apply E.
  apply in_map_iff. exists (Z.to_nat v). split; [lia|].
  apply in_seq. lia.
Qed.

(** ** The last segment of a path *)






(** ** Sums and counts within the exact range *)

Lemma sumPairs_app l1 l2 : sumPairs (l1 ++ l2) = sumPairs l1 + sumPairs l2.
Proof.
  unfold sumPairs. induction l1 as [|x l1 IH]; cbn [app fold_right]; [lia|].
  rewrite IH. lia.
Qed.

Lemma sumPairs_nonneg l : noneNegative l -> 0 <= sumPairs l.
Proof.
  induction 1 as [|x l Hx _ IH]; [cbn; lia|].
  change (sumPairs (x :: l)) with (snd x + sumPairs l). lia.
Qed.

Lemma addAll_app l1 l2 start : addAll (l1 ++ l2) start = addAll l2 (addAll l1 start).
Proof. apply fold_left_app. Qed.

Lemma addAll_exact l :
  noneNegative l ->
  forall start,
  0 <= start -> start + sumPairs l <= exactUpTo ->
  addAll (sizesOf l) start = start + sumPairs l.
Proof.
  induction 1 as [|x l Hx Hl IH]; intros start Hstart Hsum.
  - cbn. lia.
  - change (sumPairs (x :: l)) with (snd x + sumPairs l) in *.
    pose proof (sumPairs_nonneg Hl) as Hrest.
    change (addAll (sizesOf (x :: l)) start) with (addAll (sizesOf l) (Js.add start (snd x))).
    rewrite add_exact by lia. rewrite IH by lia. lia.
Qed.

Lemma countFrom_succ start n : countFrom (Js.add start 1) n = countFrom start (S n).
Proof. unfold countFrom. rewrite Nat.iter_succ_r. reflexivity. Qed.

Lemma countFrom_add start n m :
  countFrom start (n + m) = countFrom (countFrom start n) m.
Proof. unfold countFrom. rewrite Nat.add_comm. apply Nat.iter_add. Qed.

Lemma countFrom_exact n :
  forall start,
  0 <= start -> start + Z.of_nat n <= exactUpTo ->
  countFrom start n = start + Z.of_nat n.
Proof.
  induction n as [|n IH]; intros start Hstart Hsum.
  - cbn. lia.
  - rewrite <- countFrom_succ, add_exact by lia. rewrite IH by lia. lia.
Qed.

Lemma reduceSize_snoc files f :
  reduceSize (files ++ [f]) = Js.add (reduceSize files) (fi_size f).
Proof. unfold reduceSize. rewrite fold_left_app. reflexivity. Qed.

(** ** The size walks *)

Section SizeWalks.

Variable includeHidden : bool.

Lemma filesLoop_app dirPath recurse items :
  Forall (fun e : Entry =>
            forall p files, recurse p (snd e) files = (files ++ recurse p (snd e) [])%list)
    items ->
  forall files,
  SizeCalculator.filesLoop dirPath includeHidden recurse items files =
  (files ++ SizeCalculator.filesLoop dirPath includeHidden recurse items [])%list.
Proof.
  induction 1 as [|[[item viaLink] node] rest Hrec _ IH]; intros files;
    cbn [SizeCalculator.filesLoop].
  - rewrite app_nil_r. reflexivity.
  - cbn [snd] in Hrec.
    destruct (SizeCalculator.skipped includeHidden item); [apply IH|].
    destruct (Fs.stat node) as [stats|e]; [|apply IH].
    destruct (Fs.isFile stats).
    + rewrite IH, (IH ([] ++ _)%list), app_assoc. reflexivity.
    + destruct (Fs.isDirectory stats); [|apply IH].
      rewrite IH, (IH (recurse _ _ [])), Hrec, app_assoc. reflexivity.
Qed.

Lemma collectFiles_app node :
  forall dirPath files,
  SizeCalculator.collectFiles dirPath node files includeHidden =
  (files ++ SizeCalculator.collectFiles dirPath node [] includeHidden)%list.
Proof.
  induction node as [meta|meta|meta items IH|meta|] using Node_induction;
    intros dirPath files; cbn [SizeCalculator.collectFiles];
    try (rewrite app_nil_r; reflexivity).
  apply filesLoop_app. eapply Forall_impl; [|exact IH]. intros e He p fs. apply He.
Qed.

(** The statistics walk lists the files of [collectFiles], adds their
    sizes one by one and counts them one by one. *)
Lemma statsLoop_listed dirPath items
    (statsOf : string -> Node -> DirStats -> DirStats)
    (filesOf : string -> Node -> list (string * Z) -> list (string * Z)) :
  Forall (fun e : Entry =>
            forall p,
            (forall files, filesOf p (snd e) files = (files ++ filesOf p (snd e) [])%list) /\
            forall st,
            ds_totalSize (statsOf p (snd e) st)
            = addAll (sizesOf (filesOf p (snd e) [])) (ds_totalSize st) /\
            ds_fileCount (statsOf p (snd e) st)
            = countFrom (ds_fileCount st) (length (filesOf p (snd e) [])) /\
            ds_largestFiles (statsOf p (snd e) st)
            = (ds_largestFiles st ++ filesOf p (snd e) [])%list) items ->
  forall st,
  let found := SizeCalculator.filesLoop dirPath includeHidden filesOf items [] in
  ds_totalSize (SizeCalculator.statsLoop dirPath includeHidden statsOf items st)
  = addAll (sizesOf found) (ds_totalSize st) /\
  ds_fileCount (SizeCalculator.statsLoop dirPath includeHidden statsOf items st)
  = countFrom (ds_fileCount st) (length found) /\
  ds_largestFiles (SizeCalculator.statsLoop dirPath includeHidden statsOf items st)
  = (ds_largestFiles st ++ found)%list.
Proof.
  intros H. cbv zeta.
  induction H as [|[[item viaLink] node] rest Hnode Hrest IH]; intros st;
    cbn [SizeCalculator.filesLoop SizeCalculator.statsLoop].
  - cbn. rewrite app_nil_r. repeat split.
  - cbn [snd] in Hnode.
    assert (Happ : forall files,
               SizeCalculator.filesLoop dirPath includeHidden filesOf rest files =
               (files ++ SizeCalculator.filesLoop dirPath includeHidden filesOf rest [])%list).
    { apply filesLoop_app. eapply Forall_impl; [|exact Hrest]. intros e He p. apply (He p). }
    destruct (SizeCalculator.skipped includeHidden item); [apply IH|].
    destruct (Fs.stat node) as [stats|e]; [|apply IH].
    destruct (Fs.isFile stats).
    + rewrite Happ.
      destruct (IH (mkDirStats (Js.add (ds_totalSize st) (m_size (st_meta stats)))
                      (Js.add (ds_fileCount st) 1) (ds_directoryCount st)
                      (ds_largestFiles st ++ [(Path.join dirPath item, m_size (st_meta stats))])))
        as [E1 [E2 E3]].
      rewrite E1, E2, E3. cbn [ds_totalSize ds_fileCount ds_largestFiles].
      rewrite countFrom_succ. split; [reflexivity|split; [reflexivity|]].
      cbn [app]. rewrite <- app_assoc. reflexivity.
    + destruct (Fs.isDirectory stats); [|apply IH].
      destruct (Hnode (Path.join dirPath item)) as [Hf Hst].
      rewrite Happ.
      destruct (Hst (mkDirStats (ds_totalSize st) (ds_fileCount st)
                       (Js.add (ds_directoryCount st) 1) (ds_largestFiles st)))
        as [G1 [G2 G3]].
      cbn [ds_totalSize ds_fileCount ds_largestFiles] in G1, G2, G3.
      destruct (IH (statsOf (Path.join dirPath item) node
                      (mkDirStats (ds_totalSize st) (ds_fileCount st)
                         (Js.add (ds_directoryCount st) 1) (ds_largestFiles st))))
        as [E1 [E2 E3]].
      rewrite E1, E2, E3, G1, G2, G3.
      unfold sizesOf. rewrite map_app, length_app, <- app_assoc.
      fold (sizesOf (filesOf (Path.join dirPath item) node [])).
      rewrite addAll_app, countFrom_add. repeat split.
Qed.

Lemma gatherDirectoryStats_listed node :
  forall dirPath,
  (forall files,
      SizeCalculator.collectFiles dirPath node files includeHidden
      = (files ++ SizeCalculator.collectFiles dirPath node [] includeHidden)%list) /\
  forall st,
  ds_totalSize (SizeCalculator.gatherDirectoryStats dirPath node includeHidden st)
  = addAll (sizesOf (SizeCalculator.collectFiles dirPath node [] includeHidden))
      (ds_totalSize st) /\
  ds_fileCount (SizeCalculator.gatherDirectoryStats dirPath node includeHidden st)
  = countFrom (ds_fileCount st)
      (length (SizeCalculator.collectFiles dirPath node [] includeHidden)) /\
  ds_largestFiles (SizeCalculator.gatherDirectoryStats dirPath node includeHidden st)
  = (ds_largestFiles st ++ SizeCalculator.collectFiles dirPath node [] includeHidden)%list.
Proof.
  induction node as [meta|meta|meta items IH|meta|] using Node_induction;
    intros dirPath;
    cbn [SizeCalculator.collectFiles SizeCalculator.gatherDirectoryStats];
    try (cbn; repeat split; intros; rewrite ?app_nil_r; reflexivity).
  split.
  - apply filesLoop_app. eapply Forall_impl; [|exact IH]. intros e He p. apply (He p).
  - intros st.
    apply (@statsLoop_listed dirPath items
             (fun p n => SizeCalculator.gatherDirectoryStats p n includeHidden)
             (fun p n files => SizeCalculator.collectFiles p n files includeHidden)
             IH st).
Qed.

(** Within the exact range, the size of a directory is the sum of the
    sizes of its files. *)
Lemma sizeLoop_exact dirPath items
    (sizeOf : string -> Node -> Z)
    (filesOf : string -> Node -> list (string * Z) -> list (string * Z)) :
  Forall (fun e : Entry =>
            forall p,
            (forall files, filesOf p (snd e) files = (files ++ filesOf p (snd e) [])%list) /\
            (noneNegative (filesOf p (snd e) []) ->
             sumPairs (filesOf p (snd e) []) <= exactUpTo ->
             sizeOf p (snd e) = sumPairs (filesOf p (snd e) []))) items ->
  forall total,
  let found := SizeCalculator.filesLoop dirPath includeHidden filesOf items [] in
  0 <= total ->
  noneNegative found ->
  total + sumPairs found <= exactUpTo ->
  SizeCalculator.sizeLoop dirPath includeHidden sizeOf items total = total + sumPairs found.
Proof.
  intros H. cbv zeta.
  induction H as [|[[item viaLink] node] rest Hnode Hrest IH]; intros total;
    cbn [SizeCalculator.filesLoop SizeCalculator.sizeLoop].
  - cbn. lia.
  - cbn [snd] in Hnode.
    assert (Happ : forall files,
               SizeCalculator.filesLoop dirPath includeHidden filesOf rest files =
               (files ++ SizeCalculator.filesLoop dirPath includeHidden filesOf rest [])%list).
    { apply filesLoop_app. eapply Forall_impl; [|exact Hrest]. intros e He p. apply (He p). }
    destruct (SizeCalculator.skipped includeHidden item); [apply IH|].
    destruct (Fs.stat node) as [stats|e]; [|apply IH].
    destruct (Fs.isFile stats).
    + rewrite Happ. intros Htotal Hsizes Hsum.
      apply Forall_app in Hsizes as [Hthis Hothers].
      apply Forall_inv in Hthis. cbn [snd] in Hthis.
      pose proof (sumPairs_nonneg Hothers) as Hrest0.
      rewrite sumPairs_app in *. cbn [app sumPairs fold_right snd] in *.
      rewrite add_exact by lia. rewrite IH by (assumption || lia). lia.
    + destruct (Fs.isDirectory stats); [|apply IH].
      destruct (Hnode (Path.join dirPath item)) as [Hf Hsize].
      rewrite Happ. intros Htotal Hsizes Hsum.
      apply Forall_app in Hsizes as [Hthis Hothers].
      pose proof (sumPairs_nonneg Hthis) as Hthis0.
      pose proof (sumPairs_nonneg Hothers) as Hrest0.
      rewrite sumPairs_app in *.
      rewrite Hsize by (assumption || lia).
      rewrite add_exact by lia. rewrite IH by (assumption || lia). lia.
Qed.

Lemma calculateDirectorySizeRecursive_exact node :
  forall dirPath,
  noneNegative (SizeCalculator.collectFiles dirPath node [] includeHidden) ->
  sumPairs (SizeCalculator.collectFiles dirPath node [] includeHidden) <= exactUpTo ->
  SizeCalculator.calculateDirectorySizeRecursive dirPath node includeHidden
  = sumPairs (SizeCalculator.collectFiles dirPath node [] includeHidden).
Proof.
  induction node as [meta|meta|meta items IH|meta|] using Node_induction;
    intros dirPath;
    cbn [SizeCalculator.calculateDirectorySizeRecursive SizeCalculator.collectFiles];
    try reflexivity.
  intros Hsizes Hsum.
  rewrite (@sizeLoop_exact dirPath items
             (fun p n => SizeCalculator.calculateDirectorySizeRecursive p n includeHidden)
             (fun p n files => SizeCalculator.collectFiles p n files includeHidden));
    [lia| |lia|exact Hsizes|lia].
  eapply Forall_impl; [|exact IH]. intros e He p. split.
  - intros files. apply collectFiles_app.
  - apply He.
Qed.

(** The pattern walk with a pattern that accepts every name adds the
    sizes of the files of [collectFiles] one by one. *)
Lemma patternLoop_all dirPath items
    (sumOf : string -> Node -> Z -> Z)
    (filesOf : string -> Node -> list (string * Z) -> list (string * Z)) :
  Forall (fun e : Entry =>
            forall p,
            (forall files, filesOf p (snd e) files = (files ++ filesOf p (snd e) [])%list) /\
            forall total,
            sumOf p (snd e) total = addAll (sizesOf (filesOf p (snd e) [])) total) items ->
  forall total,
  SizeCalculator.patternLoop dirPath includeHidden (fun _ => true)
    (fun size totalSize => Js.add totalSize size) sumOf items total =
  addAll (sizesOf (SizeCalculator.filesLoop dirPath includeHidden filesOf items [])) total.
Proof.
  induction 1 as [|[[item viaLink] node] rest Hnode Hrest IH]; intros total;
    cbn [SizeCalculator.patternLoop SizeCalculator.filesLoop]; [reflexivity|].
  cbn [snd] in Hnode.
  assert (Happ : forall files,
             SizeCalculator.filesLoop dirPath includeHidden filesOf rest files =
             (files ++ SizeCalculator.filesLoop dirPath includeHidden filesOf rest [])%list).
  { apply filesLoop_app. eapply Forall_impl; [|exact Hrest]. intros e He p. apply (He p). }
  destruct (SizeCalculator.skipped includeHidden item); [apply IH|].
  destruct (Fs.stat node) as [stats|e]; [|apply IH].
  rewrite andb_true_r.
  destruct (Fs.isFile stats); [rewrite Happ, IH; reflexivity|].
  destruct (Fs.isDirectory stats); [|apply IH].
  destruct (Hnode (Path.join dirPath item)) as [Hf Hsum].
  rewrite Happ, IH, Hsum. unfold sizesOf. rewrite map_app. symmetry. apply addAll_app.
Qed.

Lemma collectSizeByPattern_all node :
  forall dirPath total,
  SizeCalculator.collectSizeByPattern dirPath node (fun _ => true) includeHidden
    (fun size totalSize => Js.add totalSize size) total =
  addAll (sizesOf (SizeCalculator.collectFiles dirPath node [] includeHidden)) total.
Proof.
  induction node as [meta|meta|meta items IH|meta|] using Node_induction;
    intros dirPath total;
    cbn [SizeCalculator.collectSizeByPattern SizeCalculator.collectFiles];
    try reflexivity.
  apply (@patternLoop_all dirPath items
           (fun p n => SizeCalculator.collectSizeByPattern p n (fun _ => true) includeHidden
                         (fun size totalSize => Js.add totalSize size))
           (fun p n files => SizeCalculator.collectFiles p n files includeHidden)).
  eapply Forall_impl; [|exact IH]. intros e He p. split.
  - intros files. apply collectFiles_app.
  - intros t. apply He.
Qed.

End SizeWalks.

(** Past the exact range the walks no longer agree: the statistics walk
    adds file by file, [calculateDirectorySizeRecursive] adds the size of a
    subdirectory at once. *)
Lemma size_walks_round_apart :
  let node := hugeNested (mkMeta 4096 0 0 0) in
  SizeCalculator.collectFiles "root" node [] false
  = [("root/a", 9007199254740992); ("root/sub/b", 1); ("root/sub/c", 1)] /\
  ds_totalSize
    (SizeCalculator.gatherDirectoryStats "root" node false SizeCalculator.freshStats)
  = 9007199254740992 /\
  SizeCalculator.calculateDirectorySizeRecursive "root" node false = 9007199254740994.
Proof. cbv zeta. repeat split; vm_compute; reflexivity. Qed.

(** ** The search and the statistics walk the same tree *)

Section SearchAndStats.

Variable regExpTest : string -> string -> result bool.
Variable hidden : bool.

Lemma forItems_statsLoop recurse statsOf currentPath items :
  Forall (fun e : Entry =>
            forall p s st, sameEntries s st ->
                           sameEntries (snd (recurse p (snd e) s)) (statsOf p (snd e) st))
    items ->
  forall s st,
  sameEntries s st ->
  sameEntries
    (snd (forItems regExpTest (everything hidden) recurse currentPath items s))
    (SizeCalculator.statsLoop currentPath hidden statsOf items st).
Proof.
  induction 1 as [|[[item viaLink] node] rest Hnode _ IH]; intros s st Hs.
  - exact Hs.
  - rewrite forItems_cons. cbn [SizeCalculator.statsLoop forItems].
    unfold SizeCalculator.skipped.
    assert (Hh : truthy (includeHidden (everything hidden)) = hidden)
      by (destruct hidden; reflexivity).
    rewrite Hh. clear Hh.
    destruct (negb hidden && Js.startsWith item ".")%bool; [apply IH; exact Hs|].
    cbn [snd] in Hnode.
    destruct node as [meta|meta listing|meta|];
      unfold bind, tryCatch, visit, getFileInfo, lift, bind; cbn;
      try (apply IH; exact Hs).
    + apply IH. destruct Hs as [Hf [Hd [Hc Ht]]].
      split; [|split; [|split]]; cbn [a_files a_directories ds_largestFiles
                                      ds_directoryCount ds_fileCount ds_totalSize].
      * rewrite map_app, Hf. reflexivity.
      * exact Hd.
      * rewrite length_app, Nat.add_comm, <- Hc. reflexivity.
      * rewrite reduceSize_snoc, Ht. reflexivity.
    + match goal with
      | |- context [recurse ?p ?n ?t] =>
          pose proof (tryCatch_ret_tt (fun s0 => recurse p n s0) t) as Hok;
          pose proof (Hnode p t) as Hstep
      end.
      unfold tryCatch in Hok.
      match goal with
      | |- context [recurse ?p ?n ?t] => destruct (recurse p n t) as [[[]|e] s'] eqn:E
      end; cbn in *; apply IH; apply Hstep;
        destruct Hs as [Hf [Hd [Hc Ht]]];
        (split; [|split; [|split]]); cbn; try assumption;
        rewrite length_app, Nat.add_comm, <- Hd; reflexivity.
Qed.

Lemma searchRecursive_gatherDirectoryStats node :
  forall currentPath currentDepth s st,
  sameEntries s st ->
  sameEntries
    (snd (searchRecursive regExpTest (everything hidden) currentPath node
            currentDepth s))
    (SizeCalculator.gatherDirectoryStats currentPath node hidden st).
Proof.
  induction node as [meta|meta|meta items IH|meta|] using Node_induction;
    intros currentPath currentDepth s st Hs;
    rewrite searchRecursive_readdir; cbn [beyondDepth everything maxDepth];
    rewrite tryCatch_snd; try exact Hs.
  unfold bind, lift. cbn [Fs.readdir SizeCalculator.gatherDirectoryStats].
  apply forItems_statsLoop; [|exact Hs].
  eapply Forall_impl; [|exact IH]. intros e He p t st' Ht. apply He. exact Ht.
Qed.

End SearchAndStats.

(** ** Hidden entries and what lies below them *)

Section HiddenEntries.

Variable regExpTest : string -> string -> result bool.
Variable options : SearchOptions.

Hypothesis Hhidden : truthy (includeHidden options) = false.

Lemma stat_withoutHidden node : Fs.stat (withoutHidden node) = Fs.stat node.
Proof. destruct node as [meta|meta [items|]|meta|]; reflexivity. Qed.

Lemma forItems_visibleEntries recurse recurse' currentPath items :
  Forall (fun e : Entry =>
            forall p t, recurse' p (withoutHidden (snd e)) t = recurse p (snd e) t) items ->
  forall s,
  forItems regExpTest options recurse' currentPath (visibleEntries withoutHidden items) s =
  forItems regExpTest options recurse currentPath items s.
Proof.
  induction 1 as [|[[item viaLink] node] rest Hnode _ IH]; intros s; [reflexivity|].
  cbn [visibleEntries snd] in *.
  destruct (Js.startsWith item ".") eqn:Hdot.
  - rewrite IH. cbn [forItems]. rewrite Hhidden, Hdot. reflexivity.
  - rewrite forItems_cons, (forItems_cons _ _ _ _ (item, viaLink, node)), IH.
    f_equal. f_equal. apply forItems_one_ext; [apply stat_withoutHidden|exact Hnode].
Qed.

Lemma searchRecursive_withoutHidden node :
  forall currentPath currentDepth s,
  searchRecursive regExpTest options currentPath (withoutHidden node) currentDepth s =
  searchRecursive regExpTest options currentPath node currentDepth s.
Proof.
  induction node as [meta|meta|meta items IH|meta|] using Node_induction;
    intros currentPath currentDepth s; try reflexivity.
  rewrite !searchRecursive_readdir.
  destruct (beyondDepth options currentDepth); [reflexivity|].
  cbn [withoutHidden Fs.readdir]. unfold tryCatch, bind, lift.
  rewrite forItems_visibleEntries
    with (recurse := fun itemPath child =>
                       searchRecursive regExpTest options itemPath child (currentDepth + 1));
    [reflexivity|].
  eapply Forall_impl; [|exact IH]. intros e He p t. apply He.
Qed.

Lemma search_withoutHidden searchPath root :
  search regExpTest options searchPath (withoutHidden root) =
  search regExpTest options searchPath root.
Proof. rewrite !search_as_walk, searchRecursive_withoutHidden. reflexivity. Qed.

End HiddenEntries.

(** ** The dot of a configured extension *)

Lemma withDot_idem e : withDot (withDot e) = withDot e.
Proof.
  unfold withDot at 2 3. destruct (Js.startsWith (Js.toLowerCase e) ".") eqn:H.
  - unfold withDot. rewrite H. reflexivity.
  - reflexivity.
Qed.


(** * Further statements on the code *)

(** X1: whatever the options and the tree, [files] holds regular files only
    and [directories] holds directories only, and the name and the
    extension of every recorded file are those of its path. *)
Theorem search_sorts_entries_by_kind
    (regExpTest : string -> string -> result bool) (options : SearchOptions)
    (searchPath : string) (root : Node) :
  exists r,
    search regExpTest options searchPath root = Ok r /\
    Forall (fun f => fi_isFile f = true /\ fi_isDirectory f = false /\
                     fi_name f = Path.basename (fi_path f) /\
                     fi_extension f = Path.extname (fi_path f)) (files r) /\
    Forall (fun d => fi_isDirectory d = true /\ fi_isFile d = false) (directories r).
Proof. apply search_kinds. Qed.


(** X3: every recorded file and every recorded directory has a name that
    the configured pattern accepts ([*] when none is configured), under the
    configured case sensitivity. *)
Theorem search_records_match_the_pattern
    (regExpTest : string -> string -> result bool) (options : SearchOptions)
    (searchPath : string) (root : Node) :
  exists r,
    search regExpTest options searchPath root = Ok r /\
    Forall (fun f => matchesPattern regExpTest (fi_name f) (patternOrStar (pattern options))
                       (truthy (caseSensitive options)) = Ok true) (files r) /\
    Forall (fun d => matchesPattern regExpTest (fi_name d) (patternOrStar (pattern options))
                       (truthy (caseSensitive options)) = Ok true) (directories r).
Proof.
  apply search_recorded with (Q := fun _ => True); try exact I; intros; try exact I;
    assumption.
Qed.

(** X4: a search that does not include hidden entries reaches nothing
    hidden. Its result is the result of the same search on the tree without
    the entries whose name starts with a dot and without all that lies below
    them; and on a tree whose listings hold proper names it records no file
    and no directory whose name starts with a dot. *)
Theorem search_records_no_hidden_entry
    (regExpTest : string -> string -> result bool) (options : SearchOptions)
    (searchPath : string) (root : Node) :
  wellNamed root = true ->
  truthy (includeHidden options) = false ->
  exists r,
    search regExpTest options searchPath root = Ok r /\
    search regExpTest options searchPath (withoutHidden root) = Ok r /\
    Forall (fun f => Js.startsWith (fi_name f) "." = false) (files r) /\
    Forall (fun d => Js.startsWith (fi_name d) "." = false) (directories r).
Proof.
  intros Hroot Hhidden.
  assert (name : forall currentPath meta items item viaLink node fileInfo,
             wellNamed (Dir meta (Some items)) = true ->
             In (item, viaLink, node) items ->
             (negb (truthy (includeHidden options)) && Js.startsWith item ".")%bool = false ->
             getFileInfo (Path.join currentPath item) node = Ok fileInfo ->
             Js.startsWith (fi_name fileInfo) "." = false).
  { intros currentPath meta items item viaLink node fileInfo HQ Hin Hskip Hinfo.
    destruct (wellNamed_In _ _ _ _ _ HQ Hin) as [Hname _].
    unfold getFileInfo in Hinfo. destruct (Fs.stat node); [|discriminate].
    inversion Hinfo; subst; clear Hinfo. cbn [fi_name].
    rewrite basename_join by exact Hname.
    rewrite Hhidden in Hskip. exact Hskip. }
  assert (Hrecorded :
            exists r,
              search regExpTest options searchPath root = Ok r /\
              Forall (fun f => Js.startsWith (fi_name f) "." = false) (files r) /\
              Forall (fun d => Js.startsWith (fi_name d) "." = false) (directories r)).
  { apply search_recorded with (Q := fun n => wellNamed n = true); try exact Hroot.
    - intros meta items [[item viaLink] child] HQ Hin.
      apply (wellNamed_In _ _ _ _ _ HQ Hin).
    - intros. eapply name; eassumption.
    - intros. eapply name; eassumption. }
  destruct Hrecorded as [r [Hr [Hf Hd]]].
  exists r. split; [exact Hr|]. split; [|split; assumption].
  rewrite search_withoutHidden by exact Hhidden. exact Hr.
Qed.

(** X4 at work on a tree with a hidden directory that holds a file, a file
    and a hidden file: the result is that of the tree with the one file. *)
Lemma search_records_no_hidden_entry_witness :
  exists r,
    search RegExpFragment.test noOptions "root"
      (Dir (mkMeta 4096 0 0 0)
         (Some [ (".git", false,
                  Dir (mkMeta 4096 0 0 0) (Some [("config", false, File (mkMeta 9 0 0 0))]));
                 ("a.txt", false, File (mkMeta 5 0 0 0));
                 (".env", false, File (mkMeta 1 0 0 0)) ])) = Ok r /\
    search RegExpFragment.test noOptions "root"
      (Dir (mkMeta 4096 0 0 0) (Some [ ("a.txt", false, File (mkMeta 5 0 0 0)) ])) = Ok r /\
    Forall (fun f => Js.startsWith (fi_name f) "." = false) (files r) /\
    Forall (fun d => Js.startsWith (fi_name d) "." = false) (directories r).
Proof.
  apply (@search_records_no_hidden_entry RegExpFragment.test noOptions "root"
           (Dir (mkMeta 4096 0 0 0)
              (Some [ (".git", false,
                       Dir (mkMeta 4096 0 0 0)
                         (Some [("config", false, File (mkMeta 9 0 0 0))]));
                      ("a.txt", false, File (mkMeta 5 0 0 0));
                      (".env", false, File (mkMeta 1 0 0 0)) ])));
    reflexivity.
Defined.

(** X5: a [maxSize] of [0], a [minSize] of [0] and an empty [extensions]
    list filter nothing: the search is the one without these options. *)
Theorem search_ignores_zero_and_empty_filters
    (regExpTest : string -> string -> result bool) (options : SearchOptions)
    (searchPath : string) (root : Node) :
  search regExpTest (withSizes (Some 0) (Some 0) (withExtensions (Some []) options))
    searchPath root =
  search regExpTest (withSizes None None (withExtensions None options)) searchPath root.
Proof.
  apply search_options_ext; reflexivity.
Qed.

(** X6: the leading dot of a configured extension is optional: a list of
    extensions and the same list with the dot put in front where it is
    missing give the same search. *)
Theorem search_extension_dot_is_optional
    (regExpTest : string -> string -> result bool) (options : SearchOptions)
    (es : list string) (searchPath : string) (root : Node) :
  search regExpTest (withExtensions (Some es) options) searchPath root =
  search regExpTest (withExtensions (Some (map withDot es)) options) searchPath root.
Proof.
  apply search_options_ext; try reflexivity.
  intros fileInfo. unfold matchesOptions. cbn [extensions withExtensions].
  destruct es as [|e es]; [reflexivity|].
  cbn [map]. rewrite withDot_idem.
  replace (map withDot (map withDot es)) with (map withDot es); [reflexivity|].
  rewrite map_map. apply map_ext. intros a. symmetry. apply withDot_idem.
Qed.

(** X7: [findLargeFiles] returns the files of the search with that
    [minSize], each once, largest first; when [minSize] is not [0], none of
    them is smaller than [minSize]. *)
Theorem findLargeFiles_largest_first
    (regExpTest : string -> string -> result bool)
    (searchPath : string) (root : Node) (minSize : Z) :
  exists r found,
    search regExpTest (withSizes None (Some minSize) noOptions) searchPath root = Ok r /\
    Finders.findLargeFiles regExpTest searchPath root minSize = Ok found /\
    Permutation found (files r) /\
    StronglySorted (fun a b => fi_size b <= fi_size a) found /\
    (minSize <> 0 -> Forall (fun f => minSize <= fi_size f) found).
Proof.
  destruct (search_filtered regExpTest
              (withSizes None (Some minSize) noOptions) searchPath root) as [r [Hr Hf]].
  exists r, (sortBy Finders.bySizeDescending (files r)).
  unfold Finders.findLargeFiles.
  change (mkSearchOptions None None None None None None None (Some minSize) None None)
    with (withSizes None (Some minSize) noOptions).
  rewrite Hr. repeat split.
  - apply (sortBy_perm fi_size).
  - apply (sortBy_sorted fi_size).
  - intros Hnz. apply (sortBy_Forall fi_size).
    eapply Forall_impl; [|exact Hf]. intros f [_ [Hmin _]]. apply Hmin; [reflexivity|exact Hnz].
Qed.

(** X8: [findRecentFiles] returns the files of the search with that
    [modifiedSince], each once, latest first, none of them modified before
    [since]. *)
Theorem findRecentFiles_latest_first
    (regExpTest : string -> string -> result bool)
    (searchPath : string) (root : Node) (since : Z) :
  exists found,
    Finders.findRecentFiles regExpTest searchPath root since = Ok found /\
    StronglySorted (fun a b => fi_modifiedAt b <= fi_modifiedAt a) found /\
    Forall (fun f => since <= fi_modifiedAt f /\ fi_isFile f = true) found.
Proof.
  pose (options := mkSearchOptions None None None None None None None None (Some since) None).
  destruct (search_filtered regExpTest options searchPath root)
    as [r [Hr Hf]].
  destruct (search_kinds regExpTest options searchPath root)
    as [r' [Hr' [Hk _]]].
  rewrite Hr in Hr'. inversion Hr'; subst r'; clear Hr'.
  exists (sortBy Finders.byTimeDescending (files r)).
  unfold Finders.findRecentFiles. fold options. rewrite Hr. repeat split.
  - apply (sortBy_sorted fi_modifiedAt).
  - apply (sortBy_Forall fi_modifiedAt).
    rewrite Forall_forall in *. intros f Hin. split.
    + destruct (Hf f Hin) as [_ [_ [Hsince _]]]. apply Hsince. reflexivity.
    + apply (Hk f Hin).
Qed.

(** X9: for a type that has no extension in the table (a misspelt
    category, or [Unknown]), [findByTypeAndSize] filters by size alone: it
    returns the files of every type. *)
Theorem findByTypeAndSize_without_extensions
    (regExpTest : string -> string -> result bool)
    (searchPath : string) (root : Node) (fileType : string) (minSize maxSize : option Z) :
  FileTypeQueries.getExtensionsByCategory fileType = [] ->
  Utils.findByTypeAndSize regExpTest searchPath root fileType minSize maxSize =
  Finders.filesOf
    (search regExpTest (withSizes maxSize minSize noOptions) searchPath root).
Proof.
  intros H. unfold Utils.findByTypeAndSize. rewrite H. apply f_equal.
  apply search_options_ext; reflexivity.
Qed.

(** X9 at work on the type [Unknown]. *)
Lemma findByTypeAndSize_without_extensions_witness :
  Utils.findByTypeAndSize RegExpFragment.test "root"
    (depthTree (mkMeta 4096 0 0 0) (mkMeta 4096 0 0 0) (mkMeta 5 0 0 0) (mkMeta 10 0 0 0))
    "Unknown" None None =
  Finders.filesOf
    (search RegExpFragment.test (withSizes None None noOptions) "root"
       (depthTree (mkMeta 4096 0 0 0) (mkMeta 4096 0 0 0) (mkMeta 5 0 0 0) (mkMeta 10 0 0 0))).
Proof.
  apply findByTypeAndSize_without_extensions. reflexivity.
Defined.

(** X10: for a type that has extensions in the table, every file that
    [findByTypeAndSize] returns is of that type by its path. *)
Theorem findByTypeAndSize_files_have_the_type
    (regExpTest : string -> string -> result bool)
    (searchPath : string) (root : Node) (fileType : string) (minSize maxSize : option Z) :
  FileTypeQueries.getExtensionsByCategory fileType <> [] ->
  exists found,
    Utils.findByTypeAndSize regExpTest searchPath root fileType minSize maxSize = Ok found /\
    Forall (fun f => ft_category (FileTypeDetector.detectFromPath (fi_path f)) = fileType)
      found.
Proof.
  intros Hne. unfold Utils.findByTypeAndSize.
  set (options := mkSearchOptions _ _ _ _ _ _ _ _ _ _).
  destruct (search_filtered regExpTest options searchPath root) as [r [Hr Hf]].
  destruct (search_kinds regExpTest options searchPath root) as [r' [Hr' [Hk _]]].
  rewrite Hr in Hr'. inversion Hr'; subst r'; clear Hr'.
  exists (files r). rewrite Hr. split; [reflexivity|].
  rewrite Forall_forall in *. intros f Hin.
  destruct (Hf f Hin) as [_ [_ [_ [_ Hext]]]].
  destruct (Hk f Hin) as [_ [_ [_ Hpath]]].
  destruct (FileTypeQueries.getExtensionsByCategory fileType) as [|e es] eqn:E;
    [congruence|].
  specialize (Hext e es eq_refl). rewrite <- E in Hext.
  rewrite getExtensionsByCategory_dotted, Hpath in Hext.
  apply category_of_extension. exact Hext.
Qed.

(** X10 at work on the type [Image]. *)
Lemma findByTypeAndSize_files_have_the_type_witness :
  exists found,
    Utils.findByTypeAndSize RegExpFragment.test "root"
      (Dir (mkMeta 4096 0 0 0)
         (Some [ ("a.PNG", false, File (mkMeta 5 0 0 0));
                 ("b.txt", false, File (mkMeta 7 0 0 0)) ]))
      "Image" None None = Ok found /\
    Forall (fun f => ft_category (FileTypeDetector.detectFromPath (fi_path f)) = "Image")
      found.
Proof.
  apply findByTypeAndSize_files_have_the_type. discriminate.
Defined.

(** X11: [findFilesToCleanup] returns regular files only, largest first,
    none modified after [olderThan] and, when [largerThan] is not [0], none
    smaller than [largerThan]. *)
Theorem findFilesToCleanup_candidates
    (regExpTest : string -> string -> result bool)
    (searchPath : string) (root : Node) (options : Utils.CleanupOptions) :
  exists found,
    Utils.findFilesToCleanup regExpTest searchPath root options = Ok found /\
    StronglySorted (fun a b => fi_size b <= fi_size a) found /\
    Forall (fun f =>
              fi_isFile f = true /\
              (forall d, Utils.olderThan options = Some d -> fi_modifiedAt f <= d) /\
              (forall m, Utils.largerThan options = Some m -> m <> 0 -> m <= fi_size f))
      found.
Proof.
  unfold Utils.findFilesToCleanup.
  set (searchOptions := mkSearchOptions _ _ _ _ _ _ _ _ _ _).
  destruct (search_filtered regExpTest searchOptions searchPath root) as [r [Hr Hf]].
  destruct (search_kinds regExpTest searchOptions searchPath root) as [r' [Hr' [Hk _]]].
  rewrite Hr in Hr'. inversion Hr'; subst r'; clear Hr'.
  exists (sortBy Finders.bySizeDescending (files r)). rewrite Hr. repeat split.
  - apply (sortBy_sorted fi_size).
  - apply (sortBy_Forall fi_size).
    rewrite Forall_forall in *. intros f Hin.
    destruct (Hf f Hin) as [_ [Hmin [_ [Hbefore _]]]]. repeat split.
    + apply (Hk f Hin).
    + intros d Hd. apply Hbefore. exact Hd.
    + intros m Hm Hnz. apply Hmin; [exact Hm|exact Hnz].
Qed.

(** X12: [findDuplicatesBySize] returns exactly the size classes of the
    files of the default search that have two members or more, each with
    its members in the order of the search, classes of larger files first
    and no size twice. *)
Theorem findDuplicatesBySize_size_classes
    (regExpTest : string -> string -> result bool) (searchPath : string) (root : Node) :
  exists r groups,
    search regExpTest noOptions searchPath root = Ok r /\
    Utils.findDuplicatesBySize regExpTest searchPath root = Ok groups /\
    (forall size group,
        In (size, group) groups <->
        group = filter (sizeIs size) (files r) /\ (2 <= length group)%nat) /\
    StronglySorted (fun a b => fst b < fst a) groups.
Proof.
  unfold Utils.findDuplicatesBySize. rewrite search_as_walk. cbv zeta.
  eexists. eexists. split; [reflexivity|]. split; [reflexivity|].
  set (r := mkSearchResult _ _ _ _ _).
  destruct (groupBySize_grouped (files r)) as [Hnd [Hclass Hkeys]].
  set (big := fun entry : Z * list FileInfo => 1 <? Z.of_nat (length (snd entry))).
  split.
  - intros size group. split.
    + intros Hin.
      apply (Permutation_in _ (sortBy_perm fst _)) in Hin.
      apply filter_In in Hin as [Hin Hbig]. unfold big in Hbig. cbn [snd] in Hbig.
      apply Z.ltb_lt in Hbig. split; [apply (Hclass _ _ Hin)|lia].
    + intros [Hg Hlen].
      apply (Permutation_in _ (Permutation_sym (sortBy_perm fst _))).
      apply filter_In. split; [|unfold big; cbn [snd]; apply Z.ltb_lt; lia].
      destruct group as [|f rest] eqn:E; [cbn in Hlen; lia|].
      assert (Hf : In f (filter (sizeIs size) (files r))) by (rewrite <- Hg; left; reflexivity).
      apply filter_In in Hf as [Hf Hsize]. unfold sizeIs in Hsize. apply Z.eqb_eq in Hsize.
      specialize (Hkeys f Hf). rewrite Hsize in Hkeys.
      apply in_map_iff in Hkeys as [[k g] [Hk Hin]]. cbn in Hk. subst k.
      destruct (Hclass _ _ Hin) as [Hg' _]. rewrite Hg, <- Hg'. exact Hin.
  - apply strictly_descending; [apply (sortBy_sorted fst)|].
    eapply Permutation_NoDup.
    + apply Permutation_map. apply Permutation_sym. apply (sortBy_perm fst).
    + apply NoDup_keys_filter. exact Hnd.
Qed.

(** X13: for every path the three fallbacks of [detectFromPath] go
    together, and they are used exactly for the extensions that
    [getSupportedExtensions] does not list: the category is [Unknown] iff
    the MIME type is [application/octet-stream] iff the description is
    [Unknown file type] iff the extension is not supported. *)
Theorem detectFromPath_fallbacks_go_together (filePath : string) :
  let info := FileTypeDetector.detectFromPath filePath in
  (In (ft_extension info) FileTypeQueries.getSupportedExtensions <->
   ft_category info <> "Unknown") /\
  (ft_category info = "Unknown" <-> ft_mimeType info = "application/octet-stream") /\
  (ft_category info = "Unknown" <-> ft_description info = "Unknown file type").
Proof.
  cbv zeta. cbn [FileTypeDetector.detectFromPath ft_extension ft_category ft_mimeType
                 ft_description].
  unfold FileTypeQueries.getSupportedExtensions.
  set (ext := Js.toLowerCase (Path.extname filePath)).
  destruct (in_dec string_dec ext (map fst FileTypeDetector.mimeTypes)) as [Hin|Hnot].
  - destruct (known_extension Hin) as [H1 [H2 H3]]. repeat split; intros; tauto.
  - destruct (unknown_extension Hnot) as [H1 [H2 H3]]. rewrite H1, H2, H3.
    repeat split; intros; try tauto; try reflexivity; contradiction.
Qed.

(** X14: in every classification, by path or by content, readable or not,
    [isText] is the opposite of [isBinary] and the four kind flags say
    whether the category is [Image], [Video], [Audio] or [Archive]. *)
Theorem classification_flags_follow_the_category
    (filePath : string) (readFile : result (list Byte.byte)) :
  let info := FileTypeDetector.detectFromContent filePath readFile in
  ft_isText info = negb (ft_isBinary info) /\
  ft_isImage info = String.eqb (ft_category info) "Image" /\
  ft_isVideo info = String.eqb (ft_category info) "Video" /\
  ft_isAudio info = String.eqb (ft_category info) "Audio" /\
  ft_isArchive info = String.eqb (ft_category info) "Archive".
Proof.
  cbv zeta.
  assert (base : let info := FileTypeDetector.detectFromPath filePath in
                 ft_isText info = negb (ft_isBinary info) /\
                 ft_isImage info = String.eqb (ft_category info) "Image" /\
                 ft_isVideo info = String.eqb (ft_category info) "Video" /\
                 ft_isAudio info = String.eqb (ft_category info) "Audio" /\
                 ft_isArchive info = String.eqb (ft_category info) "Archive").
  { cbn. repeat split; apply categoryIs_category; discriminate. }
  unfold FileTypeDetector.detectFromContent.
  destruct readFile as [buffer|e]; [|exact base].
  destruct (FileTypeDetector.detectMagicNumbers buffer); [|exact base].
  cbn. repeat split.
Qed.

(** X15: looking at the content either leaves the classification by path
    as it is, or replaces it by a binary one of category Image, Archive,
    Document, Executable, Audio or Video; the extension and [isExecutable]
    stay those of the path.  Content never makes a file text. *)
Theorem content_only_overrides_with_binary
    (filePath : string) (readFile : result (list Byte.byte)) :
  let base := FileTypeDetector.detectFromPath filePath in
  let info := FileTypeDetector.detectFromContent filePath readFile in
  info = base \/
  (ft_isBinary info = true /\ ft_isText info = false /\
   In (ft_category info) signatureCategories /\
   ft_extension info = ft_extension base /\
   ft_isExecutable info = ft_isExecutable base).
Proof.
  cbv zeta. unfold FileTypeDetector.detectFromContent.
  destruct readFile as [buffer|e]; [|left; reflexivity].
  destruct (FileTypeDetector.detectMagicNumbers buffer) as [info|] eqn:E; [|left; reflexivity].
  right. destruct (detectMagicNumbers_binary _ E) as [Hb [Hc _]].
  cbn. rewrite Hb. repeat split. exact Hc.
Qed.

(** X16: for a category other than [Unknown], the extensions that
    [getExtensionsByCategory] returns are exactly those that
    [detectFromPath] puts in that category. *)
Theorem getExtensionsByCategory_agrees_with_detectFromPath
    (filePath category : string) :
  category <> "Unknown" ->
  (In (ft_extension (FileTypeDetector.detectFromPath filePath))
      (FileTypeQueries.getExtensionsByCategory category) <->
   ft_category (FileTypeDetector.detectFromPath filePath) = category).
Proof.
  intros Hc. split; [apply category_of_extension|].
  intros H. apply getExtensionsByCategory_In. apply lookup_In.
  cbn [FileTypeDetector.detectFromPath ft_extension ft_category] in *.
  unfold FileTypeDetector.lookupOr in H.
  destruct (FileTypeDetector.lookup _ _); congruence.
Qed.

(** X16 at work on a PNG path and the category [Image]. *)
Lemma getExtensionsByCategory_witness :
  In (ft_extension (FileTypeDetector.detectFromPath "photos/cat.PNG"))
     (FileTypeQueries.getExtensionsByCategory "Image") <->
  ft_category (FileTypeDetector.detectFromPath "photos/cat.PNG") = "Image".
Proof.
  apply getExtensionsByCategory_agrees_with_detectFromPath. discriminate.
Defined.



(** X18: a RIFF container whose form type is [WEBP] is classified as
    [image/webp], whatever its four size bytes and whatever follows. *)
Theorem riff_webp_is_webp (a b c d : Byte.byte) (rest : list Byte.byte) :
  FileTypeDetector.detectMagicNumbers
    (riffBytes ++ [a; b; c; d] ++ webpBytes ++ rest)%list = Some webpInfo.
Proof.
  unfold FileTypeDetector.detectMagicNumbers.
  destruct (riff_webp_hex a b c d rest) as (x1 & x2 & x3 & x4 & x5 & x6 & x7 & x8 & tail & E).
  rewrite E. clear E.
  assert (Hinc : Js.includes
                   ("52494646" ++
                    String x1 (String x2 (String x3 (String x4 (String x5 (String x6
                      (String x7 (String x8 ("57454250" ++ tail)))))))))
                   "57454250" = true).
  { cbn [append]. do 16 apply includes_cons. reflexivity. }
  cbv zeta. rewrite Hinc. reflexivity.
Qed.

(** X19: a readable file that is not empty and holds only characters from
    code 32 up, tabs, line feeds and carriage returns is text for
    [isTextFile]. *)
Theorem isTextFile_printable_content (content : string) :
  content <> "" ->
  allChars printable content = true ->
  FileTypeDetector.isTextFile (Ok content) = true.
Proof.
  intros Hne Hall. unfold FileTypeDetector.isTextFile, Js.slice.
  rewrite Nat.sub_0_r.
  assert (Hn : exists n, 8192%nat = S n) by (eexists; vm_compute; reflexivity).
  destruct Hn as [n Hn]. rewrite Hn.
  rewrite countNonPrintable_printable by (apply allChars_substring; exact Hall).
  destruct content as [|c s]; [congruence|].
  pose proof (substring_nonempty n c s) as Hlen.
  unfold FileTypeDetector.divide.
  destruct (Z.eqb_spec (Z.of_nat (String.length (String.substring 0 (S n) (String c s)))) 0)
    as [E|E]; [lia|].
  unfold FileTypeDetector.lessThan03, Qcompare. cbn [Qnum Qden].
  destruct (Z.compare_spec (0 * Z.pos 10) (3 * Z.pos (Z.to_pos
              (Z.of_nat (String.length (String.substring 0 (S n) (String c s)))))));
    [lia|reflexivity|lia].
Qed.

(** X19 at work on a two-line text. *)
Lemma isTextFile_printable_witness :
  FileTypeDetector.isTextFile (Ok (String "a" (String "010" (String "b" "")))) = true.
Proof.
  apply isTextFile_printable_content; [discriminate|reflexivity].
Defined.

(** X20: for every mode, the octal string that [getPermissions] reports is
    three octal digits, [octalToSymbolic] takes it to the string that
    [formatPermissions] prints from the nine flags, and [symbolicToOctal]
    takes that string back. *)
Theorem getPermissions_octal_agrees_with_flags
    (filePath : string) (mode : Z) (canRead canWrite canExecute : bool) :
  exists permissions,
    Permissions.getPermissions filePath (Ok mode) canRead canWrite canExecute
    = Ok permissions /\
    PermissionChecker.isOctalString (p_octal permissions) = true /\
    PermissionChecker.octalToSymbolic (p_octal permissions)
    = Ok (Permissions.formatPermissions permissions) /\
    PermissionChecker.symbolicToOctal (Permissions.formatPermissions permissions)
    = Ok (p_octal permissions).
Proof.
  eexists. split; [reflexivity|].
  unfold Permissions.formatPermissions. cbn [p_octal p_owner p_group p_others].
  rewrite !(bitSet_low mode) by reflexivity.
  pose proof (octalAgrees_all (land_511 mode)) as H.
  unfold octalAgrees in H. cbv zeta in H.
  apply andb_true_iff in H as [H H3]. apply andb_true_iff in H as [H1 H2].
  destruct (PermissionChecker.octalToSymbolic _) as [s|]; [|discriminate].
  destruct (PermissionChecker.symbolicToOctal _) as [o|]; [|discriminate].
  apply String.eqb_eq in H2, H3. subst. auto.
Qed.

(** X21: [validatePermissionString] accepts exactly the strings that one of
    the two converters accepts, no string is accepted by both, and what a
    converter returns is accepted and converts back. *)
Theorem validatePermissionString_is_convertibility (s : string) :
  PermissionChecker.validatePermissionString s =
  (isOk (PermissionChecker.octalToSymbolic s)
   || isOk (PermissionChecker.symbolicToOctal s))%bool /\
  (isOk (PermissionChecker.octalToSymbolic s)
   && isOk (PermissionChecker.symbolicToOctal s))%bool = false /\
  (forall r, PermissionChecker.octalToSymbolic s = Ok r ->
             PermissionChecker.validatePermissionString r = true /\
             PermissionChecker.symbolicToOctal r = Ok s) /\
  (forall r, PermissionChecker.symbolicToOctal s = Ok r ->
             PermissionChecker.validatePermissionString r = true /\
             PermissionChecker.octalToSymbolic r = Ok s).
Proof.
  assert (okOctal : isOk (PermissionChecker.octalToSymbolic s)
                    = PermissionChecker.isOctalString s).
  { unfold PermissionChecker.octalToSymbolic.
    destruct (PermissionChecker.isOctalString s); reflexivity. }
  assert (okSymbolic : isOk (PermissionChecker.symbolicToOctal s)
                       = PermissionChecker.isSymbolicString s).
  { unfold PermissionChecker.symbolicToOctal.
    destruct (PermissionChecker.isSymbolicString s); reflexivity. }
  assert (accepted : forall t r, PermissionChecker.symbolicToOctal t = Ok r ->
                                 PermissionChecker.isSymbolicString t = true).
  { intros t r H. unfold PermissionChecker.symbolicToOctal in H.
    destruct (PermissionChecker.isSymbolicString t); [reflexivity|discriminate]. }
  assert (accepted' : forall t r, PermissionChecker.octalToSymbolic t = Ok r ->
                                  PermissionChecker.isOctalString t = true).
  { intros t r H. unfold PermissionChecker.octalToSymbolic in H.
    destruct (PermissionChecker.isOctalString t); [reflexivity|discriminate]. }
  rewrite okOctal, okSymbolic. repeat split.
  - unfold PermissionChecker.validatePermissionString.
    destruct (PermissionChecker.isOctalString s), (PermissionChecker.isSymbolicString s);
      reflexivity.
  - destruct s as [|a [|b [|c [|d [|? ?]]]]]; cbn; try reflexivity;
      apply andb_false_r.
  - pose proof (octal_roundtrip s (accepted' _ _ H)) as E. rewrite H in E. cbn in E.
    unfold PermissionChecker.validatePermissionString.
    rewrite (accepted _ _ E). destruct (PermissionChecker.isOctalString r); reflexivity.
  - pose proof (octal_roundtrip s (accepted' _ _ H)) as E. rewrite H in E. exact E.
  - pose proof (symbolic_roundtrip s (accepted _ _ H)) as E. rewrite H in E. cbn in E.
    unfold PermissionChecker.validatePermissionString.
    rewrite (accepted' _ _ E). reflexivity.
  - pose proof (symbolic_roundtrip s (accepted _ _ H)) as E. rewrite H in E. exact E.
Qed.



(** X23: the statistics walk from a fresh accumulator lists exactly the
    files that [collectFiles] lists, in the same order. Its file count is
    their number as long as that is at most [2^53]; and when no size is
    negative and the sizes add up to at most [2^53], its total is their sum
    and is the size that [calculateDirectorySizeRecursive] computes. *)
Theorem gatherDirectoryStats_agrees_with_the_other_walks
    (dirPath : string) (node : Node) (includeHidden : bool) :
  let stats :=
    SizeCalculator.gatherDirectoryStats dirPath node includeHidden SizeCalculator.freshStats in
  ds_largestFiles stats = SizeCalculator.collectFiles dirPath node [] includeHidden /\
  (Z.of_nat (length (ds_largestFiles stats)) <= exactUpTo ->
   ds_fileCount stats = Z.of_nat (length (ds_largestFiles stats))) /\
  (noneNegative (ds_largestFiles stats) ->
   sumPairs (ds_largestFiles stats) <= exactUpTo ->
   ds_totalSize stats = sumPairs (ds_largestFiles stats) /\
   ds_totalSize stats
   = SizeCalculator.calculateDirectorySizeRecursive dirPath node includeHidden).
Proof.
  cbv zeta.
  destruct (gatherDirectoryStats_listed includeHidden node dirPath) as [_ Hstats].
  destruct (Hstats SizeCalculator.freshStats) as [H1 [H2 H3]].
  cbn [SizeCalculator.freshStats ds_totalSize ds_fileCount ds_largestFiles app] in H1, H2, H3.
  rewrite H1, H2, H3. split; [reflexivity|]. split.
  - intros Hcount. rewrite countFrom_exact by lia. lia.
  - intros Hsizes Hsum.
    rewrite calculateDirectorySizeRecursive_exact by assumption.
    rewrite addAll_exact by (assumption || lia). split; lia.
Qed.

(** X23 at work on a directory with a file of 10 bytes and a subdirectory
    with a file of 20 bytes. *)
Lemma gatherDirectoryStats_witness :
  let node :=
    depthTree (mkMeta 4096 0 0 0) (mkMeta 4096 0 0 0) (mkMeta 10 0 0 0) (mkMeta 20 0 0 0) in
  let stats := SizeCalculator.gatherDirectoryStats "root" node false SizeCalculator.freshStats in
  ds_fileCount stats = 2 /\
  ds_totalSize stats = 30 /\
  ds_totalSize stats = SizeCalculator.calculateDirectorySizeRecursive "root" node false.
Proof.
  cbv zeta.
  destruct (gatherDirectoryStats_agrees_with_the_other_walks "root"
              (depthTree (mkMeta 4096 0 0 0) (mkMeta 4096 0 0 0)
                 (mkMeta 10 0 0 0) (mkMeta 20 0 0 0)) false)
    as [_ [Hcount Hsize]].
  split; [apply Hcount; cbv; discriminate|].
  destruct Hsize as [Hsum Hcalc].
  - repeat constructor; cbv; discriminate.
  - cbv. discriminate.
  - split; [exact Hsum|exact Hcalc].
Defined.

(** X24: with a pattern that keeps no state and accepts every name, the
    total of [getSizeByPattern] is the total of the statistics walk; when
    no size is negative and the sizes add up to at most [2^53], it is the
    size that [calculateDirectorySizeRecursive] computes. *)
Theorem sizeByPattern_of_every_name (dirPath : string) (node : Node) (includeHidden : bool) :
  let found := SizeCalculator.collectFiles dirPath node [] includeHidden in
  SizeCalculator.sizeByPattern dirPath node (fun _ => true) includeHidden =
  ds_totalSize
    (SizeCalculator.gatherDirectoryStats dirPath node includeHidden SizeCalculator.freshStats) /\
  (noneNegative found ->
   sumPairs found <= exactUpTo ->
   SizeCalculator.sizeByPattern dirPath node (fun _ => true) includeHidden =
   SizeCalculator.calculateDirectorySizeRecursive dirPath node includeHidden).
Proof.
  cbv zeta. unfold SizeCalculator.sizeByPattern. rewrite collectSizeByPattern_all.
  destruct (gatherDirectoryStats_listed includeHidden node dirPath) as [_ Hstats].
  destruct (Hstats SizeCalculator.freshStats) as [H1 _].
  cbn [SizeCalculator.freshStats ds_totalSize] in H1.
  split; [symmetry; exact H1|].
  intros Hsizes Hsum.
  rewrite calculateDirectorySizeRecursive_exact by assumption.
  rewrite addAll_exact by (assumption || lia). lia.
Qed.

(** X24 at work on a directory with a file of 10 bytes and a subdirectory
    with a file of 20 bytes. *)
Lemma sizeByPattern_witness :
  let node :=
    depthTree (mkMeta 4096 0 0 0) (mkMeta 4096 0 0 0) (mkMeta 10 0 0 0) (mkMeta 20 0 0 0) in
  SizeCalculator.sizeByPattern "root" node (fun _ => true) false = 30 /\
  SizeCalculator.sizeByPattern "root" node (fun _ => true) false =
  SizeCalculator.calculateDirectorySizeRecursive "root" node false.
Proof.
  cbv zeta.
  destruct (sizeByPattern_of_every_name "root"
              (depthTree (mkMeta 4096 0 0 0) (mkMeta 4096 0 0 0)
                 (mkMeta 10 0 0 0) (mkMeta 20 0 0 0)) false)
    as [Hstats Hsize].
  split; [rewrite Hstats; reflexivity|].
  apply Hsize.
  - repeat constructor; cbv; discriminate.
  - cbv. discriminate.
Defined.

(** X25: a search without depth bound and filters, with a compiled pattern
    that keeps no state and accepts every name, finds the files of the
    statistics walk, in the same order with the same sizes, and its total
    size is the total size of the statistics; its numbers of files and of
    directories are the file count and the directory count of the
    statistics as long as they are at most [2^53]. *)
Theorem search_agrees_with_directory_stats
    (regExpTest : string -> string -> result bool)
    (searchPath : string) (root : Node) (includeHidden : bool) :
  let stats :=
    SizeCalculator.gatherDirectoryStats searchPath root includeHidden
      SizeCalculator.freshStats in
  exists r,
    search regExpTest (everything includeHidden) searchPath root = Ok r /\
    map pathAndSize (files r) = ds_largestFiles stats /\
    totalSize r = ds_totalSize stats /\
    (totalFiles r <= exactUpTo -> totalFiles r = ds_fileCount stats) /\
    (totalDirectories r <= exactUpTo -> totalDirectories r = ds_directoryCount stats).
Proof.
  cbv zeta. rewrite search_as_walk. cbv zeta. eexists. split; [reflexivity|].
  cbn [files directories totalFiles totalDirectories totalSize].
  destruct (@searchRecursive_gatherDirectoryStats regExpTest includeHidden root searchPath 0
              (mkArrays [] []) SizeCalculator.freshStats) as [Hf [Hd [Hc Ht]]];
    [repeat split|].
  split; [exact Hf|]. split; [exact Ht|]. split.
  - intros Hcount. rewrite <- Hc, countFrom_exact by lia. lia.
  - intros Hcount. rewrite <- Hd, countFrom_exact by lia. lia.
Qed.

(** X25 at work on a directory with a file of 10 bytes and a subdirectory
    with a file of 20 bytes. *)
Lemma search_agrees_with_directory_stats_witness :
  let node :=
    depthTree (mkMeta 4096 0 0 0) (mkMeta 4096 0 0 0) (mkMeta 10 0 0 0) (mkMeta 20 0 0 0) in
  let stats := SizeCalculator.gatherDirectoryStats "root" node false SizeCalculator.freshStats in
  exists r,
    search RegExpFragment.test (everything false) "root" node = Ok r /\
    totalSize r = ds_totalSize stats /\
    totalFiles r = ds_fileCount stats /\
    totalDirectories r = ds_directoryCount stats.
Proof.
  cbv zeta.
  destruct (search_agrees_with_directory_stats RegExpFragment.test "root"
              (depthTree (mkMeta 4096 0 0 0) (mkMeta 4096 0 0 0)
                 (mkMeta 10 0 0 0) (mkMeta 20 0 0 0)) false)
    as [r [Hr [_ [Hsize [Hfiles Hdirs]]]]].
  exists r. split; [exact Hr|]. split; [exact Hsize|].
  cbv in Hr. injection Hr as Hr. subst r.
  split; [apply Hfiles|apply Hdirs]; cbv; discriminate.
Defined.
